(** * NBA shot-chart analysis: a shallow embedding of the analyzers

    The development follows the Python sources:
    - [nba_analysis/shot_chart.py]   : [ShotChartAnalyzer]
    - [nba_analysis/player_stats.py] : [PlayerStatsAnalyzer]
    - [nba_analysis/team_stats.py]   : [TeamStatsAnalyzer]
    - [grab_today_games.py], [NBA_API.py] : the game-identifier scratch file

    Python objects are modelled by explicit state passing: every method is a
    function from the instance ([self]) and the environment (remote service,
    file system) to an outcome together with the new instance and
    environment.  An exception leaves the mutations done before the [raise]
    in place, exactly as in Python. *)

From Stdlib Require Import ZArith QArith Qround String Ascii.
From stdpp Require Import gmap strings list sorting.

Local Open Scope Z_scope.

(** ** Python strings

    A [str] is a sequence of Unicode code points.  Literals of the source
    are written [lit "..."]. *)

Definition char := N.
Definition str := list N.

Definition lit (s : string) : str :=
  map N_of_ascii (list_ascii_of_string s).

(** The newline and carriage-return characters. *)
Definition LF : char := 10%N.
Definition CR : char := 13%N.

(** [str.isspace] on one character: the code points Python treats as
    whitespace (bidirectional class WS, B or S, or category Zs). *)
Definition isspace (c : char) : bool :=
  ((9 <=? c) && (c <=? 13) || (28 <=? c) && (c <=? 32)
   || (c =? 133) || (c =? 160) || (c =? 5760)
   || (8192 <=? c) && (c <=? 8202)
   || (c =? 8232) || (c =? 8233) || (c =? 8239) || (c =? 8287)
   || (c =? 12288))%N.

Fixpoint lstrip (s : str) : str :=
  match s with
  | c :: s' => if isspace c then lstrip s' else s
  | [] => []
  end.

Definition rstrip (s : str) : str := rev (lstrip (rev s)).

(** [s.strip()] *)
Definition strip (s : str) : str := rstrip (lstrip s).

(** No character of [s] is whitespace (newlines included). *)
Definition no_whitespace (s : str) : bool := forallb (fun c => negb (isspace c)) s.

Definition str_eqb (a b : str) : bool := bool_decide (a = b).

(** Decimal rendering of an integer, as [str(n)] does. *)
Fixpoint digits_fuel (fuel : nat) (n : N) (acc : str) : str :=
  match fuel with
  | O => acc
  | S fuel' =>
      let acc' := (48 + n mod 10)%N :: acc in
      if (n <? 10)%N then acc' else digits_fuel fuel' (n / 10)%N acc'
  end.

Definition str_of_N (n : N) : str := digits_fuel (S (N.to_nat (N.log2 n))) n [].

Definition str_of_int (z : Z) : str :=
  if z <? 0 then lit "-" ++ str_of_N (Z.to_N (- z)) else str_of_N (Z.to_N z).

(** ** 64-bit integers

    Arithmetic on an [int64] column wraps around. *)
Definition wrap64 (z : Z) : Z := (z + 2 ^ 63) mod 2 ^ 64 - 2 ^ 63.

(** ** Exceptions and outcomes *)

Inductive exn :=
| ValueError (msg : str)          (* raised by the analyzers themselves *)
| KeyError (key : str)            (* a missing dataframe column *)
| TypeError                       (* a reduction over non-numeric cells *)
| ZeroDivisionError
| IndexError
| FileNotFoundError (path : str)
| UpstreamError (what : str).     (* anything escaping from a third-party call *)

Inductive result (A : Type) :=
| Return (a : A)
| Raise (e : exn).
Arguments Return {A} a.
Arguments Raise {A} e.

#[export] Instance result_ret : MRet result := fun _ a => Return a.
#[export] Instance result_bind : MBind result := fun _ _ k r =>
  match r with
  | Return a => k a
  | Raise e => Raise e
  end.

Definition raises {A} (r : result A) : bool :=
  match r with Raise _ => true | Return _ => false end.

(** ** Floating-point numbers

    The sources compute percentages and means in binary floating point.
    Nothing proved below depends on how these operations round, so they are
    an interface; [Qfloat] further down instantiates it with exact
    rationals to run the model. *)

Class PyFloat := {
  float : Type;
  float_of_int : Z -> float;            (* float(n) *)
  truediv : Z -> Z -> float;            (* n / d on ints, d <> 0 *)
  float_lit : Q -> float;               (* a decimal literal such as 0.8 *)
  fadd : float -> float -> float;
  fsub : float -> float -> float;
  fmul : float -> float -> float;
  fdiv : float -> float -> float;
  fsum : list float -> float;
  fnan : float;
  fisnan : float -> bool;
  feqb : float -> float -> bool;        (* == *)
  fltb : float -> float -> bool;        (* < *)
  fround : Z -> float -> float;         (* round(x, ndigits) *)
  format_1f : float -> str;             (* format(x, ".1f") *)
  float_repr : float -> str;            (* repr(x) *)
}.

(** ** Dataframes

    A pandas [DataFrame] as the sources use it: a row count (the length of
    its [RangeIndex]) and named, typed columns.  [int64] and [float64]
    columns hold numbers; an [object] column holds arbitrary cells
    (strings, [None], numbers). *)

Section Pandas.
Context `{PyFloat}.

Inductive cell :=
| CInt (z : Z)
| CFloat (x : float)
| CStr (s : str)
| CNone.

Inductive Series :=
| SInt (l : list Z)          (* dtype int64 *)
| SFloat (l : list float)    (* dtype float64 *)
| SObj (l : list cell).      (* dtype object *)

Record DataFrame := mkDF {
  nrows : nat;
  cols : list (str * Series);
}.

(** [pd.DataFrame()] *)
Definition empty_frame : DataFrame := mkDF 0 [].

(** Python's [==] on two scalars, as pandas applies it element by
    element: a missing value equals nothing. *)
Definition py_eqb (a b : cell) : bool :=
  match a, b with
  | CInt x, CInt y => x =? y
  | CInt x, CFloat y => feqb (float_of_int x) y
  | CFloat x, CInt y => feqb x (float_of_int y)
  | CFloat x, CFloat y => feqb x y
  | CStr x, CStr y => str_eqb x y
  | _, _ => false
  end.

Definition series_cells (s : Series) : list cell :=
  match s with
  | SInt l => map CInt l
  | SFloat l => map CFloat l
  | SObj l => l
  end.

Definition series_len (s : Series) : nat :=
  match s with
  | SInt l => length l
  | SFloat l => length l
  | SObj l => length l
  end.

(** [len(df)] *)
Definition len (df : DataFrame) : Z := Z.of_nat (nrows df).

(** [df.columns] *)
Definition columns (df : DataFrame) : list str := map fst (cols df).

Fixpoint assoc (key : str) (l : list (str * Series)) : option Series :=
  match l with
  | [] => None
  | (k, s) :: l' => if str_eqb k key then Some s else assoc key l'
  end.

(** [df[col]] *)
Definition getitem (df : DataFrame) (col : str) : result Series :=
  match assoc col (cols df) with
  | Some s => Return s
  | None => Raise (KeyError col)
  end.

(** [df.get(col, default)] *)
Definition get_or (df : DataFrame) (col : str) (default : Series) : Series :=
  match assoc col (cols df) with
  | Some s => s
  | None => default
  end.

(** [series == v] : the boolean mask *)
Definition eq_scalar (s : Series) (v : cell) : list bool :=
  map (fun c => py_eqb c v) (series_cells s).

(** Positions of a list kept by a boolean mask. *)
Fixpoint select {A} (mask : list bool) (l : list A) : list A :=
  match mask, l with
  | b :: mask', x :: l' => if b then x :: select mask' l' else select mask' l'
  | _, _ => []
  end.

Definition series_select (mask : list bool) (s : Series) : Series :=
  match s with
  | SInt l => SInt (select mask l)
  | SFloat l => SFloat (select mask l)
  | SObj l => SObj (select mask l)
  end.

(** [df[mask]] : the rows whose index label the mask keeps *)
Definition df_mask (df : DataFrame) (mask : list bool) : DataFrame :=
  mkDF (length (select mask (seq 0 (nrows df))))
       (map (fun cs => (fst cs, series_select mask (snd cs))) (cols df)).

Definition series_rev (s : Series) : Series :=
  match s with
  | SInt l => SInt (rev l)
  | SFloat l => SFloat (rev l)
  | SObj l => SObj (rev l)
  end.

(** [df.iloc[::-1].reset_index(drop=True)] : a new frame, rows reversed *)
Definition df_reversed (df : DataFrame) : DataFrame :=
  mkDF (nrows df) (map (fun cs => (fst cs, series_rev (snd cs))) (cols df)).

Fixpoint replace_col (key : str) (s : Series) (l : list (str * Series))
  : list (str * Series) :=
  match l with
  | [] => [(key, s)]
  | (k, s0) :: l' =>
      if str_eqb k key then (k, s) :: l' else (k, s0) :: replace_col key s l'
  end.

(** [df[col] = series] on a frame that already has rows *)
Definition setitem (df : DataFrame) (col : str) (s : Series) : result DataFrame :=
  if Nat.eqb (series_len s) (nrows df)
  then Return (mkDF (nrows df) (replace_col col s (cols df)))
  else Raise (ValueError (lit "Length of values does not match length of index")).

Fixpoint cumsum_from (acc : Z) (l : list Z) : list Z :=
  match l with
  | [] => []
  | x :: l' => let acc' := wrap64 (acc + x) in acc' :: cumsum_from acc' l'
  end.

(** Running float sums; a missing value stays missing and is skipped. *)
Fixpoint fcumsum_from (acc : float) (l : list float) : list float :=
  match l with
  | [] => []
  | x :: l' =>
      if fisnan x then x :: fcumsum_from acc l'
      else let acc' := fadd acc x in acc' :: fcumsum_from acc' l'
  end.

(** [series.cumsum()] on a numeric column.  The sources only take it of
    the 0/1 column they have just built; sums over [object] columns are
    not modelled. *)
Definition cumsum (s : Series) : result Series :=
  match s with
  | SInt l => Return (SInt (cumsum_from 0 l))
  | SFloat l => Return (SFloat (fcumsum_from (float_of_int 0) l))
  | SObj _ => Raise TypeError
  end.

(** [k - series] on a numeric column *)
Definition rsub (k : Z) (s : Series) : result Series :=
  match s with
  | SInt l => Return (SInt (map (fun x => wrap64 (k - x)) l))
  | SFloat l => Return (SFloat (map (fun x => fsub (float_of_int k) x) l))
  | SObj _ => Raise TypeError
  end.

Definition mean_floats (l : list float) : float :=
  match l with
  | [] => fnan
  | _ => fdiv (fsum l) (float_of_int (Z.of_nat (length l)))
  end.

Fixpoint numeric_cells (l : list cell) : result (list float) :=
  match l with
  | [] => Return []
  | CInt z :: l' => r ← numeric_cells l'; Return (float_of_int z :: r)
  | CFloat x :: l' =>
      r ← numeric_cells l'; Return (if fisnan x then r else x :: r)
  | CNone :: l' => numeric_cells l'
  | CStr _ :: _ => Raise TypeError
  end.

(** [series.mean()] : missing values are skipped, text is rejected *)
Definition mean (s : Series) : result float :=
  match s with
  | SInt l => Return (mean_floats (map float_of_int l))
  | SFloat l => Return (mean_floats (filter (fun x => fisnan x = false) l))
  | SObj l => r ← numeric_cells l; Return (mean_floats r)
  end.

Definition is_numeric (s : Series) : bool :=
  match s with
  | SInt _ | SFloat _ => true
  | SObj _ => false
  end.

(** [df.select_dtypes(include=['float64', 'int64']).columns] *)
Definition numeric_columns (df : DataFrame) : list str :=
  map fst (filter (fun cs => is_numeric (snd cs) = true) (cols df)).

Definition str_in (x : str) (l : list str) : bool := bool_decide (x ∈ l).

(** What pandas guarantees of every frame the service hands out: the
    columns are as long as the index and carry distinct names, and the
    index fits in 64 bits. *)
Definition well_formed (df : DataFrame) : bool :=
  forallb (fun cs => Nat.eqb (series_len (snd cs)) (nrows df)) (cols df)
  && bool_decide (NoDup (columns df))
  && (Z.of_nat (nrows df) <? 2 ^ 63).

(** The cell of column [col] in row [i], when there is one. *)
Definition cell_at (df : DataFrame) (col : str) (i : nat) : option cell :=
  s ← assoc col (cols df); series_cells s !! i.

(** The number of rows of [df] that satisfy [p]. *)
Definition count_rows (df : DataFrame) (p : nat -> bool) : Z :=
  Z.of_nat (length (List.filter p (seq 0 (nrows df)))).

Definition cell_is (df : DataFrame) (col : str) (v : cell) (i : nat) : bool :=
  match cell_at df col i with
  | Some c => py_eqb c v
  | None => false
  end.

End Pandas.

(** ** The environment: stats client, clock and files *)

(** The operating system, as far as text files care. *)
Inductive Platform := Posix | Windows.

(** [os.linesep] *)
Definition linesep (p : Platform) : str :=
  match p with
  | Posix => [LF]
  | Windows => [CR; LF]
  end.

(** The endpoint objects the sources construct, with their arguments. *)
Inductive Request :=
| ShotChartDetail (team_id player_id : Z)
    (season_nullable season_type_all_star context_measure_simple : str)
| CommonPlayerInfo (player_id : Z)
| PlayerCareerStats (player_id : Z) (per_mode36 : str)
| PlayerGameLog (player_id : Z) (season season_type_all_star : str)
| LeagueDashTeamStats (season season_type_all_star per_mode_detailed : str)
| TeamGameLog (team_id : Z) (season season_type_all_star : str)
| LeagueGameFinder (league_id_nullable date_from_nullable date_to_nullable
                    season_type_nullable : str).

(** An entry of the client's static player and team tables. *)
Record StaticEntry := {
  entry_id : Z;
  entry_full_name : str;
}.

(** The third-party client: static name tables, and the remote service
    behind [Endpoint(...).get_data_frames()[0]], which may answer
    differently from call to call and may fail. *)
Class StatsClient `{PyFloat} := {
  service : Type;
  find_players_by_full_name : str -> list StaticEntry;
  find_teams_by_full_name : str -> list StaticEntry;
  find_team_by_abbreviation : str -> option StaticEntry;
  first_data_frame : Request -> service -> (str + DataFrame) * service;
  strftime_mdY : Z -> str;              (* date.strftime('%m/%d/%Y') *)
}.

Section Environment.
Context `{StatsClient}.

Record Env := mkEnv {
  svc : service;                                  (* the remote service *)
  calls : list (Request * (str + DataFrame));     (* requests issued so far *)
  today : Z;                                      (* date.today(), as an ordinal *)
  platform : Platform;                            (* decides os.linesep *)
  files : gmap str str;                           (* text files by name *)
}.

(** A method of an object of class [S]. *)
Definition M (S A : Type) : Type := S -> Env -> result A * S * Env.

#[export] Instance M_ret {S} : MRet (M S) := fun _ a self env =>
  (Return a, self, env).
#[export] Instance M_bind {S} : MBind (M S) := fun _ _ k m self env =>
  match m self env with
  | (Return a, self', env') => k a self' env'
  | (Raise e, self', env') => (Raise e, self', env')
  end.

Definition get_self {S} : M S S := fun self env => (Return self, self, env).
Definition put_self {S} (self' : S) : M S unit := fun _ env => (Return (), self', env).
Definition throw {S A} (e : exn) : M S A := fun self env => (Raise e, self, env).
Definition lift {S A} (r : result A) : M S A := fun self env => (r, self, env).

(** Build the endpoint and take its first dataframe. *)
Definition request {S} (rq : Request) : M S DataFrame := fun self env =>
  let '(resp, svc') := first_data_frame rq (svc env) in
  let env' := mkEnv svc' (calls env ++ [(rq, resp)]) (today env) (platform env) (files env) in
  match resp with
  | inr df => (Return df, self, env')
  | inl what => (Raise (UpstreamError what), self, env')
  end.

(** A method that only reads [self]. *)
Definition read_only {S A} (f : S -> result A) : M S A := fun self env =>
  (f self, self, env).

(** A caller that wraps every call in [try/except] and carries on: the
    outcome is dropped, the instance and the environment are kept. *)
Definition attempt {S A} (m : M S A) (st : S * Env) : S * Env :=
  let '(_, self', env') := m (fst st) (snd st) in (self', env').

(** The most recent frame in a log of requests that came back from an
    endpoint of the given kind. *)
Fixpoint last_frame (kind : Request -> bool)
    (log : list (Request * (str + DataFrame))) : option DataFrame :=
  match log with
  | [] => None
  | (rq, resp) :: log' =>
      match last_frame kind log' with
      | Some df => Some df
      | None => match resp with
                | inr df => if kind rq then Some df else None
                | inl _ => None
                end
      end
  end.

Definition outcome {S A} (r : result A * S * Env) : result A := r.1.1.

Definition is_value_error {A} (r : result A) : bool :=
  match r with
  | Raise (ValueError _) => true
  | _ => false
  end.

(** A call fails with the "not found" [ValueError] exactly when the name
    lookup found nothing. *)
Definition raises_iff_unresolved {A} (kind name : str) (lookup : option Z)
    (r : result A) : Prop :=
  (is_value_error r = true <-> lookup = None)
  /\ (lookup = None ->
      r = Raise (ValueError (kind ++ lit " '" ++ name ++ lit "' not found"))).

(** What an attribute caching the frames of one endpoint holds after the
    requests [new] have been issued. *)
Definition refreshed (kind : Request -> bool)
    (new : list (Request * (str + DataFrame))) (old : option DataFrame)
  : option DataFrame :=
  match last_frame kind new with
  | Some df => Some df
  | None => old
  end.

(** [obj[...]] on an attribute that may still be [None]. *)
Definition subscriptable {A} (o : option A) : result A :=
  match o with
  | Some a => Return a
  | None => Raise TypeError
  end.

End Environment.

(** ** Values of the statistics dictionaries and the figures *)

Section Values.
Context `{PyFloat}.

Inductive value :=
| VInt (z : Z)
| VFloat (x : float).

(** [n / d] on two integers *)
Definition py_truediv (n d : Z) : result float :=
  if d =? 0 then Raise ZeroDivisionError else Return (truediv n d).

(** [f"{v:.1f}"] *)
Definition format_value_1f (v : value) : str :=
  match v with
  | VInt z => format_1f (float_of_int z)
  | VFloat x => format_1f x
  end.

(** [f"{c}"] on a cell *)
Definition format_cell (c : cell) : str :=
  match c with
  | CInt z => str_of_int z
  | CFloat x => float_repr x
  | CStr s => s
  | CNone => lit "None"
  end.

(** The shapes [draw_court] adds to the axes, in tenths of a foot. *)
Inductive Patch :=
| Circle (cx cy radius : Q)
| Rectangle (x y width height : Q) (fill : bool)
| Arc (cx cy width height theta1 theta2 : Q) (dashed : bool).

Inductive PlotKind := ScatterPlot | LinePlot | BarPlot | BarhPlot.

Record Plot := mkPlot {
  plot_kind : PlotKind;
  plot_x : Series;
  plot_y : Series;
  plot_label : str;
}.

Record Figure := mkFigure {
  fig_patches : list Patch;
  fig_plots : list Plot;
  fig_xlabel : str;
  fig_ylabel : str;
  fig_title : str;
}.

(** [game_log.index] of a frame with a fresh [RangeIndex] *)
Definition range_index (df : DataFrame) : Series :=
  SInt (map Z.of_nat (seq 0 (nrows df))).

End Values.

(** ** Code the analyzers share *)

Section Shared.
Context `{StatsClient}.

(** [self.attr = v] *)
Definition assign {S} (set : S -> S) : M S unit :=
  self ← get_self; put_self (set self).

(** [ValueError(f"{kind} '{name}' not found")] *)
Definition not_found (kind name : str) : exn :=
  ValueError (kind ++ lit " '" ++ name ++ lit "' not found").

(** [f"{self.player_name}"] : an unset name prints as [None] *)
Definition format_name (name : option str) : str :=
  match name with
  | Some s => s
  | None => lit "None"
  end.

(** [frame is None or len(frame) == 0] *)
Definition missing (frame : option DataFrame) : bool :=
  match frame with
  | None => true
  | Some df => len df =? 0
  end.

(** The loop over [stat_columns] of the two performance plots. *)
Fixpoint plot_stats (game_log : DataFrame) (stat_columns : list str)
  : result (list Plot) :=
  match stat_columns with
  | [] => Return []
  | stat :: rest =>
      if str_in stat (columns game_log) then
        ys ← getitem game_log stat;
        plots ← plot_stats game_log rest;
        Return (mkPlot LinePlot (range_index game_log) ys stat :: plots)
      else plot_stats game_log rest
  end.

(** [df[col].mean() * 100] *)
Definition mean_pct (df : DataFrame) (col : str) : result float :=
  s ← getitem df col;
  m ← mean s;
  Return (fmul m (float_of_int 100)).

(** [df[col].mean()] *)
Definition column_mean (df : DataFrame) (col : str) : result float :=
  s ← getitem df col; mean s.

End Shared.

(** ** [nba_analysis/shot_chart.py] *)

Module ShotChart.
Section ShotChart.
Context `{StatsClient}.

Record ShotChartAnalyzer := mkShotChartAnalyzer {
  shot_data : option DataFrame;
}.

(** [__init__] *)
Definition init : ShotChartAnalyzer := mkShotChartAnalyzer None.

Definition get_player_id (player_name : str) : option Z :=
  let player_dict := find_players_by_full_name player_name in
  match player_dict with
  | e :: _ => Some (entry_id e)
  | [] => None
  end.

Definition get_team_id (team_name : str) : option Z :=
  let team_dict := find_teams_by_full_name team_name in
  match team_dict with
  | e :: _ => Some (entry_id e)
  | [] => None
  end.

Definition fetch_shot_data (player_name season season_type : str)
  : M ShotChartAnalyzer DataFrame :=
  let player_id := get_player_id player_name in
  match player_id with
  | None => throw (not_found (lit "Player") player_name)
  | Some player_id =>
      df ← request (ShotChartDetail 0 player_id season season_type (lit "FGA"));
      put_self (mkShotChartAnalyzer (Some df));;
      mret df
  end.

(** The patches [draw_court] adds to the axes. *)
Definition draw_court (outer_lines : bool) : list Patch :=
  let hoop := Circle 0 0 7.5 in
  let backboard := Rectangle (-30) (-7.5) 60 (-1) true in
  let outer_box := Rectangle (-80) (-47.5) 160 190 false in
  let inner_box := Rectangle (-60) (-47.5) 120 190 false in
  let top_free_throw := Arc 0 142.5 120 120 0 180 false in
  let bottom_free_throw := Arc 0 142.5 120 120 180 0 true in
  let restricted := Arc 0 0 80 80 0 180 false in
  let corner_three_a := Rectangle (-220) (-47.5) 0 140 true in
  let corner_three_b := Rectangle 220 (-47.5) 0 140 true in
  let three_arc := Arc 0 0 475 475 22 158 false in
  let center_outer_arc := Arc 0 422.5 120 120 180 0 false in
  let center_inner_arc := Arc 0 422.5 40 40 180 0 false in
  let court_elements :=
    [hoop; backboard; outer_box; inner_box; top_free_throw;
     bottom_free_throw; restricted; corner_three_a;
     corner_three_b; three_arc; center_outer_arc;
     center_inner_arc] in
  if outer_lines
  then court_elements ++ [Rectangle (-250) (-47.5) 500 470 false]
  else court_elements.

(** The field-goal percentage of the chart title. *)
Definition title_fg_pct (made_shots shot_data : DataFrame) : result value :=
  if len shot_data >? 0
  then x ← py_truediv (len made_shots) (len shot_data);
       Return (VFloat (fmul x (float_of_int 100)))
  else Return (VInt 0).

(** The body of [plot_shot_chart] once [self.shot_data] is loaded. *)
Definition draw_shot_chart (shot_data : DataFrame)
    (player_name season season_type : str) (title : option str)
  : result Figure :=
  let court := draw_court true in
  flag ← getitem shot_data (lit "SHOT_MADE_FLAG");
  let made_shots := df_mask shot_data (eq_scalar flag (CInt 1)) in
  flag ← getitem shot_data (lit "SHOT_MADE_FLAG");
  let missed_shots := df_mask shot_data (eq_scalar flag (CInt 0)) in
  missed_x ← getitem missed_shots (lit "LOC_X");
  missed_y ← getitem missed_shots (lit "LOC_Y");
  made_x ← getitem made_shots (lit "LOC_X");
  made_y ← getitem made_shots (lit "LOC_Y");
  title ← match title with
          | Some t => Return t
          | None =>
              fg_pct ← title_fg_pct made_shots shot_data;
              Return (player_name ++ lit " Shot Chart" ++ [LF]
                      ++ season ++ lit " " ++ season_type ++ [LF]
                      ++ lit "FG%: " ++ format_value_1f fg_pct ++ lit "%")
          end;
  Return (mkFigure court
            [mkPlot ScatterPlot missed_x missed_y (lit "Missed");
             mkPlot ScatterPlot made_x made_y (lit "Made")]
            [] [] title).

Definition plot_shot_chart (player_name season season_type : str)
    (title : option str) : M ShotChartAnalyzer Figure :=
  self ← get_self;
  match shot_data self with
  | None => fetch_shot_data player_name season season_type;; mret ()
  | Some _ => mret ()
  end;;
  self ← get_self;
  shot_data ← lift (subscriptable (shot_data self));
  lift (draw_shot_chart shot_data player_name season season_type title).

Definition three_point_statistics (shot_data : DataFrame)
    (stats : gmap str value) : result (gmap str value) :=
  ty ← getitem shot_data (lit "SHOT_TYPE");
  let three_pointers := df_mask shot_data (eq_scalar ty (CStr (lit "3PT Field Goal"))) in
  if len three_pointers >? 0 then
    flag ← getitem three_pointers (lit "SHOT_MADE_FLAG");
    let made_3pt := len (df_mask three_pointers (eq_scalar flag (CInt 1))) in
    let stats := <[lit "three_pt_attempts" := VInt (len three_pointers)]> stats in
    let stats := <[lit "three_pt_made" := VInt made_3pt]> stats in
    x ← py_truediv made_3pt (len three_pointers);
    Return (<[lit "three_pt_percentage" := VFloat (fmul x (float_of_int 100))]> stats)
  else Return stats.

Definition two_point_statistics (shot_data : DataFrame)
    (stats : gmap str value) : result (gmap str value) :=
  ty ← getitem shot_data (lit "SHOT_TYPE");
  let two_pointers := df_mask shot_data (eq_scalar ty (CStr (lit "2PT Field Goal"))) in
  if len two_pointers >? 0 then
    flag ← getitem two_pointers (lit "SHOT_MADE_FLAG");
    let made_2pt := len (df_mask two_pointers (eq_scalar flag (CInt 1))) in
    let stats := <[lit "two_pt_attempts" := VInt (len two_pointers)]> stats in
    let stats := <[lit "two_pt_made" := VInt made_2pt]> stats in
    x ← py_truediv made_2pt (len two_pointers);
    Return (<[lit "two_pt_percentage" := VFloat (fmul x (float_of_int 100))]> stats)
  else Return stats.

(** [get_shot_statistics] reads [self] and assigns nothing. *)
Definition get_shot_statistics (self : ShotChartAnalyzer)
  : result (gmap str value) :=
  match shot_data self with
  | None => Return ∅
  | Some shot_data =>
      if len shot_data =? 0 then Return ∅ else
      let total_shots := len shot_data in
      flag ← getitem shot_data (lit "SHOT_MADE_FLAG");
      let made_shots := len (df_mask shot_data (eq_scalar flag (CInt 1))) in
      fg_percentage ←
        (if total_shots >? 0
         then x ← py_truediv made_shots total_shots;
              Return (VFloat (fmul x (float_of_int 100)))
         else Return (VInt 0));
      let stats : gmap str value :=
        <[lit "fg_percentage" := fg_percentage]>
        (<[lit "missed_shots" := VInt (total_shots - made_shots)]>
         (<[lit "made_shots" := VInt made_shots]>
          (<[lit "total_shots" := VInt total_shots]> ∅))) in
      stats ← three_point_statistics shot_data stats;
      two_point_statistics shot_data stats
  end.

(** Row [i] is a made shot; row [i] is an attempt of the given type. *)
Definition made_row (df : DataFrame) : nat -> bool :=
  cell_is df (lit "SHOT_MADE_FLAG") (CInt 1).
Definition type_row (df : DataFrame) (ty : string) : nat -> bool :=
  cell_is df (lit "SHOT_TYPE") (CStr (lit ty)).

(** The field-goal percentage of a frame, from its rows alone. *)
Definition cached_fg_pct (df : DataFrame) : value :=
  if len df >? 0
  then VFloat (fmul (truediv (count_rows df (made_row df)) (len df))
                 (float_of_int 100))
  else VInt 0.

(** Two outcomes of drawing that show the same court and the same shots,
    or fail alike. *)
Definition same_chart_data (r r' : result Figure) : Prop :=
  match r, r' with
  | Return fig, Return fig' =>
      fig_patches fig = fig_patches fig' /\ fig_plots fig = fig_plots fig'
  | Raise e, Raise e' => e = e'
  | _, _ => False
  end.

(** The title [plot_shot_chart] composes when none is given. *)
Definition default_title (player_name season season_type : str) (fg_pct : value)
  : str :=
  player_name ++ lit " Shot Chart" ++ [LF]
  ++ season ++ lit " " ++ season_type ++ [LF]
  ++ lit "FG%: " ++ format_value_1f fg_pct ++ lit "%".

(** What a statistics dictionary says about one shot type: its three keys
    are there exactly when some row has that type, and then they hold the
    attempts, the makes among them, and makes over attempts times 100. *)
Definition shot_type_entries (stats : gmap str value) (df : DataFrame)
    (ty attempts_key made_key percentage_key : string) : Prop :=
  let some_row := exists i, (i < nrows df)%nat /\ type_row df ty i = true in
  let attempts := count_rows df (type_row df ty) in
  let made := count_rows df (fun i => type_row df ty i && made_row df i) in
  (is_Some (stats !! lit attempts_key) <-> some_row)
  /\ (is_Some (stats !! lit made_key) <-> some_row)
  /\ (is_Some (stats !! lit percentage_key) <-> some_row)
  /\ (some_row ->
      stats !! lit attempts_key = Some (VInt attempts)
      /\ stats !! lit made_key = Some (VInt made)
      /\ stats !! lit percentage_key
         = Some (VFloat (fmul (truediv made attempts) (float_of_int 100)))).

(** *** Sequences of calls on one instance *)

Inductive op :=
| GetPlayerId (player_name : str)
| GetTeamId (team_name : str)
| FetchShotData (player_name season season_type : str)
| DrawCourt (outer_lines : bool)
| PlotShotChart (player_name season season_type : str) (title : option str)
| GetShotStatistics.

Definition exec (o : op) : ShotChartAnalyzer * Env -> ShotChartAnalyzer * Env :=
  match o with
  | GetPlayerId n => attempt (read_only (fun _ => Return (get_player_id n)))
  | GetTeamId n => attempt (read_only (fun _ => Return (get_team_id n)))
  | FetchShotData n s t => attempt (fetch_shot_data n s t)
  | DrawCourt b => attempt (read_only (fun _ => Return (draw_court b)))
  | PlotShotChart n s t title => attempt (plot_shot_chart n s t title)
  | GetShotStatistics => attempt (read_only get_shot_statistics)
  end.

Definition run (ops : list op) (st : ShotChartAnalyzer * Env) :=
  foldl (fun st o => exec o st) st ops.

(** The number of dataframe-valued attributes that are not [None]. *)
Definition cached_frames (self : ShotChartAnalyzer) : nat :=
  length (omap id [shot_data self]).

Definition is_shot_chart (rq : Request) : bool :=
  match rq with ShotChartDetail _ _ _ _ _ => true | _ => false end.

End ShotChart.
End ShotChart.

(** ** [nba_analysis/player_stats.py] *)

Module PlayerStats.
Section PlayerStats.
Context `{StatsClient}.

Record PlayerStatsAnalyzer := mkPlayerStatsAnalyzer {
  player_id : option Z;
  player_name : option str;
  career_stats : option DataFrame;
  game_log : option DataFrame;
}.

(** [__init__] *)
Definition init : PlayerStatsAnalyzer :=
  mkPlayerStatsAnalyzer None None None None.

Definition set_player_id (v : option Z) (self : PlayerStatsAnalyzer) :=
  mkPlayerStatsAnalyzer v (player_name self) (career_stats self) (game_log self).
Definition set_player_name (v : option str) (self : PlayerStatsAnalyzer) :=
  mkPlayerStatsAnalyzer (player_id self) v (career_stats self) (game_log self).
Definition set_career_stats (v : option DataFrame) (self : PlayerStatsAnalyzer) :=
  mkPlayerStatsAnalyzer (player_id self) (player_name self) v (game_log self).
Definition set_game_log (v : option DataFrame) (self : PlayerStatsAnalyzer) :=
  mkPlayerStatsAnalyzer (player_id self) (player_name self) (career_stats self) v.

Definition get_player_id (player_name : str) : option Z :=
  let player_dict := find_players_by_full_name player_name in
  match player_dict with
  | e :: _ => Some (entry_id e)
  | [] => None
  end.

(** The first four lines shared by the three fetch methods: store the
    looked-up identifier and the name, then raise if there is none. *)
Definition resolve_player (name : str) : M PlayerStatsAnalyzer Z :=
  assign (set_player_id (get_player_id name));;
  assign (set_player_name (Some name));;
  self ← get_self;
  match player_id self with
  | None => throw (not_found (lit "Player") name)
  | Some pid => mret pid
  end.

Definition fetch_player_info (player_name : str)
  : M PlayerStatsAnalyzer DataFrame :=
  pid ← resolve_player player_name;
  request (CommonPlayerInfo pid).

Definition fetch_career_stats (player_name per_mode : str)
  : M PlayerStatsAnalyzer DataFrame :=
  pid ← resolve_player player_name;
  df ← request (PlayerCareerStats pid per_mode);
  assign (set_career_stats (Some df));;
  mret df.

Definition fetch_game_log (player_name season season_type : str)
  : M PlayerStatsAnalyzer DataFrame :=
  pid ← resolve_player player_name;
  df ← request (PlayerGameLog pid season season_type);
  assign (set_game_log (Some df));;
  mret df.

Definition plot_career_progression (stat_column : str)
    (self : PlayerStatsAnalyzer) : result Figure :=
  match career_stats self with
  | Some career_stats =>
      if len career_stats =? 0
      then Raise (ValueError (lit "No career stats loaded. Call fetch_career_stats first."))
      else
        seasons ← getitem career_stats (lit "SEASON_ID");
        values ← getitem career_stats stat_column;
        Return (mkFigure []
                  [mkPlot LinePlot seasons values []]
                  (lit "Season") stat_column
                  (format_name (player_name self) ++ lit " Career "
                   ++ stat_column ++ lit " Progression"))
  | None => Raise (ValueError (lit "No career stats loaded. Call fetch_career_stats first."))
  end.

Definition plot_season_performance (stat_columns : list str)
    (self : PlayerStatsAnalyzer) : result Figure :=
  match game_log self with
  | Some gl =>
      if len gl =? 0
      then Raise (ValueError (lit "No game log loaded. Call fetch_game_log first."))
      else
        let game_log := df_reversed gl in
        plots ← plot_stats game_log stat_columns;
        Return (mkFigure [] plots (lit "Game Number") (lit "Statistics")
                  (format_name (player_name self) ++ lit " Season Performance"))
  | None => Raise (ValueError (lit "No game log loaded. Call fetch_game_log first."))
  end.

Definition average_columns : list str :=
  [lit "PTS"; lit "AST"; lit "REB"; lit "STL"; lit "BLK";
   lit "FG_PCT"; lit "FG3_PCT"; lit "FT_PCT"; lit "MIN"].

Fixpoint averages_loop (game_log : DataFrame) (numeric_cols cols : list str)
    (averages : gmap str value) : result (gmap str value) :=
  match cols with
  | [] => Return averages
  | col :: rest =>
      if str_in col numeric_cols then
        s ← getitem game_log col;
        m ← mean s;
        averages_loop game_log numeric_cols rest (<[col := VFloat m]> averages)
      else averages_loop game_log numeric_cols rest averages
  end.

Definition get_season_averages (self : PlayerStatsAnalyzer)
  : result (gmap str value) :=
  match game_log self with
  | None => Return ∅
  | Some game_log =>
      if len game_log =? 0 then Return ∅ else
      let numeric_cols := numeric_columns game_log in
      averages_loop game_log numeric_cols average_columns ∅
  end.

Definition plot_shooting_splits (self : PlayerStatsAnalyzer) : result Figure :=
  match game_log self with
  | Some game_log =>
      if len game_log =? 0
      then Raise (ValueError (lit "No game log loaded. Call fetch_game_log first."))
      else
        fg ← mean_pct game_log (lit "FG_PCT");
        fg3 ← mean_pct game_log (lit "FG3_PCT");
        ft ← mean_pct game_log (lit "FT_PCT");
        let categories := SObj [CStr (lit "FG%"); CStr (lit "3P%"); CStr (lit "FT%")] in
        let values := SFloat [fg; fg3; ft] in
        Return (mkFigure [] [mkPlot BarPlot categories values []]
                  [] (lit "Percentage")
                  (format_name (player_name self) ++ lit " Shooting Splits"))
  | None => Raise (ValueError (lit "No game log loaded. Call fetch_game_log first."))
  end.

Definition create_stats_summary (self : PlayerStatsAnalyzer)
  : result DataFrame :=
  match game_log self with
  | None => Return empty_frame
  | Some game_log =>
      if len game_log =? 0 then Return empty_frame else
      pts ← column_mean game_log (lit "PTS");
      reb ← column_mean game_log (lit "REB");
      ast ← column_mean game_log (lit "AST");
      stl ← column_mean game_log (lit "STL");
      blk ← column_mean game_log (lit "BLK");
      fg ← mean_pct game_log (lit "FG_PCT");
      fg3 ← mean_pct game_log (lit "FG3_PCT");
      ft ← mean_pct game_log (lit "FT_PCT");
      mpg ← column_mean game_log (lit "MIN");
      let statistic :=
        SObj (map (fun s => CStr (lit s))
                ["Games Played"; "PPG"; "RPG"; "APG"; "SPG"; "BPG";
                 "FG%"; "3P%"; "FT%"; "MPG"]%string) in
      let value := [float_of_int (len game_log); pts; reb; ast; stl; blk;
                    fg; fg3; ft; mpg] in
      Return (mkDF 10 [(lit "Statistic", statistic);
                       (lit "Value", SFloat (map (fround 2) value))])
  end.

(** *** Sequences of calls on one instance *)

Inductive op :=
| GetPlayerId (player_name : str)
| FetchPlayerInfo (player_name : str)
| FetchCareerStats (player_name per_mode : str)
| FetchGameLog (player_name season season_type : str)
| PlotCareerProgression (stat_column : str)
| PlotSeasonPerformance (stat_columns : list str)
| GetSeasonAverages
| PlotShootingSplits
| CreateStatsSummary.

Definition exec (o : op) : PlayerStatsAnalyzer * Env -> PlayerStatsAnalyzer * Env :=
  match o with
  | GetPlayerId n => attempt (read_only (fun _ => Return (get_player_id n)))
  | FetchPlayerInfo n => attempt (fetch_player_info n)
  | FetchCareerStats n m => attempt (fetch_career_stats n m)
  | FetchGameLog n s t => attempt (fetch_game_log n s t)
  | PlotCareerProgression c => attempt (read_only (plot_career_progression c))
  | PlotSeasonPerformance cs => attempt (read_only (plot_season_performance cs))
  | GetSeasonAverages => attempt (read_only get_season_averages)
  | PlotShootingSplits => attempt (read_only plot_shooting_splits)
  | CreateStatsSummary => attempt (read_only create_stats_summary)
  end.

Definition run (ops : list op) (st : PlayerStatsAnalyzer * Env) :=
  foldl (fun st o => exec o st) st ops.

(** The number of dataframe-valued attributes that are not [None]. *)
Definition cached_frames (self : PlayerStatsAnalyzer) : nat :=
  length (omap id [career_stats self; game_log self]).

Definition is_career_stats (rq : Request) : bool :=
  match rq with PlayerCareerStats _ _ => true | _ => false end.
Definition is_game_log (rq : Request) : bool :=
  match rq with PlayerGameLog _ _ _ => true | _ => false end.

End PlayerStats.
End PlayerStats.

(** ** [nba_analysis/team_stats.py] *)

Module TeamStats.
Section TeamStats.
Context `{StatsClient}.

Record TeamStatsAnalyzer := mkTeamStatsAnalyzer {
  team_id : option Z;
  team_name : option str;
  team_stats : option DataFrame;
  game_log : option DataFrame;
}.

(** [__init__] *)
Definition init : TeamStatsAnalyzer := mkTeamStatsAnalyzer None None None None.

Definition set_team_id (v : option Z) (self : TeamStatsAnalyzer) :=
  mkTeamStatsAnalyzer v (team_name self) (team_stats self) (game_log self).
Definition set_team_name (v : option str) (self : TeamStatsAnalyzer) :=
  mkTeamStatsAnalyzer (team_id self) v (team_stats self) (game_log self).
Definition set_team_stats (v : option DataFrame) (self : TeamStatsAnalyzer) :=
  mkTeamStatsAnalyzer (team_id self) (team_name self) v (game_log self).
Definition set_game_log (v : option DataFrame) (self : TeamStatsAnalyzer) :=
  mkTeamStatsAnalyzer (team_id self) (team_name self) (team_stats self) v.

Definition get_team_id (team_name : str) : option Z :=
  (* Try full name first *)
  let team_dict := find_teams_by_full_name team_name in
  match team_dict with
  | e :: _ => Some (entry_id e)
  | [] =>
      (* Try abbreviation *)
      let team_dict := find_team_by_abbreviation team_name in
      match team_dict with
      | Some e => Some (entry_id e)
      | None => None
      end
  end.

Definition fetch_league_standings (season season_type : str)
  : M TeamStatsAnalyzer DataFrame :=
  df ← request (LeagueDashTeamStats season season_type (lit "PerGame"));
  assign (set_team_stats (Some df));;
  mret df.

Definition fetch_team_game_log (name season season_type : str)
  : M TeamStatsAnalyzer DataFrame :=
  assign (set_team_id (get_team_id name));;
  assign (set_team_name (Some name));;
  self ← get_self;
  match team_id self with
  | None => throw (not_found (lit "Team") name)
  | Some tid =>
      df ← request (TeamGameLog tid season season_type);
      assign (set_game_log (Some df));;
      mret df
  end.

(** *** [DataFrame.nlargest] *)

(** Insert row [i] into a list of rows ordered by decreasing key; among
    equal keys the earlier row stays first. *)
Fixpoint insert_desc {A} (lt : A -> A -> bool) (x : nat * A)
    (l : list (nat * A)) : list (nat * A) :=
  match l with
  | [] => [x]
  | y :: l' => if lt (snd x) (snd y) then y :: insert_desc lt x l' else x :: y :: l'
  end.

Definition order_desc {A} (lt : A -> A -> bool) (l : list A) : list nat :=
  map fst (foldr (insert_desc lt) [] (zip (seq 0 (length l)) l)).

(** The row positions of a column by decreasing value, missing values
    last; text cannot be ranked. *)
Definition ranking (s : Series) : result (list nat) :=
  match s with
  | SInt l => Return (order_desc Z.ltb l)
  | SFloat l =>
      let rows := zip (seq 0 (length l)) l in
      let present := List.filter (fun r => negb (fisnan (snd r))) rows in
      let absent := List.filter (fun r => fisnan (snd r)) rows in
      Return (map fst (foldr (insert_desc fltb) [] present) ++ map fst absent)
  | SObj _ => Raise TypeError
  end.

Definition series_take (rows : list nat) (s : Series) : Series :=
  match s with
  | SInt l => SInt (omap (fun i => l !! i) rows)
  | SFloat l => SFloat (omap (fun i => l !! i) rows)
  | SObj l => SObj (omap (fun i => l !! i) rows)
  end.

(** [df.nlargest(n, col)] *)
Definition nlargest (n : Z) (col : str) (df : DataFrame) : result DataFrame :=
  s ← getitem df col;
  rows ← ranking s;
  let rows := take (Z.to_nat n) rows in
  Return (mkDF (length rows)
            (map (fun cs => (fst cs, series_take rows (snd cs))) (cols df))).

Definition no_team_stats : exn :=
  ValueError (lit "No team stats loaded. Call fetch_league_standings first.").
Definition no_game_log : exn :=
  ValueError (lit "No game log loaded. Call fetch_team_game_log first.").

Definition plot_league_leaders (stat_column : str) (top_n : Z)
    (self : TeamStatsAnalyzer) : result Figure :=
  match team_stats self with
  | Some team_stats =>
      if len team_stats =? 0 then Raise no_team_stats else
      top_teams ← nlargest top_n stat_column team_stats;
      values ← getitem top_teams stat_column;
      names ← getitem top_teams (lit "TEAM_NAME");
      Return (mkFigure [] [mkPlot BarhPlot names values []]
                stat_column []
                (lit "Top " ++ str_of_int top_n ++ lit " Teams - " ++ stat_column))
  | None => Raise no_team_stats
  end.

Definition plot_team_performance (stat_columns : list str)
    (self : TeamStatsAnalyzer) : result Figure :=
  match game_log self with
  | Some gl =>
      if len gl =? 0 then Raise no_game_log else
      let game_log := df_reversed gl in
      plots ← plot_stats game_log stat_columns;
      Return (mkFigure [] plots (lit "Game Number") (lit "Statistics")
                (format_name (team_name self) ++ lit " Season Performance"))
  | None => Raise no_game_log
  end.

(** [lambda x: 1 if x == 'W' else 0] *)
Definition is_win (x : cell) : Z :=
  if py_eqb x (CStr (lit "W")) then 1 else 0.

(** The three columns [plot_win_loss_record] adds to its reversed copy
    of the game log. *)
Definition win_loss_columns (gl : DataFrame) : result DataFrame :=
  (* Reverse the game log to show chronological order *)
  let game_log := df_reversed gl in
  (* Calculate cumulative wins *)
  wl ← getitem game_log (lit "WL");
  game_log ← setitem game_log (lit "IS_WIN") (SInt (map is_win (series_cells wl)));
  iw ← getitem game_log (lit "IS_WIN");
  wins ← cumsum iw;
  game_log ← setitem game_log (lit "CUMULATIVE_WINS") wins;
  iw ← getitem game_log (lit "IS_WIN");
  not_won ← rsub 1 iw;
  losses ← cumsum not_won;
  setitem game_log (lit "CUMULATIVE_LOSSES") losses.

Definition plot_win_loss_record (self : TeamStatsAnalyzer) : result Figure :=
  match game_log self with
  | Some gl =>
      if len gl =? 0 then Raise no_game_log else
      game_log ← win_loss_columns gl;
      wins ← getitem game_log (lit "CUMULATIVE_WINS");
      losses ← getitem game_log (lit "CUMULATIVE_LOSSES");
      Return (mkFigure []
                [mkPlot LinePlot (range_index game_log) wins (lit "Wins");
                 mkPlot LinePlot (range_index game_log) losses (lit "Losses")]
                (lit "Game Number") (lit "Count")
                (format_name (team_name self) ++ lit " Win/Loss Record"))
  | None => Raise no_game_log
  end.

(** [(wins / n * 100) if n > 0 else 0] *)
Definition percentage (part whole : Z) : result value :=
  if whole >? 0
  then x ← py_truediv part whole; Return (VFloat (fmul x (float_of_int 100)))
  else Return (VInt 0).

(** [get_team_summary] reads [self] and assigns nothing. *)
Definition get_team_summary (self : TeamStatsAnalyzer)
  : result (gmap str value) :=
  match game_log self with
  | None => Return ∅
  | Some game_log =>
      if len game_log =? 0 then Return ∅ else
      wl ← getitem game_log (lit "WL");
      let wins := len (df_mask game_log (eq_scalar wl (CStr (lit "W")))) in
      wl ← getitem game_log (lit "WL");
      let losses := len (df_mask game_log (eq_scalar wl (CStr (lit "L")))) in
      win_percentage ← percentage wins (len game_log);
      ppg ← column_mean game_log (lit "PTS");
      opp_ppg ← mean (get_or game_log (lit "OPP_PTS") (SInt [0]));
      fg_pct ← mean_pct game_log (lit "FG_PCT");
      fg3_pct ← mean_pct game_log (lit "FG3_PCT");
      ft_pct ← mean_pct game_log (lit "FT_PCT");
      reb_pg ← column_mean game_log (lit "REB");
      ast_pg ← column_mean game_log (lit "AST");
      Return (<[lit "ast_pg" := VFloat ast_pg]>
              (<[lit "reb_pg" := VFloat reb_pg]>
               (<[lit "ft_pct" := VFloat ft_pct]>
                (<[lit "fg3_pct" := VFloat fg3_pct]>
                 (<[lit "fg_pct" := VFloat fg_pct]>
                  (<[lit "opp_ppg" := VFloat opp_ppg]>
                   (<[lit "ppg" := VFloat ppg]>
                    (<[lit "win_percentage" := win_percentage]>
                     (<[lit "losses" := VInt losses]>
                      (<[lit "wins" := VInt wins]>
                       (<[lit "games_played" := VInt (len game_log)]> ∅)))))))))))
  end.

(** [series.isin(names)] *)
Definition isin (s : Series) (names : list str) : list bool :=
  map (fun c => existsb (fun n => py_eqb c (CStr n)) names) (series_cells s).

(** [[team_data[stat].values[0] for stat in stat_columns
      if stat in team_data.columns]] *)
Fixpoint first_values (team_data : DataFrame) (stat_columns : list str)
  : result (list cell) :=
  match stat_columns with
  | [] => Return []
  | stat :: rest =>
      if str_in stat (columns team_data) then
        s ← getitem team_data stat;
        v ← match series_cells s with
            | c :: _ => Return c
            | [] => Raise IndexError
            end;
        vs ← first_values team_data rest;
        Return (v :: vs)
      else first_values team_data rest
  end.

(** The loop over [enumerate(team_names)]; the bars record the arguments
    handed to [ax.bar]. *)
Fixpoint team_bars (teams_data : DataFrame) (stat_columns : list str)
    (width : float) (i : Z) (team_names : list str) : result (list Plot) :=
  match team_names with
  | [] => Return []
  | team :: rest =>
      names ← getitem teams_data (lit "TEAM_NAME");
      let team_data := df_mask teams_data (eq_scalar names (CStr team)) in
      if len team_data >? 0 then
        values ← first_values team_data stat_columns;
        let positions :=
          map (fun j => fadd (float_of_int (Z.of_nat j)) (fmul (float_of_int i) width))
              (seq 0 (length stat_columns)) in
        plots ← team_bars teams_data stat_columns width (i + 1) rest;
        Return (mkPlot BarPlot (SFloat positions) (SObj values) team :: plots)
      else team_bars teams_data stat_columns width (i + 1) rest
  end.

Definition compare_teams (team_names stat_columns : list str)
    (self : TeamStatsAnalyzer) : result Figure :=
  match team_stats self with
  | Some team_stats =>
      if len team_stats =? 0 then Raise no_team_stats else
      (* Filter teams *)
      names ← getitem team_stats (lit "TEAM_NAME");
      let teams_data := df_mask team_stats (isin names team_names) in
      if len teams_data =? 0
      then Raise (ValueError (lit "No teams found with the given names"))
      else
        width ← (if Z.of_nat (length team_names) =? 0
                 then Raise ZeroDivisionError
                 else Return (fdiv (float_lit 0.8)
                                (float_of_int (Z.of_nat (length team_names)))));
        plots ← team_bars teams_data stat_columns width 0 team_names;
        Return (mkFigure [] plots (lit "Statistics") (lit "Value")
                  (lit "Team Comparison"))
  | None => Raise no_team_stats
  end.

(** The game log has the numeric columns [get_team_summary] averages;
    [OPP_PTS] may be absent. *)
Definition numeric_column (df : DataFrame) (col : str) : bool :=
  match assoc col (cols df) with
  | Some s => is_numeric s
  | None => false
  end.

Definition summary_columns (df : DataFrame) : bool :=
  forallb (numeric_column df)
    [lit "PTS"; lit "FG_PCT"; lit "FG3_PCT"; lit "FT_PCT"; lit "REB"; lit "AST"]
  && match assoc (lit "OPP_PTS") (cols df) with
     | Some s => is_numeric s
     | None => true
     end.

(** *** Sequences of calls on one instance *)

Inductive op :=
| GetTeamId (team_name : str)
| FetchLeagueStandings (season season_type : str)
| FetchTeamGameLog (team_name season season_type : str)
| PlotLeagueLeaders (stat_column : str) (top_n : Z)
| PlotTeamPerformance (stat_columns : list str)
| PlotWinLossRecord
| GetTeamSummary
| CompareTeams (team_names stat_columns : list str).

Definition exec (o : op) : TeamStatsAnalyzer * Env -> TeamStatsAnalyzer * Env :=
  match o with
  | GetTeamId n => attempt (read_only (fun _ => Return (get_team_id n)))
  | FetchLeagueStandings s t => attempt (fetch_league_standings s t)
  | FetchTeamGameLog n s t => attempt (fetch_team_game_log n s t)
  | PlotLeagueLeaders c n => attempt (read_only (plot_league_leaders c n))
  | PlotTeamPerformance cs => attempt (read_only (plot_team_performance cs))
  | PlotWinLossRecord => attempt (read_only plot_win_loss_record)
  | GetTeamSummary => attempt (read_only get_team_summary)
  | CompareTeams ns cs => attempt (read_only (compare_teams ns cs))
  end.

Definition run (ops : list op) (st : TeamStatsAnalyzer * Env) :=
  foldl (fun st o => exec o st) st ops.

(** The number of dataframe-valued attributes that are not [None]. *)
Definition cached_frames (self : TeamStatsAnalyzer) : nat :=
  length (omap id [team_stats self; game_log self]).

Definition is_league_stats (rq : Request) : bool :=
  match rq with LeagueDashTeamStats _ _ _ => true | _ => false end.
Definition is_team_game_log (rq : Request) : bool :=
  match rq with TeamGameLog _ _ _ => true | _ => false end.

End TeamStats.
End TeamStats.

(** ** [grab_today_games.py] and [NBA_API.py]

    The two scripts share one text file.  Files are modelled as text: a
    file holds the characters written to it, with every newline turned
    into [os.linesep] on the way out and Python's universal-newlines
    translation on the way in.  Console output ([print]) is not
    modelled. *)

Module Scripts.
Section Scripts.
Context `{StatsClient}.

(** Two cells that [Series.unique] takes for the same value. *)
Definition same_value (a b : cell) : bool :=
  match a, b with
  | CNone, CNone => true
  | _, _ => py_eqb a b
  end.

(** [series.unique().tolist()] : first occurrences, in order *)
Fixpoint unique_from (seen : list cell) (l : list cell) : list cell :=
  match l with
  | [] => []
  | c :: l' =>
      if existsb (same_value c) seen then unique_from seen l'
      else c :: unique_from (c :: seen) l'
  end.

Definition unique (s : Series) : list cell := unique_from [] (series_cells s).

Definition now {S} : M S Z := fun self env => (Return (today env), self, env).

Definition get_yesterdays_games : M unit (Z * list cell) :=
  today ← now;
  let yesterday := today - 1 in
  let fmt_correction := strftime_mdY yesterday in
  games_df ← request (LeagueGameFinder (lit "00") fmt_correction fmt_correction
                        (lit "Regular Season"));
  ids ← lift (getitem games_df (lit "GAME_ID"));
  let game_ids := unique ids in
  mret (yesterday, game_ids).

(** What text mode puts in the file for the characters written. *)
Definition newlines_out (p : Platform) (content : str) : str :=
  flat_map (fun c => if (c =? LF)%N then linesep p else [c]) content.

(** [with open(filename, "w") as f: ...] with everything written to [f] *)
Definition write_file {S} (filename : str) (content : str) : M S unit :=
  fun self env =>
    (Return (), self,
     mkEnv (svc env) (calls env) (today env) (platform env)
       (<[filename := newlines_out (platform env) content]> (files env))).

(** The text the [for gid in game_ids] loop writes. *)
Fixpoint written_lines (game_ids : list cell) : str :=
  match game_ids with
  | [] => []
  | gid :: rest => (format_cell gid ++ [LF]) ++ written_lines rest
  end.

Definition default_filename : str := lit "yesterdays_games.txt".

Definition write_to_text (filename : str) : M unit unit :=
  '(yday, game_ids) ← get_yesterdays_games;
  match game_ids with
  | [] => mret ()       (* "Nothing was written." *)
  | _ => write_file filename (written_lines game_ids)
  end.

(** Reading in text mode turns ["\r\n"] and a lone ["\r"] into ["\n"]. *)
Fixpoint universal_newlines (s : str) : str :=
  match s with
  | [] => []
  | c :: s' =>
      if (c =? CR)%N then
        match s' with
        | c' :: s'' =>
            if (c' =? LF)%N then LF :: universal_newlines s''
            else LF :: universal_newlines s'
        | [] => [LF]
        end
      else c :: universal_newlines s'
  end.

(** [for line in f] : each line keeps its newline; a last line without one
    is still a line. *)
Fixpoint lines_from (current : str) (s : str) : list str :=
  match s with
  | [] => match current with [] => [] | _ => [current] end
  | c :: s' =>
      if (c =? LF)%N then (current ++ [LF]) :: lines_from [] s'
      else lines_from (current ++ [c]) s'
  end.

(** [open(filename, "r")] and the lines the file object yields *)
Definition read_lines {S} (filename : str) : M S (list str) :=
  fun self env =>
    match files env !! filename with
    | Some content => (Return (lines_from [] (universal_newlines content)), self, env)
    | None => (Raise (FileNotFoundError filename), self, env)
    end.

(** The module-level variable of [NBA_API.py]. *)
Record Globals := mkGlobals {
  games : list str;
}.

Fixpoint append_stripped (lines : list str) : M Globals unit :=
  match lines with
  | [] => mret ()
  | line :: rest =>
      g ← get_self;
      put_self (mkGlobals (games g ++ [strip line]));;
      append_stripped rest
  end.

(** [NBA_API.py], run as a script *)
Definition NBA_API : M Globals unit :=
  put_self (mkGlobals []);;
  lines ← read_lines (lit "yesterdays_games.txt");
  append_stripped lines.

End Scripts.
End Scripts.

(** ** A runnable instance

    Exact rationals stand in for floats, and a small canned service for
    the remote one, so that the model can be run on concrete data. *)

Definition Q_sum (l : list Q) : Q := foldr Qplus 0%Q l.

(** [round(x, n)] for [n >= 0], halves upwards *)
Definition Q_round (n : Z) (x : Q) : Q :=
  let scale := 10 ^ n in
  Qmake (Qfloor (x * inject_Z scale + (1 # 2))%Q) (Z.to_pos scale).

Definition Q_format_1f (x : Q) : str :=
  let tenths := Qfloor (x * 10 + (1 # 2))%Q in
  (if tenths <? 0 then lit "-" else [])
  ++ str_of_int (Z.abs tenths / 10) ++ lit "." ++ str_of_int (Z.abs tenths mod 10).

Definition Q_repr (x : Q) : str :=
  str_of_int (Qnum x) ++ lit "/" ++ str_of_int (Zpos (Qden x)).

Definition Qfloat : PyFloat := {|
  float := Q;
  float_of_int := inject_Z;
  truediv := fun n d => (inject_Z n / inject_Z d)%Q;
  float_lit := fun q => q;
  fadd := Qplus;
  fsub := Qminus;
  fmul := Qmult;
  fdiv := Qdiv;
  fsum := Q_sum;
  fnan := 0%Q;
  fisnan := fun _ => false;
  feqb := Qeq_bool;
  fltb := fun x y => negb (Qle_bool y x);
  fround := Q_round;
  format_1f := Q_format_1f;
  float_repr := Q_repr;
|}.

Module Demo.
Section Demo.
#[local] Existing Instance Qfloat.

Definition text (l : list string) : Series := SObj (map (fun s => CStr (lit s)) l).

Definition shots : DataFrame :=
  mkDF 5
    [(lit "SHOT_MADE_FLAG", SInt [1; 0; 1; 1; 0]);
     (lit "SHOT_TYPE",
      text ["3PT Field Goal"; "2PT Field Goal"; "2PT Field Goal";
            "3PT Field Goal"; "3PT Field Goal"]%string);
     (lit "LOC_X", SInt [-220; 12; -35; 158; 0]);
     (lit "LOC_Y", SInt [18; 40; 7; 190; 265])].

(** Only two-point attempts. *)
Definition layups : DataFrame :=
  mkDF 2
    [(lit "SHOT_MADE_FLAG", SInt [1; 0]);
     (lit "SHOT_TYPE", text ["2PT Field Goal"; "2PT Field Goal"]%string);
     (lit "LOC_X", SInt [3; -8]);
     (lit "LOC_Y", SInt [10; 14])].

(** A season in which nothing was attempted: the columns, no rows. *)
Definition no_shots : DataFrame :=
  mkDF 0
    [(lit "SHOT_MADE_FLAG", SInt []);
     (lit "SHOT_TYPE", SObj []);
     (lit "LOC_X", SInt []);
     (lit "LOC_Y", SInt [])].

(** A team game log, most recent game first; the third game has no
    result yet. *)
Definition team_log : DataFrame :=
  mkDF 4
    [(lit "WL", SObj [CStr (lit "W"); CStr (lit "L"); CNone; CStr (lit "W")]);
     (lit "PTS", SInt [112; 98; 101; 120]);
     (lit "FG_PCT", SFloat [0.5; 0.4; 0.45; 0.55]%Q);
     (lit "FG3_PCT", SFloat [0.4; 0.3; 0.35; 0.45]%Q);
     (lit "FT_PCT", SFloat [0.8; 0.7; 0.75; 0.85]%Q);
     (lit "REB", SInt [44; 39; 41; 50]);
     (lit "AST", SInt [25; 19; 22; 30])].

Definition player_log : DataFrame :=
  mkDF 2
    [(lit "PTS", SInt [30; 24]);
     (lit "AST", SInt [8; 11]);
     (lit "REB", SInt [7; 9]);
     (lit "STL", SInt [1; 2]);
     (lit "BLK", SInt [0; 1]);
     (lit "FG_PCT", SFloat [0.5; 0.25]%Q);
     (lit "FG3_PCT", SFloat [0.4; 0.2]%Q);
     (lit "FT_PCT", SFloat [0.9; 0.7]%Q);
     (lit "MIN", SInt [36; 34])].

Definition career : DataFrame :=
  mkDF 2
    [(lit "SEASON_ID", text ["2022-23"; "2023-24"]%string);
     (lit "PTS", SFloat [28.9; 25.7]%Q)].

Definition standings : DataFrame :=
  mkDF 2
    [(lit "TEAM_NAME", text ["Los Angeles Lakers"; "Boston Celtics"]%string);
     (lit "PTS", SFloat [118; 120.6]%Q)].

Definition finder : DataFrame :=
  mkDF 4
    [(lit "GAME_ID",
      text ["0022300061"; "0022300061"; "0022300062"; "0022300062"]%string)].

Definition info : DataFrame :=
  mkDF 1 [(lit "DISPLAY_FIRST_LAST", text ["LeBron James"]%string)].

Definition client : StatsClient := {|
  service := nat;
  find_players_by_full_name := fun name =>
    if str_eqb name (lit "LeBron James")
    then [Build_StaticEntry 2544 (lit "LeBron James")] else [];
  find_teams_by_full_name := fun name =>
    if str_eqb name (lit "Los Angeles Lakers")
    then [Build_StaticEntry 1610612747 (lit "Los Angeles Lakers")] else [];
  find_team_by_abbreviation := fun name =>
    if str_eqb name (lit "LAL")
    then Some (Build_StaticEntry 1610612747 (lit "Los Angeles Lakers")) else None;
  first_data_frame := fun rq n =>
    (match rq with
     | ShotChartDetail _ _ _ _ _ => inr shots
     | CommonPlayerInfo _ => inr info
     | PlayerCareerStats _ _ => inr career
     | PlayerGameLog _ _ _ => inr player_log
     | LeagueDashTeamStats _ _ _ => inr standings
     | TeamGameLog _ _ _ => inr team_log
     | LeagueGameFinder _ _ _ _ => inr finder
     end, S n);
  strftime_mdY := fun day => lit "day " ++ str_of_int day;
|}.

#[local] Existing Instance client.

Definition env0 : Env := mkEnv (0%nat : service) [] 739192 Windows ∅.

Definition season : str := lit "2023-24".
Definition regular : str := lit "Regular Season".
Definition lebron : str := lit "LeBron James".
Definition nobody : str := lit "Not A Real Player".

End Demo.
End Demo.

(** ** [usage_examples.py]

    An example function builds its own analyzer, calls it and prints.
    What they print is kept, line by line, next to the analyzer;
    [plt.savefig] is not modelled. *)

Module UsageExamples.
Section UsageExamples.
Context `{StatsClient}.

(** [analyzer = Analyzer()] : the example works on an analyzer of its
    own. *)
Definition construct {A} (a : A) : M (A * list str) unit := fun st env =>
  (Return (), (a, st.2), env).

(** Run a method of the analyzer inside an example. *)
Definition on_analyzer {A X} (m : M A X) : M (A * list str) X := fun st env =>
  let '(r, analyzer, env') := m st.1 env in (r, (analyzer, st.2), env').

(** [print(line)] *)
Definition print {A} (line : str) : M (A * list str) unit := fun st env =>
  (Return (), (st.1, st.2 ++ [line]), env).

(** [d[key]] on a dictionary *)
Definition dict_getitem (d : gmap str value) (key : str) : result value :=
  match d !! key with
  | Some v => Return v
  | None => Raise (KeyError key)
  end.

(** [f"{v}"] *)
Definition format_value (v : value) : str :=
  match v with
  | VInt z => str_of_int z
  | VFloat x => float_repr x
  end.

(** Example 1: analyzing a player's shot chart *)
Definition example_shot_chart : M (ShotChart.ShotChartAnalyzer * list str) unit :=
  construct ShotChart.init;;
  (* Create shot chart for a player *)
  on_analyzer (ShotChart.plot_shot_chart (lit "LeBron James") (lit "2023-24")
                 (lit "Regular Season") None);;
  (* Get shooting statistics *)
  stats ← on_analyzer (read_only ShotChart.get_shot_statistics);
  total ← lift (dict_getitem stats (lit "total_shots"));
  print (lit "Total Shots: " ++ format_value total);;
  fg ← lift (dict_getitem stats (lit "fg_percentage"));
  print (lit "FG%: " ++ format_value_1f fg ++ lit "%").

End UsageExamples.
End UsageExamples.

(** ** Vocabulary of the further properties *)

Section Vocabulary.
Context `{StatsClient}.

(** The entry [get_season_averages] holds for a column name: the mean of
    the column when the name is one of the nine averaged and the column is
    numeric, nothing otherwise. *)
Definition expected_average (df : DataFrame) (col : str) : option value :=
  if str_in col PlayerStats.average_columns && TeamStats.numeric_column df col
  then match column_mean df col with
       | Return m => Some (VFloat m)
       | Raise _ => None
       end
  else None.

(** The identifier attribute is the lookup of the name attribute. *)
Definition in_sync (lookup : str -> option Z) (id : option Z) (name : option str)
  : Prop :=
  id = name ≫= lookup.

(** A string begins and ends with a character that is not whitespace, or
    is empty. *)
Definition stripped (s : str) : Prop := lstrip s = s /\ rstrip s = s.

(** The columns [create_stats_summary] averages, in the order it reads
    them. *)
Definition summary_order : list str :=
  [lit "PTS"; lit "REB"; lit "AST"; lit "STL"; lit "BLK";
   lit "FG_PCT"; lit "FG3_PCT"; lit "FT_PCT"; lit "MIN"].

(** The columns that hold a fraction and are reported times 100. *)
Definition percentage_columns : list str :=
  [lit "FG_PCT"; lit "FG3_PCT"; lit "FT_PCT"].

(** The figure a report shows for the mean [m] of column [col]. *)
Definition reported (col : str) (m : float) : float :=
  if str_in col percentage_columns then fmul m (float_of_int 100) else m.

(** The sum of a list of integers. *)
Definition total (l : list Z) : Z := foldr Z.add 0 l.

(** The position of the first element that satisfies [p]. *)
Fixpoint first_index {A} (p : A -> bool) (l : list A) : option nat :=
  match l with
  | [] => None
  | x :: l' => if p x then Some 0%nat else S <$> first_index p l'
  end.

(** The first row of a column of names that holds [team]. *)
Definition first_row (names : Series) (team : str) : option nat :=
  first_index (fun c => py_eqb c (CStr team)) (series_cells names).

(** [team] occurs in the column of names. *)
Definition listed (names : Series) (team : str) : bool :=
  match first_row names team with
  | Some _ => true
  | None => false
  end.

(** A ranked row stands at least as high as another. *)
Definition ranks_above (p q : nat * Z) : Prop := snd q <= snd p.

End Vocabulary.

(** ** Further runnable data *)

Module Sample.
Section Sample.
#[local] Existing Instance Qfloat.

(** League standings with a column of wins. *)
Definition league : DataFrame :=
  mkDF 4
    [(lit "TEAM_NAME",
      Demo.text ["Los Angeles Lakers"; "Boston Celtics"; "Golden State Warriors";
                 "Denver Nuggets"]%string);
     (lit "W", SInt [47; 64; 46; 57]);
     (lit "PTS", SFloat [118; 120.6; 117.8; 114.9]%Q)].

Definition league_loaded : TeamStats.TeamStatsAnalyzer :=
  TeamStats.mkTeamStatsAnalyzer None None (Some league) None.

Definition team_log_loaded : TeamStats.TeamStatsAnalyzer :=
  TeamStats.mkTeamStatsAnalyzer None None None (Some Demo.team_log).

Definition player_log_loaded : PlayerStats.PlayerStatsAnalyzer :=
  PlayerStats.mkPlayerStatsAnalyzer None None None (Some Demo.player_log).

End Sample.
End Sample.

(** * Properties *)

(** ** Masks, rows and columns *)

Section PandasFacts.
Context `{PyFloat}.

Lemma py_eqb_str (c : cell) (s : str) : py_eqb c (CStr s) = true <-> c = CStr s.
Proof.
  destruct c; simpl; try (split; [discriminate | discriminate]).
  unfold str_eqb. rewrite bool_decide_eq_true. split; congruence.
Qed.

Lemma select_nil_r {A} (mask : list bool) : select mask (@nil A) = [].
Proof. destruct mask as [|[] ?]; reflexivity. Qed.

(** A mask keeps the index labels at which it holds [True]. *)
Lemma select_seq (mask : list bool) (k n : nat) :
  select mask (seq k n)
  = List.filter (fun i => default false (mask !! (i - k)%nat)) (seq k n).
Proof.
  revert mask k. induction n as [|n IH]; intros mask k.
  - simpl. apply select_nil_r.
  - destruct mask as [|b mask].
    + simpl select. generalize (seq k (S n)). intros l.
      induction l as [|i l IHl]; simpl; auto.
    + simpl. rewrite Nat.sub_diag. simpl. rewrite IH.
      assert (E : List.filter (fun i => default false (mask !! (i - S k)%nat)) (seq (S k) n)
                  = List.filter (fun i => default false ((b :: mask) !! (i - k)%nat)) (seq (S k) n)).
      { apply List.filter_ext_in. intros i Hi. apply in_seq in Hi.
        replace (i - k)%nat with (S (i - S k)) by lia. reflexivity. }
      rewrite E. destruct b; reflexivity.
Qed.

Lemma select_length_eq {A B} (mask : list bool) (l : list A) (l' : list B) :
  length l = length l' -> length (select mask l) = length (select mask l').
Proof.
  revert l l'. induction mask as [|b mask IH]; intros [|x l] [|y l'] E;
    simpl in *; try reflexivity; try discriminate.
  injection E as E. destruct b; simpl; auto.
Qed.

Lemma omap_ext_in {A B} (f g : A -> option B) (l : list A) :
  (forall x, In x l -> f x = g x) -> omap f l = omap g l.
Proof.
  induction l as [|x l IH]; intros E; [reflexivity|].
  change (omap f (x :: l)) with (from_option (fun y => y :: omap f l) (omap f l) (f x)).
  change (omap g (x :: l)) with (from_option (fun y => y :: omap g l) (omap g l) (g x)).
  rewrite (E x) by (left; reflexivity).
  rewrite IH by (intros; apply E; right; assumption). reflexivity.
Qed.

(** The positions a mask keeps, read off the list itself. *)
Lemma select_lookup {A} (mask : list bool) (l : list A) (k : nat) :
  select mask l
  = omap (fun i => l !! (i - k)%nat) (select mask (seq k (length l))).
Proof.
  revert l k. induction mask as [|b mask IH]; intros [|x l] k; simpl; try reflexivity.
  assert (E : omap (fun i => (x :: l) !! (i - k)%nat) (select mask (seq (S k) (length l)))
              = omap (fun i => l !! (i - S k)%nat) (select mask (seq (S k) (length l)))).
  { apply omap_ext_in. intros i Hi. rewrite select_seq in Hi.
    apply List.filter_In in Hi as [Hi _]. apply in_seq in Hi.
    replace (i - k)%nat with (S (i - S k)) by lia. reflexivity. }
  destruct b; simpl; rewrite ?Nat.sub_diag; simpl;
    [f_equal|]; rewrite (IH l (S k)); symmetry; exact E.
Qed.

Lemma filter_length_omap {A B} (f : A -> option B) (p : B -> bool) (q : A -> bool)
    (l : list A) :
  (forall x, In x l -> exists y, f x = Some y /\ p y = q x) ->
  length (List.filter p (omap f l)) = length (List.filter q l).
Proof.
  induction l as [|x l IH]; intros Hs; [reflexivity|].
  change (omap f (x :: l)) with (from_option (fun y => y :: omap f l) (omap f l) (f x)).
  destruct (Hs x) as (y & Hy & Hp); [left; reflexivity|].
  rewrite Hy. cbn [from_option List.filter]. rewrite Hp.
  specialize (IH (fun z Hz => Hs z (or_intror Hz))).
  destruct (q x); cbn [length]; rewrite IH; reflexivity.
Qed.

Lemma filter_filter_length {A} (p q : A -> bool) (l : list A) :
  length (List.filter p (List.filter q l))
  = length (List.filter (fun x => q x && p x) l).
Proof.
  induction l as [|x l IH]; simpl; [reflexivity|].
  destruct (q x); simpl; [destruct (p x); simpl|]; rewrite IH; reflexivity.
Qed.

Lemma select_true_length (mask : list bool) (k : nat) :
  length (select mask (seq k (length mask)))
  = length (List.filter (fun b : bool => b) mask).
Proof.
  revert k. induction mask as [|b mask IH]; intros k; simpl; [reflexivity|].
  destruct b; simpl; rewrite IH; reflexivity.
Qed.

Lemma filter_map_length {A} (f : A -> bool) (l : list A) :
  length (List.filter (fun b : bool => b) (map f l)) = length (List.filter f l).
Proof.
  induction l as [|x l IH]; simpl; [reflexivity|].
  destruct (f x); simpl; rewrite IH; reflexivity.
Qed.

Lemma select_map {A B} (g : A -> B) (mask : list bool) (l : list A) :
  select mask (map g l) = map g (select mask l).
Proof.
  revert l. induction mask as [|b mask IH]; intros [|x l]; simpl; try reflexivity.
  destruct b; simpl; rewrite IH; reflexivity.
Qed.

Lemma series_cells_select (mask : list bool) (s : Series) :
  series_cells (series_select mask s) = select mask (series_cells s).
Proof. destruct s; simpl; rewrite ?select_map; reflexivity. Qed.

Lemma series_cells_length (s : Series) : length (series_cells s) = series_len s.
Proof. destruct s; simpl; rewrite ?length_map; reflexivity. Qed.

Lemma series_cells_rev (s : Series) :
  series_cells (series_rev s) = rev (series_cells s).
Proof. destruct s; simpl; rewrite ?map_rev; reflexivity. Qed.

Lemma series_len_rev (s : Series) : series_len (series_rev s) = series_len s.
Proof. destruct s; simpl; apply length_rev. Qed.

Lemma assoc_map (f : Series -> Series) (key : str) (l : list (str * Series)) :
  assoc key (map (fun cs => (fst cs, f (snd cs))) l) = f <$> assoc key l.
Proof.
  induction l as [|[k s] l IH]; simpl; [reflexivity|].
  destruct (str_eqb k key); [reflexivity | exact IH].
Qed.

Lemma getitem_Return (df : DataFrame) (col : str) (s : Series) :
  getitem df col = Return s <-> assoc col (cols df) = Some s.
Proof.
  unfold getitem. destruct (assoc col (cols df)); split; congruence.
Qed.

Lemma getitem_df_mask (df : DataFrame) (mask : list bool) (col : str) (s : Series) :
  getitem df col = Return s ->
  getitem (df_mask df mask) col = Return (series_select mask s).
Proof.
  rewrite !getitem_Return. intros E. simpl. rewrite assoc_map, E. reflexivity.
Qed.

Lemma getitem_df_reversed (df : DataFrame) (col : str) (s : Series) :
  getitem df col = Return s ->
  getitem (df_reversed df) col = Return (series_rev s).
Proof.
  rewrite !getitem_Return. intros E. simpl. rewrite assoc_map, E. reflexivity.
Qed.

(** Membership of a column in a well-formed frame fixes its length. *)
Lemma well_formed_len (df : DataFrame) (col : str) (s : Series) :
  well_formed df = true -> assoc col (cols df) = Some s ->
  series_len s = nrows df.
Proof.
  unfold well_formed. rewrite !andb_true_iff. intros [[Hlen _] _].
  rewrite forallb_forall in Hlen. revert Hlen.
  generalize (nrows df). intros n. induction (cols df) as [|[k s0] l IH];
    simpl; intros Hlen E; [discriminate|].
  destruct (str_eqb k col).
  - injection E as <-. apply Nat.eqb_eq, (Hlen (k, s0)). left; reflexivity.
  - apply IH; [|exact E]. intros x Hx. apply Hlen. right; exact Hx.
Qed.

(** [len(df[mask])] counts the rows at which the mask holds. *)
Lemma len_df_mask (df : DataFrame) (mask : list bool) :
  len (df_mask df mask) = count_rows df (fun i => default false (mask !! i)).
Proof.
  unfold len, count_rows. simpl. rewrite select_seq. f_equal. f_equal.
  apply List.filter_ext. intros i. rewrite Nat.sub_0_r. reflexivity.
Qed.

Lemma eq_scalar_lookup (df : DataFrame) (col : str) (s : Series) (v : cell) (i : nat) :
  assoc col (cols df) = Some s ->
  default false (eq_scalar s v !! i) = cell_is df col v i.
Proof.
  intros E. unfold cell_is, cell_at, eq_scalar. rewrite E. simpl.
  rewrite list_lookup_fmap. destruct (series_cells s !! i); reflexivity.
Qed.

(** [len(df[df[col] == v])] is the number of rows whose [col] equals [v]. *)
Lemma len_eq_mask (df : DataFrame) (col : str) (s : Series) (v : cell) :
  getitem df col = Return s ->
  len (df_mask df (eq_scalar s v)) = count_rows df (cell_is df col v).
Proof.
  rewrite getitem_Return. intros E. rewrite len_df_mask. unfold count_rows.
  f_equal. f_equal. apply List.filter_ext. intros i.
  apply eq_scalar_lookup, E.
Qed.

(** Filtering on one column and then on another counts the rows that
    pass both tests. *)
Lemma len_eq_mask_twice (df : DataFrame) (c1 c2 : str) (s1 s2 : Series)
    (v1 v2 : cell) :
  well_formed df = true ->
  getitem df c1 = Return s1 -> getitem df c2 = Return s2 ->
  len (df_mask (df_mask df (eq_scalar s1 v1))
         (eq_scalar (series_select (eq_scalar s1 v1) s2) v2))
  = count_rows df (fun i => cell_is df c1 v1 i && cell_is df c2 v2 i).
Proof.
  intros Hwf E1 E2. apply getitem_Return in E1, E2.
  pose proof (well_formed_len df c2 s2 Hwf E2) as L2.
  rewrite <- series_cells_length in L2.
  unfold len, count_rows. f_equal. simpl nrows.
  set (m1 := eq_scalar s1 v1). unfold eq_scalar at 1.
  rewrite series_cells_select.
  set (mask2 := map _ (select m1 (series_cells s2))).
  assert (Hn : length (select m1 (seq 0 (nrows df))) = length mask2).
  { unfold mask2. rewrite length_map. apply select_length_eq.
    rewrite length_seq. symmetry. exact L2. }
  rewrite Hn, select_true_length. unfold mask2. rewrite filter_map_length.
  rewrite (select_lookup m1 (series_cells s2) 0), L2.
  rewrite (filter_length_omap _ _ (cell_is df c2 v2)).
  - rewrite select_seq, filter_filter_length. f_equal.
    apply List.filter_ext. intros i. rewrite Nat.sub_0_r. f_equal.
    apply eq_scalar_lookup, E1.
  - intros i Hi. rewrite select_seq in Hi. apply List.filter_In in Hi as [Hi _].
    apply in_seq in Hi. rewrite Nat.sub_0_r.
    destruct (lookup_lt_is_Some_2 (series_cells s2) i) as [y Hy]; [lia|].
    exists y. split; [exact Hy|]. unfold cell_is, cell_at. rewrite E2. simpl.
    rewrite Hy. reflexivity.
Qed.

Lemma count_rows_bounds (df : DataFrame) (p : nat -> bool) :
  0 <= count_rows df p <= len df.
Proof.
  unfold count_rows, len. split; [lia|].
  apply inj_le. etransitivity; [apply List.filter_length_le|].
  rewrite length_seq. reflexivity.
Qed.

Lemma count_rows_pos (df : DataFrame) (p : nat -> bool) :
  0 < count_rows df p <-> exists i, (i < nrows df)%nat /\ p i = true.
Proof.
  unfold count_rows. split.
  - intros Hpos. destruct (List.filter p (seq 0 (nrows df))) as [|i l] eqn:E;
      [simpl in Hpos; lia|].
    assert (Hi : In i (List.filter p (seq 0 (nrows df)))) by (rewrite E; left; reflexivity).
    apply List.filter_In in Hi as [Hi Hp]. apply in_seq in Hi.
    exists i. split; [lia | exact Hp].
  - intros (i & Hi & Hp).
    assert (Hin : In i (List.filter p (seq 0 (nrows df)))).
    { apply List.filter_In. split; [apply in_seq; lia | exact Hp]. }
    destruct (List.filter p (seq 0 (nrows df))); [destruct Hin | simpl; lia].
Qed.

End PandasFacts.

(** ** Shot statistics *)

Ltac key_ne := let E := fresh in intros E; vm_compute in E; discriminate E.
Ltac lookup_key_none :=
  repeat (rewrite lookup_insert_ne by key_ne);
  rewrite lookup_empty; discriminate.
Ltac lookup_key :=
  repeat (rewrite lookup_insert_ne by key_ne);
  first [apply lookup_insert_eq | apply lookup_empty | reflexivity].

Section ShotStatistics.
Context `{StatsClient}.
Import ShotChart.

Lemma str_in_columns (df : DataFrame) (col : str) :
  str_in col (columns df) = true <-> exists s, getitem df col = Return s.
Proof.
  unfold str_in, columns, getitem. rewrite bool_decide_eq_true.
  induction (cols df) as [|[k s] l IH]; simpl.
  - split; [intros Hin; inversion Hin | intros [s Hs]; discriminate].
  - unfold str_eqb. rewrite elem_of_cons. case_bool_decide as Hk.
    + split; [eauto | intros _; left; congruence].
    + rewrite IH. split; [intros [E|E]; [congruence | exact E] | intros E; right; exact E].
Qed.

Lemma three_point_statistics_eq (df : DataFrame) (stats : gmap str value)
    (flag ty : Series) :
  well_formed df = true ->
  getitem df (lit "SHOT_MADE_FLAG") = Return flag ->
  getitem df (lit "SHOT_TYPE") = Return ty ->
  let attempts := count_rows df (type_row df "3PT Field Goal") in
  let made := count_rows df (fun i => type_row df "3PT Field Goal" i && made_row df i) in
  three_point_statistics df stats
  = Return (if attempts >? 0
            then <[lit "three_pt_percentage" :=
                     VFloat (fmul (truediv made attempts) (float_of_int 100))]>
                 (<[lit "three_pt_made" := VInt made]>
                  (<[lit "three_pt_attempts" := VInt attempts]> stats))
            else stats).
Proof.
  intros Hwf Hflag Hty attempts made. unfold three_point_statistics.
  rewrite Hty. cbn [mbind result_bind].
  rewrite (getitem_df_mask _ _ _ _ Hflag). cbn [mbind result_bind].
  rewrite (len_eq_mask _ _ _ _ Hty).
  rewrite (len_eq_mask_twice _ _ _ _ _ _ _ Hwf Hty Hflag).
  fold (type_row df "3PT Field Goal"). fold (made_row df). fold attempts. fold made.
  destruct (attempts >? 0) eqn:Hpos; [|reflexivity].
  unfold py_truediv. replace (attempts =? 0) with false by lia. reflexivity.
Qed.

Lemma two_point_statistics_eq (df : DataFrame) (stats : gmap str value)
    (flag ty : Series) :
  well_formed df = true ->
  getitem df (lit "SHOT_MADE_FLAG") = Return flag ->
  getitem df (lit "SHOT_TYPE") = Return ty ->
  let attempts := count_rows df (type_row df "2PT Field Goal") in
  let made := count_rows df (fun i => type_row df "2PT Field Goal" i && made_row df i) in
  two_point_statistics df stats
  = Return (if attempts >? 0
            then <[lit "two_pt_percentage" :=
                     VFloat (fmul (truediv made attempts) (float_of_int 100))]>
                 (<[lit "two_pt_made" := VInt made]>
                  (<[lit "two_pt_attempts" := VInt attempts]> stats))
            else stats).
Proof.
  intros Hwf Hflag Hty attempts made. unfold two_point_statistics.
  rewrite Hty. cbn [mbind result_bind].
  rewrite (getitem_df_mask _ _ _ _ Hflag). cbn [mbind result_bind].
  rewrite (len_eq_mask _ _ _ _ Hty).
  rewrite (len_eq_mask_twice _ _ _ _ _ _ _ Hwf Hty Hflag).
  fold (type_row df "2PT Field Goal"). fold (made_row df). fold attempts. fold made.
  destruct (attempts >? 0) eqn:Hpos; [|reflexivity].
  unfold py_truediv. replace (attempts =? 0) with false by lia. reflexivity.
Qed.

(** The dictionary [get_shot_statistics] builds on a loaded frame. *)
Lemma get_shot_statistics_eq (df : DataFrame) (flag ty : Series) :
  well_formed df = true -> (0 < nrows df)%nat ->
  getitem df (lit "SHOT_MADE_FLAG") = Return flag ->
  getitem df (lit "SHOT_TYPE") = Return ty ->
  let total := len df in
  let made := count_rows df (made_row df) in
  let base : gmap str value :=
    <[lit "fg_percentage" := VFloat (fmul (truediv made total) (float_of_int 100))]>
    (<[lit "missed_shots" := VInt (total - made)]>
     (<[lit "made_shots" := VInt made]>
      (<[lit "total_shots" := VInt total]> ∅))) in
  exists with3,
    three_point_statistics df base = Return with3
    /\ get_shot_statistics (mkShotChartAnalyzer (Some df))
       = two_point_statistics df with3.
Proof.
  intros Hwf Hpos Hflag Hty total made base.
  pose proof (three_point_statistics_eq df base flag ty Hwf Hflag Hty) as E3.
  cbv zeta in E3. eexists. split; [exact E3|].
  unfold get_shot_statistics. cbn [shot_data].
  assert (Hlen : 0 < len df) by (unfold len; lia).
  replace (len df =? 0) with false by lia.
  rewrite Hflag. cbn [mbind result_bind].
  rewrite (len_eq_mask _ _ _ _ Hflag). fold (made_row df). fold made. fold total.
  replace (total >? 0) with true by (unfold total; lia).
  unfold py_truediv. replace (total =? 0) with false by (unfold total; lia).
  cbn [mbind result_bind]. fold base. rewrite E3. reflexivity.
Qed.

(** C3.  On every loaded, non-empty shot dataframe [get_shot_statistics]
    returns a dictionary in which [made_shots] is the number of rows with
    [SHOT_MADE_FLAG == 1], [made_shots + missed_shots] is [total_shots],
    the number of rows, [fg_percentage] is [made_shots / total_shots * 100],
    and the three-point (two-point) keys are present exactly when some row
    has [SHOT_TYPE] ['3PT Field Goal'] (['2PT Field Goal']), with the
    percentage equal to makes over attempts times 100. *)
Theorem get_shot_statistics_counts (df : DataFrame) :
  well_formed df = true -> (0 < nrows df)%nat ->
  str_in (lit "SHOT_MADE_FLAG") (columns df) = true ->
  str_in (lit "SHOT_TYPE") (columns df) = true ->
  exists stats made missed,
    get_shot_statistics (mkShotChartAnalyzer (Some df)) = Return stats
    /\ made = count_rows df (made_row df)
    /\ stats !! lit "total_shots" = Some (VInt (len df))
    /\ stats !! lit "made_shots" = Some (VInt made)
    /\ stats !! lit "missed_shots" = Some (VInt missed)
    /\ made + missed = len df
    /\ stats !! lit "fg_percentage"
       = Some (VFloat (fmul (truediv made (len df)) (float_of_int 100)))
    /\ shot_type_entries stats df "3PT Field Goal"
         "three_pt_attempts" "three_pt_made" "three_pt_percentage"
    /\ shot_type_entries stats df "2PT Field Goal"
         "two_pt_attempts" "two_pt_made" "two_pt_percentage".
Proof.
  intros Hwf Hpos Hflag Hty.
  apply str_in_columns in Hflag as [flag Hflag].
  apply str_in_columns in Hty as [ty Hty].
  destruct (get_shot_statistics_eq df flag ty Hwf Hpos Hflag Hty) as (with3 & E3 & E).
  cbv zeta in E3, E.
  rewrite (three_point_statistics_eq df _ flag ty Hwf Hflag Hty) in E3.
  rewrite (two_point_statistics_eq df _ flag ty Hwf Hflag Hty) in E.
  cbv zeta in E3, E. injection E3 as E3.
  eexists _, (count_rows df (made_row df)), (len df - count_rows df (made_row df)).
  split; [exact E|]. split; [reflexivity|].
  unfold shot_type_entries. cbv zeta.
  rewrite <- !count_rows_pos.
  set (a3 := count_rows df (type_row df "3PT Field Goal")) in *.
  set (a2 := count_rows df (type_row df "2PT Field Goal")) in *.
  subst with3.
  destruct (a3 >? 0) eqn:H3; destruct (a2 >? 0) eqn:H2;
    repeat split; try lia; try lookup_key;
    try (intros _; lia); try (intros _; eexists; lookup_key);
    try (intros [? Hk]; exfalso; revert Hk; lookup_key_none).
Qed.

End ShotStatistics.

(** ** Name resolution and fetching *)

Section Fetching.
Context `{StatsClient}.

(** Unfold one method call down to the service answer. *)
Ltac run_method :=
  unfold PlayerStats.resolve_player, assign, request, throw, lift,
    get_self, put_self, read_only, mbind, M_bind, mret, M_ret;
  cbn [fst snd].

Lemma bind_eq {S A B} (m : M S A) (k : A -> M S B) (self : S) (env : Env) :
  (m ≫= k) self env
  = match m self env with
    | (Return a, self', env') => k a self' env'
    | (Raise e, self', env') => (Raise e, self', env')
    end.
Proof. reflexivity. Qed.

Lemma request_eq {S} (rq : Request) (self : S) (env : Env) :
  request rq self env
  = (match (first_data_frame rq (svc env)).1 with
     | inr df => Return df
     | inl what => Raise (UpstreamError what)
     end, self,
     mkEnv (first_data_frame rq (svc env)).2
       (calls env ++ [(rq, (first_data_frame rq (svc env)).1)])
       (today env) (platform env) (files env)).
Proof.
  unfold request. destruct (first_data_frame rq (svc env)) as [[what|df] svc'];
    reflexivity.
Qed.

Lemma resolve_player_eq (name : str) (self : PlayerStats.PlayerStatsAnalyzer) (env : Env) :
  PlayerStats.resolve_player name self env
  = (match PlayerStats.get_player_id name with
     | Some pid => Return pid
     | None => Raise (not_found (lit "Player") name)
     end,
     PlayerStats.mkPlayerStatsAnalyzer (PlayerStats.get_player_id name) (Some name)
       (PlayerStats.career_stats self) (PlayerStats.game_log self),
     env).
Proof.
  run_method. cbn. destruct (PlayerStats.get_player_id name); reflexivity.
Qed.

Lemma fetch_career_stats_eq (name per_mode : str)
    (self : PlayerStats.PlayerStatsAnalyzer) (env : Env) :
  PlayerStats.fetch_career_stats name per_mode self env
  = match PlayerStats.get_player_id name with
    | None =>
        (Raise (not_found (lit "Player") name),
         PlayerStats.mkPlayerStatsAnalyzer None (Some name)
           (PlayerStats.career_stats self) (PlayerStats.game_log self),
         env)
    | Some pid =>
        let rq := PlayerCareerStats pid per_mode in
        let resp := (first_data_frame rq (svc env)).1 in
        let env' := mkEnv (first_data_frame rq (svc env)).2
                      (calls env ++ [(rq, resp)]) (today env) (platform env) (files env) in
        match resp with
        | inr df =>
            (Return df,
             PlayerStats.mkPlayerStatsAnalyzer (Some pid) (Some name) (Some df)
               (PlayerStats.game_log self), env')
        | inl what =>
            (Raise (UpstreamError what),
             PlayerStats.mkPlayerStatsAnalyzer (Some pid) (Some name)
               (PlayerStats.career_stats self) (PlayerStats.game_log self), env')
        end
    end.
Proof.
  unfold PlayerStats.fetch_career_stats. rewrite bind_eq.
  rewrite resolve_player_eq.
  destruct (PlayerStats.get_player_id name) as [pid|]; [|reflexivity].
  rewrite bind_eq, request_eq. cbv zeta.
  destruct (first_data_frame _ _).1; reflexivity.
Qed.

Lemma fetch_game_log_eq (name season season_type : str)
    (self : PlayerStats.PlayerStatsAnalyzer) (env : Env) :
  PlayerStats.fetch_game_log name season season_type self env
  = match PlayerStats.get_player_id name with
    | None =>
        (Raise (not_found (lit "Player") name),
         PlayerStats.mkPlayerStatsAnalyzer None (Some name)
           (PlayerStats.career_stats self) (PlayerStats.game_log self),
         env)
    | Some pid =>
        let rq := PlayerGameLog pid season season_type in
        let resp := (first_data_frame rq (svc env)).1 in
        let env' := mkEnv (first_data_frame rq (svc env)).2
                      (calls env ++ [(rq, resp)]) (today env) (platform env) (files env) in
        match resp with
        | inr df =>
            (Return df,
             PlayerStats.mkPlayerStatsAnalyzer (Some pid) (Some name)
               (PlayerStats.career_stats self) (Some df), env')
        | inl what =>
            (Raise (UpstreamError what),
             PlayerStats.mkPlayerStatsAnalyzer (Some pid) (Some name)
               (PlayerStats.career_stats self) (PlayerStats.game_log self), env')
        end
    end.
Proof.
  unfold PlayerStats.fetch_game_log. rewrite bind_eq.
  rewrite resolve_player_eq.
  destruct (PlayerStats.get_player_id name) as [pid|]; [|reflexivity].
  rewrite bind_eq, request_eq. cbv zeta.
  destruct (first_data_frame _ _).1; reflexivity.
Qed.

Lemma fetch_player_info_eq (name : str)
    (self : PlayerStats.PlayerStatsAnalyzer) (env : Env) :
  PlayerStats.fetch_player_info name self env
  = match PlayerStats.get_player_id name with
    | None =>
        (Raise (not_found (lit "Player") name),
         PlayerStats.mkPlayerStatsAnalyzer None (Some name)
           (PlayerStats.career_stats self) (PlayerStats.game_log self),
         env)
    | Some pid =>
        let rq := CommonPlayerInfo pid in
        let resp := (first_data_frame rq (svc env)).1 in
        (match resp with
         | inr df => Return df
         | inl what => Raise (UpstreamError what)
         end,
         PlayerStats.mkPlayerStatsAnalyzer (Some pid) (Some name)
           (PlayerStats.career_stats self) (PlayerStats.game_log self),
         mkEnv (first_data_frame rq (svc env)).2
           (calls env ++ [(rq, resp)]) (today env) (platform env) (files env))
    end.
Proof.
  unfold PlayerStats.fetch_player_info. rewrite bind_eq.
  rewrite resolve_player_eq.
  destruct (PlayerStats.get_player_id name) as [pid|]; [|reflexivity].
  rewrite request_eq. reflexivity.
Qed.

Lemma fetch_team_game_log_eq (name season season_type : str)
    (self : TeamStats.TeamStatsAnalyzer) (env : Env) :
  TeamStats.fetch_team_game_log name season season_type self env
  = match TeamStats.get_team_id name with
    | None =>
        (Raise (not_found (lit "Team") name),
         TeamStats.mkTeamStatsAnalyzer None (Some name)
           (TeamStats.team_stats self) (TeamStats.game_log self),
         env)
    | Some tid =>
        let rq := TeamGameLog tid season season_type in
        let resp := (first_data_frame rq (svc env)).1 in
        let env' := mkEnv (first_data_frame rq (svc env)).2
                      (calls env ++ [(rq, resp)]) (today env) (platform env) (files env) in
        match resp with
        | inr df =>
            (Return df,
             TeamStats.mkTeamStatsAnalyzer (Some tid) (Some name)
               (TeamStats.team_stats self) (Some df), env')
        | inl what =>
            (Raise (UpstreamError what),
             TeamStats.mkTeamStatsAnalyzer (Some tid) (Some name)
               (TeamStats.team_stats self) (TeamStats.game_log self), env')
        end
    end.
Proof.
  unfold TeamStats.fetch_team_game_log. run_method.
  cbn [TeamStats.team_id TeamStats.set_team_id TeamStats.set_team_name
       TeamStats.team_name TeamStats.team_stats TeamStats.game_log].
  destruct (TeamStats.get_team_id name) as [tid|]; [|reflexivity].
  destruct (first_data_frame _ _) as [[what|df] svc']; reflexivity.
Qed.

Lemma fetch_league_standings_eq (season season_type : str)
    (self : TeamStats.TeamStatsAnalyzer) (env : Env) :
  TeamStats.fetch_league_standings season season_type self env
  = let rq := LeagueDashTeamStats season season_type (lit "PerGame") in
    let resp := (first_data_frame rq (svc env)).1 in
    let env' := mkEnv (first_data_frame rq (svc env)).2
                  (calls env ++ [(rq, resp)]) (today env) (platform env) (files env) in
    match resp with
    | inr df => (Return df, TeamStats.set_team_stats (Some df) self, env')
    | inl what => (Raise (UpstreamError what), self, env')
    end.
Proof.
  unfold TeamStats.fetch_league_standings. run_method.
  destruct (first_data_frame _ _) as [[what|df] svc']; reflexivity.
Qed.

Lemma fetch_shot_data_eq (name season season_type : str)
    (self : ShotChart.ShotChartAnalyzer) (env : Env) :
  ShotChart.fetch_shot_data name season season_type self env
  = match ShotChart.get_player_id name with
    | None => (Raise (not_found (lit "Player") name), self, env)
    | Some pid =>
        let rq := ShotChartDetail 0 pid season season_type (lit "FGA") in
        let resp := (first_data_frame rq (svc env)).1 in
        let env' := mkEnv (first_data_frame rq (svc env)).2
                      (calls env ++ [(rq, resp)]) (today env) (platform env) (files env) in
        match resp with
        | inr df => (Return df, ShotChart.mkShotChartAnalyzer (Some df), env')
        | inl what => (Raise (UpstreamError what), self, env')
        end
    end.
Proof.
  unfold ShotChart.fetch_shot_data.
  destruct (ShotChart.get_player_id name) as [pid|]; [|reflexivity].
  run_method. destruct (first_data_frame _ _) as [[what|df] svc']; reflexivity.
Qed.

(** C1.  [fetch_shot_data], [fetch_career_stats], [fetch_game_log] and
    [fetch_team_game_log] raise the [ValueError] naming the unresolved
    player (or team) if and only if [get_player_id] ([get_team_id]) returns
    [None]; when the lookup succeeds, resolving the name raises nothing.
    The lookup returns [None] exactly when the static tables have no match
    for the name. *)
Theorem fetch_raises_iff_unresolved (name season season_type per_mode : str)
    (shot : ShotChart.ShotChartAnalyzer) (player : PlayerStats.PlayerStatsAnalyzer)
    (team : TeamStats.TeamStatsAnalyzer) (env : Env) :
  raises_iff_unresolved (lit "Player") name (ShotChart.get_player_id name)
    (outcome (ShotChart.fetch_shot_data name season season_type shot env))
  /\ raises_iff_unresolved (lit "Player") name (PlayerStats.get_player_id name)
       (outcome (PlayerStats.fetch_career_stats name per_mode player env))
  /\ raises_iff_unresolved (lit "Player") name (PlayerStats.get_player_id name)
       (outcome (PlayerStats.fetch_game_log name season season_type player env))
  /\ raises_iff_unresolved (lit "Team") name (TeamStats.get_team_id name)
       (outcome (TeamStats.fetch_team_game_log name season season_type team env))
  /\ (ShotChart.get_player_id name = None <-> find_players_by_full_name name = [])
  /\ (PlayerStats.get_player_id name = None <-> find_players_by_full_name name = [])
  /\ (TeamStats.get_team_id name = None
      <-> find_teams_by_full_name name = [] /\ find_team_by_abbreviation name = None).
Proof.
  rewrite fetch_shot_data_eq, fetch_career_stats_eq, fetch_game_log_eq,
    fetch_team_game_log_eq.
  split; [|split; [|split; [|split; [|split; [|split]]]]].
  5, 6: unfold ShotChart.get_player_id, PlayerStats.get_player_id;
    destruct (find_players_by_full_name name); split; congruence.
  5: { unfold TeamStats.get_team_id.
       destruct (find_teams_by_full_name name) as [|e l];
         [destruct (find_team_by_abbreviation name) as [e|]|].
       - split; [discriminate | intros [_ E]; discriminate E].
       - split; [intros _; split; reflexivity | intros _; reflexivity].
       - split; [discriminate | intros [E _]; discriminate E]. }
  all: unfold raises_iff_unresolved, outcome, not_found; cbv zeta;
    repeat split;
    try (destruct (ShotChart.get_player_id name));
    try (destruct (PlayerStats.get_player_id name));
    try (destruct (TeamStats.get_team_id name));
    try (destruct (first_data_frame _ _).1);
    cbn; congruence.
Qed.

(** C7.  A successful [fetch_career_stats] replaces [career_stats] (and
    [player_id], [player_name]) and leaves [game_log] as it was; a
    successful [fetch_game_log] replaces [game_log] and leaves
    [career_stats] as it was.  The call succeeds whenever the name resolves
    and the service answers with a frame.  [fetch_player_info], the third
    fetch of the class, touches neither frame. *)
Theorem fetch_replaces_own_frame_only (name per_mode season season_type : str)
    (self : PlayerStats.PlayerStatsAnalyzer) (env : Env) :
  (forall pid df,
      PlayerStats.get_player_id name = Some pid ->
      (first_data_frame (PlayerCareerStats pid per_mode) (svc env)).1 = inr df ->
      let r := PlayerStats.fetch_career_stats name per_mode self env in
      outcome r = Return df
      /\ r.1.2 = PlayerStats.mkPlayerStatsAnalyzer (Some pid) (Some name) (Some df)
                   (PlayerStats.game_log self))
  /\ (forall pid df,
      PlayerStats.get_player_id name = Some pid ->
      (first_data_frame (PlayerGameLog pid season season_type) (svc env)).1 = inr df ->
      let r := PlayerStats.fetch_game_log name season season_type self env in
      outcome r = Return df
      /\ r.1.2 = PlayerStats.mkPlayerStatsAnalyzer (Some pid) (Some name)
                   (PlayerStats.career_stats self) (Some df))
  /\ (forall df self' env',
      PlayerStats.fetch_career_stats name per_mode self env = (Return df, self', env') ->
      PlayerStats.career_stats self' = Some df
      /\ PlayerStats.player_id self' = PlayerStats.get_player_id name
      /\ PlayerStats.player_name self' = Some name
      /\ PlayerStats.game_log self' = PlayerStats.game_log self)
  /\ (forall df self' env',
      PlayerStats.fetch_game_log name season season_type self env = (Return df, self', env') ->
      PlayerStats.game_log self' = Some df
      /\ PlayerStats.player_id self' = PlayerStats.get_player_id name
      /\ PlayerStats.player_name self' = Some name
      /\ PlayerStats.career_stats self' = PlayerStats.career_stats self)
  /\ (let after := (PlayerStats.fetch_player_info name self env).1.2 in
      PlayerStats.career_stats after = PlayerStats.career_stats self
      /\ PlayerStats.game_log after = PlayerStats.game_log self).
Proof.
  rewrite fetch_career_stats_eq, fetch_game_log_eq, fetch_player_info_eq.
  unfold outcome. cbv zeta.
  repeat apply conj;
    try (destruct (PlayerStats.get_player_id name); reflexivity).
  - intros pid df -> ->. split; reflexivity.
  - intros pid df -> ->. split; reflexivity.
  - intros df self' env'. destruct (PlayerStats.get_player_id name); [|discriminate].
    destruct (first_data_frame _ _).1; [discriminate|].
    intros [= <- <- <-]. repeat split.
  - intros df self' env'. destruct (PlayerStats.get_player_id name); [|discriminate].
    destruct (first_data_frame _ _).1; [discriminate|].
    intros [= <- <- <-]. repeat split.
Qed.

(** C8.  When the name does not resolve, [fetch_career_stats],
    [fetch_game_log] and [fetch_team_game_log] have already stored [None]
    in [player_id] ([team_id]) and the unresolved name in [player_name]
    ([team_name]) when they raise, while [career_stats], [game_log] and
    [team_stats] keep their previous values. *)
Theorem failed_lookup_keeps_frames (name per_mode season season_type : str)
    (player : PlayerStats.PlayerStatsAnalyzer) (team : TeamStats.TeamStatsAnalyzer)
    (env : Env) :
  (PlayerStats.get_player_id name = None ->
   let after := PlayerStats.mkPlayerStatsAnalyzer None (Some name)
                  (PlayerStats.career_stats player) (PlayerStats.game_log player) in
   PlayerStats.fetch_career_stats name per_mode player env
   = (Raise (ValueError (lit "Player '" ++ name ++ lit "' not found")), after, env)
   /\ PlayerStats.fetch_game_log name season season_type player env
      = (Raise (ValueError (lit "Player '" ++ name ++ lit "' not found")), after, env))
  /\ (TeamStats.get_team_id name = None ->
      TeamStats.fetch_team_game_log name season season_type team env
      = (Raise (ValueError (lit "Team '" ++ name ++ lit "' not found")),
         TeamStats.mkTeamStatsAnalyzer None (Some name)
           (TeamStats.team_stats team) (TeamStats.game_log team),
         env)).
Proof.
  rewrite fetch_career_stats_eq, fetch_game_log_eq, fetch_team_game_log_eq.
  split.
  - intros ->. split; reflexivity.
  - intros ->. reflexivity.
Qed.

End Fetching.

(** ** The shot chart *)

Section ShotChartFacts.
Context `{StatsClient}.
Import ShotChart.

Lemma title_fg_pct_eq (df : DataFrame) (flag : Series) :
  getitem df (lit "SHOT_MADE_FLAG") = Return flag ->
  title_fg_pct (df_mask df (eq_scalar flag (CInt 1))) df = Return (cached_fg_pct df).
Proof.
  intros Hflag. unfold title_fg_pct, cached_fg_pct.
  rewrite (len_eq_mask _ _ _ _ Hflag). fold (made_row df).
  destruct (len df >? 0) eqn:Hpos; [|reflexivity].
  unfold py_truediv. replace (len df =? 0) with false by lia. reflexivity.
Qed.

(** The figure drawn from a frame that has the three columns read. *)
Lemma draw_shot_chart_eq (df : DataFrame) (flag xs ys : Series)
    (name season season_type : str) (title : option str) :
  getitem df (lit "SHOT_MADE_FLAG") = Return flag ->
  getitem df (lit "LOC_X") = Return xs ->
  getitem df (lit "LOC_Y") = Return ys ->
  draw_shot_chart df name season season_type title
  = Return (mkFigure (draw_court true)
              [mkPlot ScatterPlot (series_select (eq_scalar flag (CInt 0)) xs)
                 (series_select (eq_scalar flag (CInt 0)) ys) (lit "Missed");
               mkPlot ScatterPlot (series_select (eq_scalar flag (CInt 1)) xs)
                 (series_select (eq_scalar flag (CInt 1)) ys) (lit "Made")]
              [] []
              (match title with
               | Some t => t
               | None => default_title name season season_type (cached_fg_pct df)
               end)).
Proof.
  intros Hflag Hx Hy. unfold draw_shot_chart.
  rewrite Hflag. cbn [mbind result_bind].
  rewrite !(getitem_df_mask _ _ _ _ Hx), !(getitem_df_mask _ _ _ _ Hy).
  cbn [mbind result_bind]. destruct title as [t|]; [reflexivity|].
  rewrite (title_fg_pct_eq _ _ Hflag). reflexivity.
Qed.

(** Whatever the call is told about player and season, the court and the
    shots drawn are those of the frame. *)
Lemma draw_shot_chart_data (df : DataFrame)
    (name season season_type name' season' season_type' : str)
    (title title' : option str) :
  same_chart_data (draw_shot_chart df name season season_type title)
    (draw_shot_chart df name' season' season_type' title').
Proof.
  destruct (getitem df (lit "SHOT_MADE_FLAG")) as [flag|e] eqn:Hflag.
  - destruct (getitem df (lit "LOC_X")) as [xs|e] eqn:Hx.
    + destruct (getitem df (lit "LOC_Y")) as [ys|e] eqn:Hy.
      * rewrite !(draw_shot_chart_eq _ _ _ _ _ _ _ _ Hflag Hx Hy). split; reflexivity.
      * unfold draw_shot_chart. rewrite Hflag. cbn [mbind result_bind].
        rewrite !(getitem_df_mask _ _ _ _ Hx). cbn [mbind result_bind].
        assert (E : forall m, getitem (df_mask df m) (lit "LOC_Y") = Raise e).
        { intros m. revert Hy. unfold getitem. simpl. rewrite assoc_map.
          destruct (assoc _ (cols df)); [discriminate | simpl; congruence]. }
        rewrite !E. reflexivity.
    + unfold draw_shot_chart. rewrite Hflag. cbn [mbind result_bind].
      assert (E : forall m, getitem (df_mask df m) (lit "LOC_X") = Raise e).
      { intros m. revert Hx. unfold getitem. simpl. rewrite assoc_map.
        destruct (assoc _ (cols df)); [discriminate | simpl; congruence]. }
      rewrite !E. reflexivity.
  - unfold draw_shot_chart. rewrite Hflag. reflexivity.
Qed.

(** With a frame already loaded nothing is fetched. *)
Lemma plot_shot_chart_loaded (self : ShotChartAnalyzer) (df : DataFrame)
    (name season season_type : str) (title : option str) (env : Env) :
  shot_data self = Some df ->
  plot_shot_chart name season season_type title self env
  = (draw_shot_chart df name season season_type title, self, env).
Proof.
  intros Hdata.
  unfold plot_shot_chart, get_self, lift, mbind, M_bind, mret, M_ret.
  rewrite Hdata. cbn beta iota. rewrite Hdata. reflexivity.
Qed.

(** C10.  When [shot_data] is already loaded, [plot_shot_chart] issues no
    request and leaves [shot_data] as it is; the shots drawn and the
    field-goal percentage of the title come from the cached frame whatever
    [player_name], [season] and [season_type] are passed. *)
Theorem plot_shot_chart_uses_cache (self : ShotChartAnalyzer) (df : DataFrame)
    (name season season_type : str) (title : option str) (env : Env) :
  shot_data self = Some df ->
  plot_shot_chart name season season_type title self env
  = (draw_shot_chart df name season season_type title, self, env)
  /\ (forall name' season' season_type' title',
       same_chart_data (draw_shot_chart df name season season_type title)
         (draw_shot_chart df name' season' season_type' title'))
  /\ (forall fig,
       draw_shot_chart df name season season_type None = Return fig ->
       fig_title fig = default_title name season season_type (cached_fg_pct df)).
Proof.
  intros Hdata. split; [|split].
  - apply plot_shot_chart_loaded, Hdata.
  - intros. apply draw_shot_chart_data.
  - intros fig. unfold draw_shot_chart.
    destruct (getitem df (lit "SHOT_MADE_FLAG")) as [flag|e] eqn:Hflag; [|discriminate].
    cbn [mbind result_bind].
    repeat (match goal with
            | |- context [getitem (df_mask ?d ?m) ?c] =>
                destruct (getitem (df_mask d m) c); [|discriminate]
            end; cbn [mbind result_bind]).
    rewrite (title_fg_pct_eq _ _ Hflag). cbn [mbind result_bind].
    intros [= <-]. reflexivity.
Qed.

End ShotChartFacts.

(** ** What the attributes cache *)

Section Caching.
Context `{StatsClient}.

Lemma last_frame_app (kind : Request -> bool)
    (l1 l2 : list (Request * (str + DataFrame))) :
  last_frame kind (l1 ++ l2)
  = match last_frame kind l2 with
    | Some df => Some df
    | None => last_frame kind l1
    end.
Proof.
  induction l1 as [|[rq resp] l1 IH]; simpl.
  - destruct (last_frame kind l2); reflexivity.
  - rewrite IH. destruct (last_frame kind l2); reflexivity.
Qed.

Lemma refreshed_app (kind : Request -> bool)
    (l1 l2 : list (Request * (str + DataFrame))) (old : option DataFrame) :
  refreshed kind (l1 ++ l2) old = refreshed kind l2 (refreshed kind l1 old).
Proof.
  unfold refreshed. rewrite last_frame_app.
  destruct (last_frame kind l2); reflexivity.
Qed.

Lemma attempt_read_only {S A} (f : S -> result A) (st : S * Env) :
  attempt (read_only f) st = st.
Proof. destruct st. reflexivity. Qed.

Lemma plot_shot_chart_eq (name season season_type : str) (title : option str)
    (self : ShotChart.ShotChartAnalyzer) (env : Env) :
  ShotChart.plot_shot_chart name season season_type title self env
  = match ShotChart.shot_data self with
    | Some df =>
        (ShotChart.draw_shot_chart df name season season_type title, self, env)
    | None =>
        match ShotChart.fetch_shot_data name season season_type self env with
        | (Return df, self', env') =>
            (ShotChart.draw_shot_chart df name season season_type title, self', env')
        | (Raise e, self', env') => (Raise e, self', env')
        end
    end.
Proof.
  destruct (ShotChart.shot_data self) as [df|] eqn:Hdata.
  - apply plot_shot_chart_loaded, Hdata.
  - unfold ShotChart.plot_shot_chart.
    rewrite bind_eq. unfold get_self at 1. cbn beta iota. rewrite Hdata.
    rewrite !bind_eq. rewrite fetch_shot_data_eq.
    destruct (ShotChart.get_player_id name); [|reflexivity].
    cbv zeta. destruct (first_data_frame _ _).1; reflexivity.
Qed.

Ltac no_request := exists []; rewrite app_nil_r; repeat split.
Ltac one_request := eexists [_]; repeat split.

Lemma shot_exec_log (o : ShotChart.op) (self : ShotChart.ShotChartAnalyzer) (env : Env) :
  exists new,
    calls (ShotChart.exec o (self, env)).2 = calls env ++ new
    /\ ShotChart.shot_data (ShotChart.exec o (self, env)).1
       = refreshed ShotChart.is_shot_chart new (ShotChart.shot_data self).
Proof.
  destruct o; unfold ShotChart.exec; rewrite ?attempt_read_only;
    try (no_request; fail); unfold attempt; cbn [fst snd].
  - rewrite fetch_shot_data_eq.
    destruct (ShotChart.get_player_id _); [|no_request].
    cbv zeta. destruct (first_data_frame _ _).1 eqn:E; one_request.
  - rewrite plot_shot_chart_eq.
    destruct (ShotChart.shot_data self) eqn:Hdata; [no_request; exact Hdata|].
    rewrite fetch_shot_data_eq.
    destruct (ShotChart.get_player_id _); [|no_request; exact Hdata].
    cbv zeta. destruct (first_data_frame _ _).1 eqn:E; one_request; exact Hdata.
Qed.

Lemma shot_run_log (ops : list ShotChart.op) (self : ShotChart.ShotChartAnalyzer)
    (env : Env) :
  exists new,
    calls (ShotChart.run ops (self, env)).2 = calls env ++ new
    /\ ShotChart.shot_data (ShotChart.run ops (self, env)).1
       = refreshed ShotChart.is_shot_chart new (ShotChart.shot_data self).
Proof.
  revert self env. induction ops as [|o ops IH]; intros self env.
  - no_request.
  - simpl. destruct (shot_exec_log o self env) as (new1 & Hc1 & Hd1).
    destruct (ShotChart.exec o (self, env)) as [self1 env1].
    destruct (IH self1 env1) as (new2 & Hc2 & Hd2).
    exists (new1 ++ new2). cbn [fst snd] in *.
    rewrite Hc2, Hd2, Hc1, Hd1, refreshed_app, app_assoc. split; reflexivity.
Qed.

Lemma player_exec_log (o : PlayerStats.op) (self : PlayerStats.PlayerStatsAnalyzer)
    (env : Env) :
  exists new,
    calls (PlayerStats.exec o (self, env)).2 = calls env ++ new
    /\ PlayerStats.career_stats (PlayerStats.exec o (self, env)).1
       = refreshed PlayerStats.is_career_stats new (PlayerStats.career_stats self)
    /\ PlayerStats.game_log (PlayerStats.exec o (self, env)).1
       = refreshed PlayerStats.is_game_log new (PlayerStats.game_log self).
Proof.
  destruct o; unfold PlayerStats.exec; rewrite ?attempt_read_only;
    try (no_request; fail); unfold attempt; cbn [fst snd].
  - rewrite fetch_player_info_eq.
    destruct (PlayerStats.get_player_id _); [|no_request].
    cbv zeta. destruct (first_data_frame _ _).1 eqn:E; one_request.
  - rewrite fetch_career_stats_eq.
    destruct (PlayerStats.get_player_id _); [|no_request].
    cbv zeta. destruct (first_data_frame _ _).1 eqn:E; one_request.
  - rewrite fetch_game_log_eq.
    destruct (PlayerStats.get_player_id _); [|no_request].
    cbv zeta. destruct (first_data_frame _ _).1 eqn:E; one_request.
Qed.

Lemma player_run_log (ops : list PlayerStats.op)
    (self : PlayerStats.PlayerStatsAnalyzer) (env : Env) :
  exists new,
    calls (PlayerStats.run ops (self, env)).2 = calls env ++ new
    /\ PlayerStats.career_stats (PlayerStats.run ops (self, env)).1
       = refreshed PlayerStats.is_career_stats new (PlayerStats.career_stats self)
    /\ PlayerStats.game_log (PlayerStats.run ops (self, env)).1
       = refreshed PlayerStats.is_game_log new (PlayerStats.game_log self).
Proof.
  revert self env. induction ops as [|o ops IH]; intros self env.
  - no_request.
  - simpl. destruct (player_exec_log o self env) as (new1 & Hc1 & Hs1 & Hg1).
    destruct (PlayerStats.exec o (self, env)) as [self1 env1].
    destruct (IH self1 env1) as (new2 & Hc2 & Hs2 & Hg2).
    exists (new1 ++ new2). cbn [fst snd] in *.
    rewrite Hc2, Hs2, Hg2, Hc1, Hs1, Hg1, !refreshed_app, app_assoc.
    repeat split.
Qed.

Lemma team_exec_log (o : TeamStats.op) (self : TeamStats.TeamStatsAnalyzer)
    (env : Env) :
  exists new,
    calls (TeamStats.exec o (self, env)).2 = calls env ++ new
    /\ TeamStats.team_stats (TeamStats.exec o (self, env)).1
       = refreshed TeamStats.is_league_stats new (TeamStats.team_stats self)
    /\ TeamStats.game_log (TeamStats.exec o (self, env)).1
       = refreshed TeamStats.is_team_game_log new (TeamStats.game_log self).
Proof.
  destruct o; unfold TeamStats.exec; rewrite ?attempt_read_only;
    try (no_request; fail); unfold attempt; cbn [fst snd].
  - rewrite fetch_league_standings_eq.
    cbv zeta. destruct (first_data_frame _ _).1 eqn:E; one_request.
  - rewrite fetch_team_game_log_eq.
    destruct (TeamStats.get_team_id _); [|no_request].
    cbv zeta. destruct (first_data_frame _ _).1 eqn:E; one_request.
Qed.

Lemma team_run_log (ops : list TeamStats.op)
    (self : TeamStats.TeamStatsAnalyzer) (env : Env) :
  exists new,
    calls (TeamStats.run ops (self, env)).2 = calls env ++ new
    /\ TeamStats.team_stats (TeamStats.run ops (self, env)).1
       = refreshed TeamStats.is_league_stats new (TeamStats.team_stats self)
    /\ TeamStats.game_log (TeamStats.run ops (self, env)).1
       = refreshed TeamStats.is_team_game_log new (TeamStats.game_log self).
Proof.
  revert self env. induction ops as [|o ops IH]; intros self env.
  - no_request.
  - simpl. destruct (team_exec_log o self env) as (new1 & Hc1 & Hs1 & Hg1).
    destruct (TeamStats.exec o (self, env)) as [self1 env1].
    destruct (IH self1 env1) as (new2 & Hc2 & Hs2 & Hg2).
    exists (new1 ++ new2). cbn [fst snd] in *.
    rewrite Hc2, Hs2, Hg2, Hc1, Hs1, Hg1, !refreshed_app, app_assoc.
    repeat split.
Qed.

(** C2 (as amended).  Each dataframe-valued attribute, rather than each
    analyzer, holds at most one cached frame: after any sequence of calls
    on a fresh instance, [shot_data], [career_stats], [game_log] and
    [team_stats] are [None] if no request to their own endpoint has come
    back with a frame, and otherwise the frame of the most recent one that
    has.  A [ShotChartAnalyzer] so holds at most one frame, a
    [PlayerStatsAnalyzer] and a [TeamStatsAnalyzer] at most two. *)
Theorem attributes_cache_last_fetch (env : Env) (shot_ops : list ShotChart.op)
    (player_ops : list PlayerStats.op) (team_ops : list TeamStats.op) :
  (exists new,
      let st := ShotChart.run shot_ops (ShotChart.init, env) in
      calls st.2 = calls env ++ new
      /\ ShotChart.shot_data st.1 = last_frame ShotChart.is_shot_chart new
      /\ (ShotChart.cached_frames st.1 <= 1)%nat)
  /\ (exists new,
      let st := PlayerStats.run player_ops (PlayerStats.init, env) in
      calls st.2 = calls env ++ new
      /\ PlayerStats.career_stats st.1 = last_frame PlayerStats.is_career_stats new
      /\ PlayerStats.game_log st.1 = last_frame PlayerStats.is_game_log new
      /\ (PlayerStats.cached_frames st.1 <= 2)%nat)
  /\ (exists new,
      let st := TeamStats.run team_ops (TeamStats.init, env) in
      calls st.2 = calls env ++ new
      /\ TeamStats.team_stats st.1 = last_frame TeamStats.is_league_stats new
      /\ TeamStats.game_log st.1 = last_frame TeamStats.is_team_game_log new
      /\ (TeamStats.cached_frames st.1 <= 2)%nat).
Proof.
  split; [|split].
  - destruct (shot_run_log shot_ops ShotChart.init env) as (new & Hc & Hd).
    exists new. cbv zeta. split; [exact Hc|]. split.
    + rewrite Hd. unfold refreshed. simpl. destruct (last_frame _ new); reflexivity.
    + unfold ShotChart.cached_frames.
      destruct (ShotChart.shot_data _); simpl; lia.
  - destruct (player_run_log player_ops PlayerStats.init env) as (new & Hc & Hs & Hg).
    exists new. cbv zeta. split; [exact Hc|]. repeat split.
    + rewrite Hs. unfold refreshed. simpl. destruct (last_frame _ new); reflexivity.
    + rewrite Hg. unfold refreshed. simpl. destruct (last_frame _ new); reflexivity.
    + unfold PlayerStats.cached_frames.
      destruct (PlayerStats.career_stats _), (PlayerStats.game_log _); simpl; lia.
  - destruct (team_run_log team_ops TeamStats.init env) as (new & Hc & Hs & Hg).
    exists new. cbv zeta. split; [exact Hc|]. repeat split.
    + rewrite Hs. unfold refreshed. simpl. destruct (last_frame _ new); reflexivity.
    + rewrite Hg. unfold refreshed. simpl. destruct (last_frame _ new); reflexivity.
    + unfold TeamStats.cached_frames.
      destruct (TeamStats.team_stats _), (TeamStats.game_log _); simpl; lia.
Qed.

End Caching.

(** ** Missing data *)

Section MissingData.
Context `{StatsClient}.

Lemma missing_cases (frame : option DataFrame) :
  missing frame = true ->
  frame = None \/ exists df, frame = Some df /\ (len df =? 0) = true.
Proof.
  destruct frame as [df|]; simpl; intros E; [right; eauto | left; reflexivity].
Qed.

(** C9 (as amended).  On a frame that is [None] or empty the summary
    operations return an empty dictionary (an empty dataframe for
    [create_stats_summary]) instead of raising, while the plots of
    [PlayerStatsAnalyzer] and [TeamStatsAnalyzer] that read the same frame
    raise their [ValueError].  [ShotChartAnalyzer.plot_shot_chart] is
    different: on an empty frame it returns a chart without shots titled
    with a percentage of 0, and on [None] it fetches the data first and
    returns a chart when the name resolves and the service answers. *)
Theorem summaries_empty_on_missing_data :
  (forall shot : ShotChart.ShotChartAnalyzer,
      missing (ShotChart.shot_data shot) = true ->
      ShotChart.get_shot_statistics shot = Return ∅)
  /\ (forall (player : PlayerStats.PlayerStatsAnalyzer) (stat_columns : list str),
      missing (PlayerStats.game_log player) = true ->
      PlayerStats.get_season_averages player = Return ∅
      /\ PlayerStats.create_stats_summary player = Return empty_frame
      /\ PlayerStats.plot_season_performance stat_columns player
         = Raise (ValueError (lit "No game log loaded. Call fetch_game_log first."))
      /\ PlayerStats.plot_shooting_splits player
         = Raise (ValueError (lit "No game log loaded. Call fetch_game_log first.")))
  /\ (forall (team : TeamStats.TeamStatsAnalyzer) (stat_columns : list str),
      missing (TeamStats.game_log team) = true ->
      TeamStats.get_team_summary team = Return ∅
      /\ TeamStats.plot_team_performance stat_columns team
         = Raise (ValueError (lit "No game log loaded. Call fetch_team_game_log first."))
      /\ TeamStats.plot_win_loss_record team
         = Raise (ValueError (lit "No game log loaded. Call fetch_team_game_log first.")))
  /\ (forall (df : DataFrame) (name season season_type : str) (env : Env),
      len df = 0 ->
      str_in (lit "SHOT_MADE_FLAG") (columns df) = true ->
      str_in (lit "LOC_X") (columns df) = true ->
      str_in (lit "LOC_Y") (columns df) = true ->
      exists fig,
        ShotChart.plot_shot_chart name season season_type None
          (ShotChart.mkShotChartAnalyzer (Some df)) env
        = (Return fig, ShotChart.mkShotChartAnalyzer (Some df), env)
        /\ fig_title fig = ShotChart.default_title name season season_type (VInt 0))
  /\ (forall (name season season_type : str) (title : option str) (env : Env)
        (pid : Z) (df : DataFrame),
      ShotChart.get_player_id name = Some pid ->
      (first_data_frame (ShotChartDetail 0 pid season season_type (lit "FGA"))
         (svc env)).1 = inr df ->
      str_in (lit "SHOT_MADE_FLAG") (columns df) = true ->
      str_in (lit "LOC_X") (columns df) = true ->
      str_in (lit "LOC_Y") (columns df) = true ->
      exists fig env',
        ShotChart.plot_shot_chart name season season_type title
          (ShotChart.mkShotChartAnalyzer None) env
        = (Return fig, ShotChart.mkShotChartAnalyzer (Some df), env')).
Proof.
  repeat apply conj.
  - intros shot Hm. unfold ShotChart.get_shot_statistics.
    destruct (missing_cases _ Hm) as [-> | (df & -> & ->)]; reflexivity.
  - intros player stat_columns Hm.
    unfold PlayerStats.get_season_averages, PlayerStats.create_stats_summary,
      PlayerStats.plot_season_performance, PlayerStats.plot_shooting_splits.
    destruct (missing_cases _ Hm) as [-> | (df & -> & ->)]; repeat split.
  - intros team stat_columns Hm.
    unfold TeamStats.get_team_summary, TeamStats.plot_team_performance,
      TeamStats.plot_win_loss_record.
    destruct (missing_cases _ Hm) as [-> | (df & -> & ->)]; repeat split.
  - intros df name season season_type env Hlen Hflag Hx Hy.
    apply str_in_columns in Hflag as [flag Hflag].
    apply str_in_columns in Hx as [xs Hx]. apply str_in_columns in Hy as [ys Hy].
    eexists. rewrite plot_shot_chart_eq. cbn [ShotChart.shot_data].
    rewrite (draw_shot_chart_eq _ _ _ _ _ _ _ _ Hflag Hx Hy).
    split; [reflexivity|]. cbn [fig_title]. unfold ShotChart.cached_fg_pct.
    rewrite Hlen. reflexivity.
  - intros name season season_type title env pid df Hid Hresp Hflag Hx Hy.
    apply str_in_columns in Hflag as [flag Hflag].
    apply str_in_columns in Hx as [xs Hx]. apply str_in_columns in Hy as [ys Hy].
    rewrite plot_shot_chart_eq, fetch_shot_data_eq. cbn [ShotChart.shot_data].
    rewrite Hid. cbv zeta. rewrite Hresp.
    rewrite (draw_shot_chart_eq _ _ _ _ _ _ _ _ Hflag Hx Hy). eauto.
Qed.

End MissingData.

(** ** Wins and losses *)

Section WinLoss.
Context `{StatsClient}.
Import TeamStats.

Lemma assoc_replace_col_eq (key : str) (s : Series) (l : list (str * Series)) :
  assoc key (replace_col key s l) = Some s.
Proof.
  induction l as [|[k s0] l IH]; simpl.
  - unfold str_eqb. rewrite bool_decide_eq_true_2; reflexivity.
  - destruct (str_eqb k key) eqn:E; simpl; rewrite E; [reflexivity | exact IH].
Qed.

Lemma assoc_replace_col_ne (key key' : str) (s : Series) (l : list (str * Series)) :
  key <> key' -> assoc key' (replace_col key s l) = assoc key' l.
Proof.
  intros Hne. induction l as [|[k s0] l IH]; simpl.
  - unfold str_eqb. rewrite bool_decide_eq_false_2; [reflexivity | exact Hne].
  - destruct (str_eqb k key) eqn:E; simpl.
    + apply bool_decide_eq_true in E. subst k.
      unfold str_eqb. rewrite bool_decide_eq_false_2; [reflexivity | exact Hne].
    + destruct (str_eqb k key'); [reflexivity | exact IH].
Qed.

Lemma setitem_ok (df : DataFrame) (col : str) (s : Series) :
  series_len s = nrows df ->
  setitem df col s = Return (mkDF (nrows df) (replace_col col s (cols df))).
Proof. intros E. unfold setitem. rewrite E, Nat.eqb_refl. reflexivity. Qed.

Lemma getitem_replaced (n : nat) (col : str) (s : Series) (l : list (str * Series)) :
  getitem (mkDF n (replace_col col s l)) col = Return s.
Proof. unfold getitem. cbn [cols]. rewrite assoc_replace_col_eq. reflexivity. Qed.

Lemma getitem_replaced_ne (n : nat) (key key' : str) (s : Series)
    (l : list (str * Series)) :
  key <> key' ->
  getitem (mkDF n (replace_col key s l)) key' = getitem (mkDF n l) key'.
Proof.
  intros Hne. unfold getitem. cbn [cols].
  rewrite assoc_replace_col_ne by exact Hne. reflexivity.
Qed.

Lemma cumsum_from_length (acc : Z) (l : list Z) :
  length (cumsum_from acc l) = length l.
Proof. revert acc. induction l; intros acc; simpl; auto. Qed.

Lemma wrap64_small (z : Z) : - 2 ^ 63 <= z < 2 ^ 63 -> wrap64 z = z.
Proof. intros Hz. unfold wrap64. rewrite Z.mod_small; lia. Qed.

Lemma well_formed_int64 (df : DataFrame) :
  well_formed df = true -> Z.of_nat (nrows df) < 2 ^ 63.
Proof. unfold well_formed. rewrite !andb_true_iff. intros [_ Hn]. lia. Qed.

(** Running totals of a 0/1 column and of its complement add up to the
    number of entries seen, as long as that number fits in 64 bits. *)
Lemma cumsum_complement (l : list Z) (a b : Z) (i : nat) :
  Forall (fun x => x = 1 \/ x = 0) l ->
  0 <= a -> 0 <= b -> a + b + Z.of_nat (length l) < 2 ^ 63 ->
  (i < length l)%nat ->
  exists w k,
    cumsum_from a l !! i = Some w
    /\ cumsum_from b (map (fun x => wrap64 (1 - x)) l) !! i = Some k
    /\ w + k = a + b + Z.of_nat i + 1.
Proof.
  intros Hl. revert a b i.
  induction Hl as [|x l Hx _ IH]; intros a b i Ha Hb Hfit Hi; simpl in Hi; [lia|].
  cbn [length] in Hfit. cbn [cumsum_from map]. cbv zeta.
  assert (Ex : wrap64 (1 - x) = 1 - x) by (apply wrap64_small; lia).
  assert (Ea : wrap64 (a + x) = a + x) by (apply wrap64_small; lia).
  assert (Eb : wrap64 (b + (1 - x)) = b + (1 - x)) by (apply wrap64_small; lia).
  rewrite Ex, Ea, Eb.
  destruct i as [|i]; simpl.
  - exists (a + x), (b + (1 - x)). repeat split. lia.
  - destruct (IH (a + x) (b + (1 - x)) i) as (w & k & Hw & Hk & E); try lia.
    exists w, k. repeat split; [exact Hw | exact Hk | lia].
Qed.

Lemma is_win_spec (c : cell) :
  (is_win c = 1 <-> c = CStr (lit "W")) /\ (is_win c = 1 \/ is_win c = 0).
Proof.
  unfold is_win. destruct (py_eqb c (CStr (lit "W"))) eqn:E.
  - apply py_eqb_str in E. split; [tauto | left; reflexivity].
  - split; [|right; reflexivity]. split; [discriminate|].
    intros Hc. apply py_eqb_str in Hc. congruence.
Qed.

(** The frame [plot_win_loss_record] works on. *)
Lemma win_loss_columns_eq (gl : DataFrame) (wl : Series) :
  well_formed gl = true ->
  getitem gl (lit "WL") = Return wl ->
  let won := map is_win (rev (series_cells wl)) in
  win_loss_columns gl
  = Return (mkDF (nrows gl)
              (replace_col (lit "CUMULATIVE_LOSSES")
                 (SInt (cumsum_from 0 (map (fun x => wrap64 (1 - x)) won)))
                 (replace_col (lit "CUMULATIVE_WINS") (SInt (cumsum_from 0 won))
                    (replace_col (lit "IS_WIN") (SInt won)
                       (cols (df_reversed gl)))))).
Proof.
  intros Hwf Hwl. cbv zeta. unfold win_loss_columns.
  rewrite (getitem_df_reversed _ _ _ Hwl). cbn [mbind result_bind].
  rewrite series_cells_rev. set (won := map is_win (rev (series_cells wl))).
  assert (Hlen : length won = nrows gl).
  { unfold won. rewrite length_map, length_rev, series_cells_length.
    apply (well_formed_len gl (lit "WL")); [exact Hwf | apply getitem_Return, Hwl]. }
  rewrite setitem_ok by (cbn [series_len nrows df_reversed]; exact Hlen).
  cbn [mbind result_bind]. rewrite getitem_replaced. cbn [mbind result_bind cumsum].
  rewrite setitem_ok by (cbn [series_len nrows]; rewrite cumsum_from_length; exact Hlen).
  cbn [mbind result_bind nrows cols].
  rewrite (getitem_replaced_ne _ (lit "CUMULATIVE_WINS") (lit "IS_WIN"))
    by (intros E; vm_compute in E; discriminate E).
  rewrite getitem_replaced. cbn [mbind result_bind rsub cumsum].
  rewrite setitem_ok
    by (cbn [series_len nrows]; rewrite cumsum_from_length, length_map; exact Hlen).
  reflexivity.
Qed.

(** C4.  [plot_win_loss_record] takes its cumulative sums over the game
    log reversed into chronological order, with [IS_WIN] equal to 1 exactly
    when [WL] is ['W'] and 0 otherwise; at every position [i] of the
    reversed log the cumulative wins and losses add up to [i + 1]. *)
Theorem win_loss_cumulative_sums (team : TeamStatsAnalyzer) (gl : DataFrame)
    (wl : Series) :
  game_log team = Some gl ->
  well_formed gl = true -> (0 < nrows gl)%nat ->
  getitem gl (lit "WL") = Return wl ->
  exists fig wins losses,
    plot_win_loss_record team = Return fig
    /\ fig_plots fig
       = [mkPlot LinePlot (SInt (map Z.of_nat (seq 0 (nrows gl)))) (SInt wins) (lit "Wins");
          mkPlot LinePlot (SInt (map Z.of_nat (seq 0 (nrows gl)))) (SInt losses) (lit "Losses")]
    /\ wins = cumsum_from 0 (map is_win (rev (series_cells wl)))
    /\ losses = cumsum_from 0 (map (fun x => wrap64 (1 - x))
                                 (map is_win (rev (series_cells wl))))
    /\ (forall c, (is_win c = 1 <-> c = CStr (lit "W")) /\ (is_win c = 1 \/ is_win c = 0))
    /\ (forall i, (i < nrows gl)%nat ->
        exists w l, wins !! i = Some w /\ losses !! i = Some l
                    /\ w + l = Z.of_nat i + 1).
Proof.
  intros Hgl Hwf Hpos Hwl. unfold plot_win_loss_record. rewrite Hgl.
  replace (len gl =? 0) with false by (unfold len; lia).
  rewrite (win_loss_columns_eq gl wl Hwf Hwl). cbv zeta. cbn [mbind result_bind].
  rewrite (getitem_replaced_ne _ (lit "CUMULATIVE_LOSSES") (lit "CUMULATIVE_WINS"))
    by (intros E; vm_compute in E; discriminate E).
  rewrite getitem_replaced. cbn [mbind result_bind].
  rewrite getitem_replaced. cbn [mbind result_bind].
  eexists _, _, _. split; [reflexivity|]. split; [reflexivity|].
  split; [reflexivity|]. split; [reflexivity|]. split; [apply is_win_spec|].
  intros i Hi.
  assert (Hlen : length (map is_win (rev (series_cells wl))) = nrows gl).
  { rewrite length_map, length_rev, series_cells_length.
    apply (well_formed_len gl (lit "WL") wl Hwf), getitem_Return, Hwl. }
  destruct (cumsum_complement (map is_win (rev (series_cells wl))) 0 0 i)
    as (w & k & Hw & Hk & E); try lia.
  - apply Forall_forall. intros x Hx. apply list_elem_of_In, in_map_iff in Hx as (c & <- & _).
    apply is_win_spec.
  - rewrite Hlen. pose proof (well_formed_int64 gl Hwf). lia.
  - exists w, k. repeat split; [exact Hw | exact Hk | lia].
Qed.

End WinLoss.

(** ** The team summary *)

Section TeamSummary.
Context `{StatsClient}.
Import TeamStats.

Lemma mean_numeric (s : Series) :
  is_numeric s = true -> exists m, mean s = Return m.
Proof. destruct s; simpl; [eauto | eauto | discriminate]. Qed.

Lemma column_mean_numeric (df : DataFrame) (col : str) :
  numeric_column df col = true -> exists m, column_mean df col = Return m.
Proof.
  unfold numeric_column, column_mean, getitem.
  destruct (assoc col (cols df)) as [s|]; [|discriminate].
  intros Hs. destruct (mean_numeric s Hs) as [m Hm]. exists m.
  cbn [mbind result_bind]. exact Hm.
Qed.

Lemma mean_pct_numeric (df : DataFrame) (col : str) :
  numeric_column df col = true -> exists m, mean_pct df col = Return m.
Proof.
  unfold numeric_column, mean_pct, getitem.
  destruct (assoc col (cols df)) as [s|]; [|discriminate].
  intros Hs. destruct (mean_numeric s Hs) as [m Hm]. eexists.
  cbn [mbind result_bind]. rewrite Hm. reflexivity.
Qed.

(** Rows passing one of two exclusive tests, with a row passing neither. *)
Lemma exclusive_counts (p q : nat -> bool) (l : list nat) (i : nat) :
  (forall x, p x = true -> q x = false) ->
  In i l -> p i = false -> q i = false ->
  (length (List.filter p l) + length (List.filter q l) < length l)%nat.
Proof.
  intros Hex. induction l as [|x l IH]; intros Hin Hp Hq; [destruct Hin|].
  assert (Hle : forall l', (length (List.filter p l') + length (List.filter q l')
                            <= length l')%nat).
  { clear -Hex. intros l'. induction l' as [|y l' IHl]; simpl; [lia|].
    destruct (p y) eqn:Ep; [rewrite (Hex y Ep)|destruct (q y)]; simpl; lia. }
  simpl. destruct Hin as [-> | Hin].
  - rewrite Hp, Hq. specialize (Hle l). lia.
  - specialize (IH Hin Hp Hq).
    destruct (p x) eqn:Ep; [rewrite (Hex x Ep)|destruct (q x)]; simpl; lia.
Qed.

(** C5.  [get_team_summary] counts wins as the rows with [WL == 'W'] and
    losses as the rows with [WL == 'L'] and checks nothing: on a game log
    with a [WL] value that is neither, it returns normally with
    [wins + losses < games_played]. *)
Theorem team_summary_unchecked_totals (team : TeamStatsAnalyzer) (gl : DataFrame)
    (i : nat) (c : cell) :
  game_log team = Some gl ->
  well_formed gl = true -> summary_columns gl = true ->
  cell_at gl (lit "WL") i = Some c ->
  c <> CStr (lit "W") -> c <> CStr (lit "L") ->
  exists summary wins losses,
    get_team_summary team = Return summary
    /\ summary !! lit "games_played" = Some (VInt (len gl))
    /\ summary !! lit "wins" = Some (VInt wins)
    /\ summary !! lit "losses" = Some (VInt losses)
    /\ wins = count_rows gl (cell_is gl (lit "WL") (CStr (lit "W")))
    /\ losses = count_rows gl (cell_is gl (lit "WL") (CStr (lit "L")))
    /\ wins + losses < len gl.
Proof.
  intros Hgl Hwf Hcols Hcell HnW HnL.
  unfold cell_at in Hcell.
  destruct (assoc (lit "WL") (cols gl)) as [wl|] eqn:Hwl; [|discriminate].
  simpl in Hcell.
  assert (Hi : (i < nrows gl)%nat).
  { rewrite <- (well_formed_len gl _ wl Hwf Hwl), <- series_cells_length.
    apply lookup_lt_Some in Hcell. exact Hcell. }
  apply getitem_Return in Hwl.
  unfold summary_columns in Hcols. apply andb_true_iff in Hcols as [Hnum Hopp].
  cbn [forallb] in Hnum. repeat (apply andb_true_iff in Hnum as [? Hnum]).
  destruct (column_mean_numeric gl (lit "PTS")) as [ppg Eppg]; [assumption|].
  destruct (mean_pct_numeric gl (lit "FG_PCT")) as [fg Efg]; [assumption|].
  destruct (mean_pct_numeric gl (lit "FG3_PCT")) as [fg3 Efg3]; [assumption|].
  destruct (mean_pct_numeric gl (lit "FT_PCT")) as [ft Eft]; [assumption|].
  destruct (column_mean_numeric gl (lit "REB")) as [reb Ereb]; [assumption|].
  destruct (column_mean_numeric gl (lit "AST")) as [ast East]; [assumption|].
  assert (Eopp : exists m, mean (get_or gl (lit "OPP_PTS") (SInt [0])) = Return m).
  { unfold get_or. destruct (assoc (lit "OPP_PTS") (cols gl)) as [s|].
    - apply mean_numeric, Hopp.
    - eexists. reflexivity. }
  destruct Eopp as [opp Eopp].
  unfold get_team_summary. rewrite Hgl.
  replace (len gl =? 0) with false by (unfold len; lia).
  rewrite Hwl. cbn [mbind result_bind].
  rewrite !(len_eq_mask _ _ _ _ Hwl).
  set (wins := count_rows gl (cell_is gl (lit "WL") (CStr (lit "W")))).
  set (losses := count_rows gl (cell_is gl (lit "WL") (CStr (lit "L")))).
  unfold percentage. replace (len gl >? 0) with true by (unfold len; lia).
  unfold py_truediv. replace (len gl =? 0) with false by (unfold len; lia).
  cbn [mbind result_bind].
  rewrite Eppg. cbn [mbind result_bind]. rewrite Eopp. cbn [mbind result_bind].
  rewrite Efg. cbn [mbind result_bind]. rewrite Efg3. cbn [mbind result_bind].
  rewrite Eft. cbn [mbind result_bind]. rewrite Ereb. cbn [mbind result_bind].
  rewrite East. cbn [mbind result_bind].
  eexists _, wins, losses. split; [reflexivity|].
  split; [lookup_key|]. split; [lookup_key|]. split; [lookup_key|].
  split; [reflexivity|]. split; [reflexivity|].
  unfold wins, losses, count_rows, len. rewrite <- Nat2Z.inj_add. apply inj_lt.
  apply getitem_Return in Hwl.
  match goal with
  | |- (length (List.filter ?p ?l) + length (List.filter ?q ?l) < _)%nat =>
      pose proof (exclusive_counts p q l i) as Hlt
  end.
  rewrite length_seq in Hlt. apply Hlt; clear Hlt.
  - intros x. unfold cell_is, cell_at. rewrite Hwl. simpl.
    destruct (series_cells wl !! x) as [y|]; [|discriminate].
    intros Ey. apply py_eqb_str in Ey. subst y. reflexivity.
  - apply in_seq. lia.
  - unfold cell_is, cell_at. rewrite Hwl. simpl. rewrite Hcell.
    apply not_true_is_false. rewrite py_eqb_str. exact HnW.
  - unfold cell_is, cell_at. rewrite Hwl. simpl. rewrite Hcell.
    apply not_true_is_false. rewrite py_eqb_str. exact HnL.
Qed.

End TeamSummary.

(** ** The game-identifier file *)

Section GameFile.
Context `{StatsClient}.
Import Scripts.

Lemma isspace_LF : isspace LF = true.
Proof. reflexivity. Qed.

Lemma isspace_CR : isspace CR = true.
Proof. reflexivity. Qed.

Lemma not_space_not_newline (c : char) :
  isspace c = false -> (c =? LF)%N = false /\ (c =? CR)%N = false.
Proof.
  intros Hc. split; apply N.eqb_neq; intros ->; [rewrite isspace_LF in Hc | rewrite isspace_CR in Hc];
    discriminate.
Qed.

Lemma lstrip_no_whitespace (s : str) : no_whitespace s = true -> lstrip s = s.
Proof.
  destruct s as [|c s]; [reflexivity|]. simpl.
  intros Hs. apply andb_true_iff in Hs as [Hc _].
  apply negb_true_iff in Hc. rewrite Hc. reflexivity.
Qed.

Lemma lstrip_LF (s : str) : lstrip (LF :: s) = lstrip s.
Proof. reflexivity. Qed.

Lemma no_whitespace_rev (s : str) : no_whitespace s = true -> no_whitespace (rev s) = true.
Proof.
  unfold no_whitespace. rewrite !forallb_forall. intros Hs c Hc.
  apply Hs. apply in_rev. exact Hc.
Qed.

(** Stripping a written line gives back the identifier. *)
Lemma strip_line (s : str) : no_whitespace s = true -> strip (s ++ [LF]) = s.
Proof.
  intros Hs. unfold strip, rstrip. destruct s as [|c s].
  - reflexivity.
  - assert (E : lstrip ((c :: s) ++ [LF]) = (c :: s) ++ [LF]).
    { simpl. simpl in Hs. apply andb_true_iff in Hs as [Hc _].
      apply negb_true_iff in Hc. rewrite Hc. reflexivity. }
    rewrite E, rev_app_distr.
    change (rev [LF] ++ rev (c :: s)) with (LF :: rev (c :: s)).
    rewrite lstrip_LF.
    rewrite (lstrip_no_whitespace (rev (c :: s))) by (apply no_whitespace_rev, Hs).
    apply rev_involutive.
Qed.

Lemma universal_newlines_LF (s : str) :
  universal_newlines (LF :: s) = LF :: universal_newlines s.
Proof. reflexivity. Qed.

Lemma universal_newlines_CRLF (s : str) :
  universal_newlines (CR :: LF :: s) = LF :: universal_newlines s.
Proof. reflexivity. Qed.

(** Text free of carriage returns survives being written and read. *)
Lemma universal_newlines_out (p : Platform) (s : str) :
  forallb (fun c => negb (c =? CR)%N) s = true ->
  universal_newlines (newlines_out p s) = s.
Proof.
  induction s as [|c s IH]; [reflexivity|].
  intros Hs. cbn [forallb] in Hs. apply andb_true_iff in Hs as [Hc Hs].
  apply negb_true_iff in Hc. specialize (IH Hs).
  unfold newlines_out in *. cbn [flat_map].
  destruct (c =? LF)%N eqn:Hlf.
  - apply N.eqb_eq in Hlf. subst c.
    destruct p; cbn [linesep app] in *;
      rewrite ?universal_newlines_LF, ?universal_newlines_CRLF, IH; reflexivity.
  - cbn [app universal_newlines]. rewrite Hc, IH. reflexivity.
Qed.

Lemma lines_from_line (current s rest : str) :
  forallb (fun c => negb (c =? LF)%N) s = true ->
  lines_from current (s ++ LF :: rest) = (current ++ s ++ [LF]) :: lines_from [] rest.
Proof.
  revert current. induction s as [|c s IH]; intros current Hs; simpl.
  - reflexivity.
  - simpl in Hs. apply andb_true_iff in Hs as [Hc Hs]. apply negb_true_iff in Hc.
    rewrite Hc, (IH _ Hs), <- app_assoc. reflexivity.
Qed.

Lemma no_whitespace_chars (s : str) :
  no_whitespace s = true ->
  forallb (fun c => negb (c =? LF)%N) s = true
  /\ forallb (fun c => negb (c =? CR)%N) s = true.
Proof.
  unfold no_whitespace. rewrite !forallb_forall. intros Hs.
  split; intros c Hc; specialize (Hs c Hc); apply negb_true_iff in Hs;
    apply negb_true_iff; apply (not_space_not_newline c Hs).
Qed.

(** What is written for a list of identifiers free of whitespace reads
    back as the identifiers, one per line. *)
Lemma read_back (p : Platform) (ids : list str) :
  Forall (fun s => no_whitespace s = true) ids ->
  map strip (lines_from []
               (universal_newlines (newlines_out p (written_lines (map CStr ids)))))
  = ids.
Proof.
  intros Hids.
  assert (Hcr : forallb (fun c => negb (c =? CR)%N) (written_lines (map CStr ids)) = true).
  { induction Hids as [|s ids Hs _ IH]; [reflexivity|]. simpl.
    rewrite <- app_assoc, forallb_app. simpl. rewrite IH.
    rewrite (proj2 (no_whitespace_chars s Hs)). reflexivity. }
  rewrite (universal_newlines_out p _ Hcr). clear Hcr.
  induction Hids as [|s ids Hs _ IH]; [reflexivity|]. simpl.
  rewrite <- app_assoc. simpl.
  rewrite (lines_from_line [] s _ (proj1 (no_whitespace_chars s Hs))). simpl.
  rewrite (strip_line s Hs), IH. reflexivity.
Qed.

Lemma append_stripped_eq (lines : list str) (g : Globals) (env : Env) :
  append_stripped lines g env
  = (Return (), mkGlobals (games g ++ map strip lines), env).
Proof.
  revert g. induction lines as [|line lines IH]; intros g; simpl.
  - rewrite app_nil_r. destruct g. reflexivity.
  - rewrite bind_eq. unfold get_self at 1. cbn beta iota.
    rewrite bind_eq. unfold put_self at 1. cbn beta iota.
    rewrite IH. cbn [games]. rewrite <- app_assoc. reflexivity.
Qed.

(** C6.  For every non-empty list of game identifiers without whitespace
    or newline characters, what [write_to_text] writes (one identifier per
    line, nothing else) is read back by the loop of [NBA_API.py], which
    strips each line, as the same identifiers in the same order. *)
Theorem game_id_file_round_trip (env env1 : Env) (yday : Z) (ids : list str)
    (before : Globals) :
  get_yesterdays_games () env = (Return (yday, map CStr ids), (), env1) ->
  ids <> [] ->
  Forall (fun s => no_whitespace s = true) ids ->
  exists env2,
    write_to_text default_filename () env = (Return (), (), env2)
    /\ files env2 !! default_filename
       = Some (newlines_out (platform env2) (written_lines (map CStr ids)))
    /\ NBA_API before env2 = (Return (), mkGlobals ids, env2).
Proof.
  intros Hget Hne Hids. unfold write_to_text. rewrite bind_eq, Hget.
  destruct ids as [|s ids]; [congruence|].
  eexists. split; [reflexivity|]. split; [apply lookup_insert_eq|].
  unfold NBA_API. rewrite bind_eq. unfold put_self at 1. cbn beta iota.
  rewrite bind_eq. unfold read_lines at 1. cbn [files].
  change (lit "yesterdays_games.txt") with default_filename.
  rewrite lookup_insert_eq. rewrite append_stripped_eq. cbn [games app].
  rewrite (read_back _ (s :: ids) Hids). reflexivity.
Qed.

End GameFile.

(** ** Concrete runs *)

Section Runs.
#[local] Existing Instance Qfloat.
#[local] Existing Instance Demo.client.
Import Demo.

Lemma fetch_raises_iff_unresolved_witness :
  ShotChart.get_player_id nobody = None
  /\ outcome (ShotChart.fetch_shot_data nobody season regular ShotChart.init env0)
     = Raise (ValueError (lit "Player 'Not A Real Player' not found"))
  /\ PlayerStats.get_player_id lebron = Some 2544
  /\ is_value_error
       (outcome (PlayerStats.fetch_career_stats lebron (lit "PerGame")
                   PlayerStats.init env0)) = false.
Proof.
  pose proof (fetch_raises_iff_unresolved nobody season regular (lit "PerGame")
                ShotChart.init PlayerStats.init TeamStats.init env0) as (Hshot & _).
  pose proof (fetch_raises_iff_unresolved lebron season regular (lit "PerGame")
                ShotChart.init PlayerStats.init TeamStats.init env0) as (_ & Hcareer & _).
  split; [reflexivity|]. split; [apply (proj2 Hshot); reflexivity|].
  split; [reflexivity|].
  destruct (is_value_error _) eqn:E; [|reflexivity].
  apply (proj1 Hcareer) in E. discriminate E.
Defined.

(** C2, as stated, fails: a [PlayerStatsAnalyzer] holds two frames at
    once after both of its fetches. *)
Lemma two_frames_cached_at_once :
  ~ (forall ops : list PlayerStats.op,
        (PlayerStats.cached_frames
           (PlayerStats.run ops (PlayerStats.init, env0)).1 <= 1)%nat).
Proof.
  intros Hclaim.
  specialize (Hclaim [PlayerStats.FetchCareerStats lebron (lit "PerGame");
                      PlayerStats.FetchGameLog lebron season regular]).
  vm_compute in Hclaim. lia.
Qed.

Lemma get_shot_statistics_counts_witness :
  well_formed shots = true /\ (0 < nrows shots)%nat
  /\ exists stats,
       ShotChart.get_shot_statistics (ShotChart.mkShotChartAnalyzer (Some shots))
       = Return stats
       /\ stats !! lit "total_shots" = Some (VInt 5)
       /\ stats !! lit "made_shots" = Some (VInt 3)
       /\ is_Some (stats !! lit "three_pt_percentage").
Proof.
  split; [reflexivity|]. split; [simpl; lia|].
  destruct (get_shot_statistics_counts shots)
    as (stats & made & missed & E & Hmade & Htotal & Hm & _ & _ & _ & H3 & _);
    [reflexivity | simpl; lia | reflexivity | reflexivity |].
  exists stats. split; [exact E|]. split; [exact Htotal|].
  split; [rewrite Hm, Hmade; reflexivity|].
  apply H3. exists 0%nat. split; [simpl; lia | reflexivity].
Defined.

Lemma win_loss_cumulative_sums_witness :
  exists fig,
    TeamStats.plot_win_loss_record
      (TeamStats.mkTeamStatsAnalyzer None None None (Some team_log)) = Return fig
    /\ map plot_y (fig_plots fig) = [SInt [1; 1; 1; 2]; SInt [0; 1; 2; 2]].
Proof.
  destruct (win_loss_cumulative_sums
              (TeamStats.mkTeamStatsAnalyzer None None None (Some team_log)) team_log
              (SObj [CStr (lit "W"); CStr (lit "L"); CNone; CStr (lit "W")]))
    as (fig & wins & losses & E & Hplots & -> & -> & _);
    [reflexivity | reflexivity | simpl; lia | reflexivity |].
  exists fig. split; [exact E|]. rewrite Hplots. reflexivity.
Defined.

Lemma team_summary_unchecked_totals_witness :
  cell_at team_log (lit "WL") 2 = Some CNone
  /\ exists summary,
       TeamStats.get_team_summary
         (TeamStats.mkTeamStatsAnalyzer None None None (Some team_log)) = Return summary
       /\ summary !! lit "games_played" = Some (VInt 4)
       /\ summary !! lit "wins" = Some (VInt 2)
       /\ summary !! lit "losses" = Some (VInt 1).
Proof.
  split; [reflexivity|].
  destruct (team_summary_unchecked_totals
              (TeamStats.mkTeamStatsAnalyzer None None None (Some team_log)) team_log
              2 CNone)
    as (summary & wins & losses & E & Hg & Hw & Hl & -> & -> & _);
    [reflexivity | reflexivity | reflexivity | reflexivity
     | discriminate | discriminate |].
  exists summary. split; [exact E|]. split; [exact Hg|]. split; [exact Hw | exact Hl].
Defined.

Lemma game_id_file_round_trip_witness :
  exists env2,
    Scripts.write_to_text Scripts.default_filename () env0 = (Return (), (), env2)
    /\ Scripts.NBA_API (Scripts.mkGlobals [lit "stale"]) env2
       = (Return (), Scripts.mkGlobals [lit "0022300061"; lit "0022300062"], env2).
Proof.
  destruct (game_id_file_round_trip env0
              (Scripts.get_yesterdays_games () env0).2 739191
              [lit "0022300061"; lit "0022300062"]
              (Scripts.mkGlobals [lit "stale"]))
    as (env2 & Hw & _ & Hr);
    [reflexivity | discriminate | repeat constructor |].
  exists env2. split; [exact Hw | exact Hr].
Defined.

Lemma fetch_replaces_own_frame_only_witness :
  let before := PlayerStats.mkPlayerStatsAnalyzer None None None (Some player_log) in
  let after := (PlayerStats.fetch_career_stats lebron (lit "PerGame") before env0).1.2 in
  PlayerStats.career_stats after = Some career
  /\ PlayerStats.game_log after = Some player_log.
Proof.
  cbv zeta.
  destruct (fetch_replaces_own_frame_only lebron (lit "PerGame") season regular
              (PlayerStats.mkPlayerStatsAnalyzer None None None (Some player_log)) env0)
    as (Hcareer & _).
  destruct (Hcareer 2544 career) as [_ ->]; [reflexivity | reflexivity |].
  split; reflexivity.
Defined.

Lemma failed_lookup_keeps_frames_witness :
  let before := PlayerStats.mkPlayerStatsAnalyzer (Some 2544) (Some lebron)
                  (Some career) (Some player_log) in
  PlayerStats.get_player_id nobody = None
  /\ (PlayerStats.fetch_game_log nobody season regular before env0).1.2
     = PlayerStats.mkPlayerStatsAnalyzer None (Some nobody) (Some career) (Some player_log).
Proof.
  cbv zeta. split; [reflexivity|].
  destruct (failed_lookup_keeps_frames nobody (lit "PerGame") season regular
              (PlayerStats.mkPlayerStatsAnalyzer (Some 2544) (Some lebron)
                 (Some career) (Some player_log))
              TeamStats.init env0) as (Hplayer & _).
  destruct (Hplayer eq_refl) as [_ ->]. reflexivity.
Defined.

(** C9, as stated, fails: on an empty frame [get_shot_statistics] returns
    the empty dictionary, yet [plot_shot_chart] does not raise; it draws a
    chart of no shots. *)
Lemma plot_shot_chart_empty_frame_returns :
  ~ (forall (self : ShotChart.ShotChartAnalyzer) (name season season_type : str)
       (title : option str) (env : Env),
        missing (ShotChart.shot_data self) = true ->
        ShotChart.get_shot_statistics self = Return ∅
        /\ raises (outcome (ShotChart.plot_shot_chart name season season_type title
                              self env)) = true).
Proof.
  intros Hclaim.
  destruct (Hclaim (ShotChart.mkShotChartAnalyzer (Some no_shots))
              lebron season regular None env0 eq_refl) as [_ Hraises].
  vm_compute in Hraises. discriminate Hraises.
Qed.

Lemma summaries_empty_on_missing_data_witness :
  ShotChart.get_shot_statistics (ShotChart.mkShotChartAnalyzer (Some no_shots))
  = Return ∅
  /\ TeamStats.plot_win_loss_record TeamStats.init
     = Raise (ValueError (lit "No game log loaded. Call fetch_team_game_log first."))
  /\ exists fig,
       ShotChart.plot_shot_chart lebron season regular None
         (ShotChart.mkShotChartAnalyzer (Some no_shots)) env0
       = (Return fig, ShotChart.mkShotChartAnalyzer (Some no_shots), env0).
Proof.
  destruct summaries_empty_on_missing_data as (Hshot & _ & Hteam & Hempty & _).
  split; [apply Hshot; reflexivity|].
  split; [apply (Hteam TeamStats.init []); reflexivity|].
  destruct (Hempty no_shots lebron season regular env0) as (fig & E & _);
    [reflexivity | reflexivity | reflexivity | reflexivity |].
  exists fig. exact E.
Defined.

Lemma plot_shot_chart_uses_cache_witness :
  let self := ShotChart.mkShotChartAnalyzer (Some layups) in
  (ShotChart.plot_shot_chart nobody season regular None self env0).2 = env0
  /\ (ShotChart.plot_shot_chart nobody season regular None self env0).1.2 = self.
Proof.
  cbv zeta.
  destruct (plot_shot_chart_uses_cache (ShotChart.mkShotChartAnalyzer (Some layups))
              layups nobody season regular None env0 eq_refl) as (-> & _).
  split; reflexivity.
Defined.

End Runs.

(** * Further properties *)

(** ** Fetches: atomicity and the identifier attributes *)

Section FetchEffects.
Context `{StatsClient}.


(** X2.  [plot_shot_chart] on an analyzer without data issues no request
    when the name does not resolve, and one request otherwise.  It can
    raise after having cached the frame: when the fetched frame lacks a
    column the chart reads, the [KeyError] leaves [shot_data] set. *)
Theorem plot_shot_chart_unloaded (name season season_type : str)
    (title : option str) (env : Env) :
  let r := ShotChart.plot_shot_chart name season season_type title
             ShotChart.init env in
  (ShotChart.get_player_id name = None ->
   r = (Raise (ValueError (lit "Player '" ++ name ++ lit "' not found")),
        ShotChart.init, env))
  /\ (forall pid, ShotChart.get_player_id name = Some pid ->
      exists resp, calls r.2
        = calls env ++ [(ShotChartDetail 0 pid season season_type (lit "FGA"), resp)])
  /\ (forall pid df,
      ShotChart.get_player_id name = Some pid ->
      (first_data_frame (ShotChartDetail 0 pid season season_type (lit "FGA"))
         (svc env)).1 = inr df ->
      str_in (lit "SHOT_MADE_FLAG") (columns df) = false ->
      outcome r = Raise (KeyError (lit "SHOT_MADE_FLAG"))
      /\ ShotChart.shot_data r.1.2 = Some df).
Proof.
  cbv zeta. rewrite plot_shot_chart_eq, fetch_shot_data_eq. cbn [ShotChart.shot_data ShotChart.init].
  split; [|split].
  - intros ->. reflexivity.
  - intros pid ->. cbv zeta.
    destruct (first_data_frame _ _).1; eexists; reflexivity.
  - intros pid df -> Hresp Hcol. cbv zeta. rewrite Hresp. unfold outcome. cbn [fst snd].
    split; [|reflexivity].
    unfold ShotChart.draw_shot_chart.
    destruct (getitem df (lit "SHOT_MADE_FLAG")) as [s|e] eqn:E.
    + assert (Hin : str_in (lit "SHOT_MADE_FLAG") (columns df) = true)
        by (apply str_in_columns; eauto).
      congruence.
    + unfold getitem in E. destruct (assoc _ _); [discriminate|].
      injection E as <-. reflexivity.
Qed.

Lemma player_exec_in_sync (o : PlayerStats.op)
    (self : PlayerStats.PlayerStatsAnalyzer) (env : Env) :
  in_sync PlayerStats.get_player_id (PlayerStats.player_id self)
    (PlayerStats.player_name self) ->
  let self' := (PlayerStats.exec o (self, env)).1 in
  in_sync PlayerStats.get_player_id (PlayerStats.player_id self')
    (PlayerStats.player_name self').
Proof.
  intros Hsync. cbv zeta.
  destruct o; unfold PlayerStats.exec; rewrite ?attempt_read_only;
    try exact Hsync; unfold attempt; cbn [fst snd];
    rewrite ?fetch_player_info_eq, ?fetch_career_stats_eq, ?fetch_game_log_eq;
    unfold in_sync; cbv zeta;
    destruct (PlayerStats.get_player_id _) eqn:E;
    try destruct (first_data_frame _ _).1; cbn; rewrite E; reflexivity.
Qed.

Lemma team_exec_in_sync (o : TeamStats.op)
    (self : TeamStats.TeamStatsAnalyzer) (env : Env) :
  in_sync TeamStats.get_team_id (TeamStats.team_id self) (TeamStats.team_name self) ->
  let self' := (TeamStats.exec o (self, env)).1 in
  in_sync TeamStats.get_team_id (TeamStats.team_id self') (TeamStats.team_name self').
Proof.
  intros Hsync. cbv zeta.
  destruct o; unfold TeamStats.exec; rewrite ?attempt_read_only;
    try exact Hsync; unfold attempt; cbn [fst snd];
    rewrite ?fetch_league_standings_eq, ?fetch_team_game_log_eq;
    unfold in_sync in *; cbv zeta.
  - destruct (first_data_frame _ _).1; cbn; exact Hsync.
  - destruct (TeamStats.get_team_id _) eqn:E;
      try destruct (first_data_frame _ _).1; cbn; rewrite E; reflexivity.
Qed.

(** X3.  Whatever is called on a fresh [PlayerStatsAnalyzer] or
    [TeamStatsAnalyzer], and whether the calls succeed or raise, the
    identifier attribute stays the lookup of the name attribute:
    [player_id] is [None] while [player_name] is, and afterwards it is
    [get_player_id] of the name last passed to a fetch (likewise
    [team_id] and [team_name]). *)
Theorem identifier_follows_name (env : Env) (player_ops : list PlayerStats.op)
    (team_ops : list TeamStats.op) :
  let player := (PlayerStats.run player_ops (PlayerStats.init, env)).1 in
  let team := (TeamStats.run team_ops (TeamStats.init, env)).1 in
  in_sync PlayerStats.get_player_id (PlayerStats.player_id player)
    (PlayerStats.player_name player)
  /\ in_sync TeamStats.get_team_id (TeamStats.team_id team) (TeamStats.team_name team).
Proof.
  cbv zeta. split.
  - assert (G : forall st : PlayerStats.PlayerStatsAnalyzer * Env,
               in_sync PlayerStats.get_player_id (PlayerStats.player_id st.1)
                 (PlayerStats.player_name st.1) ->
               in_sync PlayerStats.get_player_id
                 (PlayerStats.player_id (PlayerStats.run player_ops st).1)
                 (PlayerStats.player_name (PlayerStats.run player_ops st).1)).
    { induction player_ops as [|o ops IH]; intros [self e] Hs; [exact Hs|].
      simpl. apply IH. apply (player_exec_in_sync o self e Hs). }
    apply G. reflexivity.
  - assert (G : forall st : TeamStats.TeamStatsAnalyzer * Env,
               in_sync TeamStats.get_team_id (TeamStats.team_id st.1)
                 (TeamStats.team_name st.1) ->
               in_sync TeamStats.get_team_id
                 (TeamStats.team_id (TeamStats.run team_ops st).1)
                 (TeamStats.team_name (TeamStats.run team_ops st).1)).
    { induction team_ops as [|o ops IH]; intros [self e] Hs; [exact Hs|].
      simpl. apply IH. apply (team_exec_in_sync o self e Hs). }
    apply G. reflexivity.
Qed.

End FetchEffects.

(** ** Averages and performance plots *)

Section Averages.
Context `{StatsClient}.

Lemma assoc_None_not_in (key : str) (l : list (str * Series)) :
  assoc key l = None <-> key ∉ map fst l.
Proof.
  induction l as [|[k s] l IH]; simpl.
  - split; [intros _ Hin; inversion Hin | reflexivity].
  - unfold str_eqb. destruct (bool_decide_reflect (k = key)) as [Hk|Hk].
    + split; [discriminate | intros Hn; exfalso; apply Hn; rewrite Hk; left].
    + rewrite IH, not_elem_of_cons. split; [intros Hn; split; congruence | tauto].
Qed.

(** With distinct column names, the names [select_dtypes] keeps are those
    of the columns [df[col]] finds numeric. *)
Lemma str_in_numeric_columns (df : DataFrame) (col : str) :
  well_formed df = true ->
  str_in col (numeric_columns df) = TeamStats.numeric_column df col.
Proof.
  unfold well_formed. rewrite !andb_true_iff. intros [[_ Hnd] _].
  apply bool_decide_eq_true in Hnd. revert Hnd.
  unfold str_in, numeric_columns, TeamStats.numeric_column, columns.
  induction (cols df) as [|[k s] l IH]; intros Hnd.
  - apply bool_decide_eq_false. intros Hin. inversion Hin.
  - cbn [map fst] in Hnd. apply NoDup_cons in Hnd as [Hk Hnd]. specialize (IH Hnd).
    cbn [assoc]. unfold str_eqb. destruct (bool_decide_reflect (k = col)) as [Ek|Ek].
    + subst k. rewrite filter_cons. cbn [snd]. destruct (is_numeric s) eqn:Es.
      * rewrite decide_True by reflexivity. apply bool_decide_eq_true. left.
      * rewrite decide_False by discriminate. apply bool_decide_eq_false.
        intros Hin. apply Hk. apply list_elem_of_fmap in Hin as ([k' s'] & -> & Hin).
        apply list_elem_of_filter in Hin as [_ Hin].
        apply list_elem_of_fmap. exists (k', s'). split; [reflexivity | exact Hin].
    + rewrite <- IH. rewrite filter_cons. cbn [snd].
      destruct (decide (is_numeric s = true)); [|reflexivity].
      cbn [map fst]. apply bool_decide_ext. rewrite elem_of_cons. split; [|tauto].
      intros [E|E]; [congruence | exact E].
Qed.

Lemma averages_loop_lookup (df : DataFrame) (numeric_cols : list str)
    (todo : list str) (acc : gmap str value) :
  (forall c, str_in c numeric_cols = TeamStats.numeric_column df c) ->
  exists averages,
    PlayerStats.averages_loop df numeric_cols todo acc = Return averages
    /\ forall c,
        averages !! c
        = if str_in c todo && TeamStats.numeric_column df c
          then match column_mean df c with
               | Return m => Some (VFloat m)
               | Raise _ => None
               end
          else acc !! c.
Proof.
  intros Hnum. revert acc. induction todo as [|col todo IH]; intros acc.
  - exists acc. split; [reflexivity|]. intros c. reflexivity.
  - cbn [PlayerStats.averages_loop]. rewrite Hnum.
    destruct (TeamStats.numeric_column df col) eqn:Ecol.
    + destruct (column_mean_numeric df col Ecol) as [m Em].
      assert (Eg : exists s, getitem df col = Return s /\ mean s = Return m).
      { unfold column_mean in Em. destruct (getitem df col) as [s|e]; [|discriminate].
        exists s. split; [reflexivity | exact Em]. }
      destruct Eg as (s & Es & Ems). rewrite Es. cbn [mbind result_bind]. rewrite Ems.
      cbn [mbind result_bind].
      destruct (IH (<[col:=VFloat m]> acc)) as (averages & Eav & Hav).
      exists averages. split; [exact Eav|]. intros c. rewrite Hav.
      unfold str_in. destruct (decide (c = col)) as [->|Hne].
      * rewrite (bool_decide_eq_true_2 (col ∈ col :: todo)) by left.
        rewrite Ecol, Em. cbn [andb]. rewrite lookup_insert_eq.
        destruct (bool_decide (col ∈ todo)); reflexivity.
      * rewrite lookup_insert_ne by congruence.
        rewrite (bool_decide_ext (c ∈ col :: todo) (c ∈ todo)); [reflexivity|].
        rewrite elem_of_cons. tauto.
    + destruct (IH acc) as (averages & Eav & Hav).
      exists averages. split; [exact Eav|]. intros c. rewrite Hav.
      unfold str_in. destruct (decide (c = col)) as [->|Hne].
      * rewrite Ecol, !andb_false_r. reflexivity.
      * rewrite (bool_decide_ext (c ∈ col :: todo) (c ∈ todo)); [reflexivity|].
        rewrite elem_of_cons. tauto.
Qed.

(** X4.  On a loaded, non-empty game log [get_season_averages] never
    raises: it returns a dictionary with one entry for each of the nine
    averaged columns that the log has with a numeric dtype, holding the
    mean of that column, and nothing else.  Absent or non-numeric columns
    are skipped without an error. *)
Theorem get_season_averages_entries (player : PlayerStats.PlayerStatsAnalyzer)
    (gl : DataFrame) :
  PlayerStats.game_log player = Some gl ->
  well_formed gl = true -> (0 < nrows gl)%nat ->
  exists averages,
    PlayerStats.get_season_averages player = Return averages
    /\ (forall col, averages !! col = expected_average gl col)
    /\ (forall col, is_Some (averages !! col)
                    <-> col ∈ PlayerStats.average_columns
                        /\ TeamStats.numeric_column gl col = true).
Proof.
  intros Hgl Hwf Hpos. unfold PlayerStats.get_season_averages. rewrite Hgl.
  replace (len gl =? 0) with false by (unfold len; lia).
  destruct (averages_loop_lookup gl (numeric_columns gl) PlayerStats.average_columns ∅)
    as (averages & E & Hav).
  { intros c. apply str_in_numeric_columns, Hwf. }
  exists averages. split; [exact E|].
  assert (Hexp : forall col, averages !! col = expected_average gl col).
  { intros col. rewrite Hav. unfold expected_average.
    destruct (_ && _); [reflexivity | apply lookup_empty]. }
  split; [exact Hexp|]. intros col. rewrite Hexp. unfold expected_average, str_in.
  case_bool_decide as Hin; cbn [andb].
  - destruct (TeamStats.numeric_column gl col) eqn:Ecol.
    + destruct (column_mean_numeric gl col Ecol) as [m ->].
      split; [intros _; split; [exact Hin | reflexivity] | intros _; eexists; reflexivity].
    + split; [intros [? ?]; discriminate | intros [_ ?]; discriminate].
  - split; [intros [? ?]; discriminate | intros [? _]; contradiction].
Qed.



End Averages.

(** ** The statistics summary *)

Section Summary.
Context `{StatsClient}.

Lemma column_mean_missing (df : DataFrame) (col : str) :
  str_in col (columns df) = false -> column_mean df col = Raise (KeyError col).
Proof.
  intros Hcol. unfold column_mean, getitem.
  destruct (assoc col (cols df)) as [s|] eqn:Es; [|reflexivity].
  assert (str_in col (columns df) = true)
    by (apply str_in_columns; exists s; unfold getitem; rewrite Es; reflexivity).
  congruence.
Qed.

Lemma mean_pct_missing (df : DataFrame) (col : str) :
  str_in col (columns df) = false -> mean_pct df col = Raise (KeyError col).
Proof.
  intros Hcol. unfold mean_pct, getitem.
  destruct (assoc col (cols df)) as [s|] eqn:Es; [|reflexivity].
  assert (str_in col (columns df) = true)
    by (apply str_in_columns; exists s; unfold getitem; rewrite Es; reflexivity).
  congruence.
Qed.


Ltac missing Hmiss :=
  rewrite ?(column_mean_missing _ _ Hmiss), ?(mean_pct_missing _ _ Hmiss);
  reflexivity.


Lemma mean_pct_column_mean (df : DataFrame) (col : str) (m : float) :
  column_mean df col = Return m ->
  mean_pct df col = Return (fmul m (float_of_int 100)).
Proof.
  unfold column_mean, mean_pct. destruct (getitem df col) as [s|e]; [|discriminate].
  cbn [mbind result_bind]. intros ->. reflexivity.
Qed.

(** X16.  The three reports on a game log agree.  When the nine columns
    are numeric, the value [create_stats_summary] gives for a column is the
    entry of [get_season_averages] rounded to two places, and the bars of
    [plot_shooting_splits] are the entries of the three shooting columns;
    but the averages hold the shooting columns as fractions, while the
    summary and the bars show them times 100. *)
Theorem reports_agree (player : PlayerStats.PlayerStatsAnalyzer) (gl : DataFrame) :
  PlayerStats.game_log player = Some gl ->
  well_formed gl = true -> (0 < nrows gl)%nat ->
  forallb (TeamStats.numeric_column gl) summary_order = true ->
  exists averages fig heights summary values,
    PlayerStats.get_season_averages player = Return averages
    /\ PlayerStats.plot_shooting_splits player = Return fig
    /\ map plot_y (fig_plots fig) = [SFloat heights]
    /\ PlayerStats.create_stats_summary player = Return summary
    /\ getitem summary (lit "Value") = Return (SFloat values)
    /\ (forall k col, summary_order !! k = Some col ->
          exists m, averages !! col = Some (VFloat m)
                    /\ values !! S k = Some (fround 2 (reported col m)))
    /\ (forall j col, percentage_columns !! j = Some col ->
          exists m, averages !! col = Some (VFloat m)
                    /\ heights !! j = Some (fmul m (float_of_int 100))).
Proof.
  intros Hgl Hwf Hpos Hall.
  assert (Hlen : (len gl =? 0) = false) by (unfold len; lia).
  unfold summary_order in Hall. cbn [forallb] in Hall.
  repeat (apply andb_true_iff in Hall as [? Hall]). clear Hall.
  destruct (averages_loop_lookup gl (numeric_columns gl) PlayerStats.average_columns ∅)
    as (averages & Eav & Hav).
  { intros c. apply str_in_numeric_columns, Hwf. }
  unfold PlayerStats.get_season_averages, PlayerStats.plot_shooting_splits,
    PlayerStats.create_stats_summary.
  rewrite Hgl, Hlen, Eav.
  repeat match goal with
         | Hn : TeamStats.numeric_column gl ?c = true |- _ =>
             let m := fresh "m" in let Em := fresh "Em" in
             destruct (column_mean_numeric _ _ Hn) as [m Em];
             pose proof (Hav c) as Hc;
             rewrite Hn, Em in Hc;
             replace (str_in c PlayerStats.average_columns) with true in Hc
               by (vm_compute; reflexivity);
             cbn [andb] in Hc;
             rewrite ?Em, ?(mean_pct_column_mean _ _ _ Em);
             clear Hn Em; revert Hc
         end.
  intros. cbn [mbind result_bind].
  eexists _, _, _, _, _.
  split; [reflexivity|]. split; [reflexivity|]. split; [reflexivity|].
  split; [reflexivity|]. split; [reflexivity|].
  split.
  - intros k col Hcol. unfold summary_order in Hcol.
    destruct k as [|[|[|[|[|[|[|[|[|k]]]]]]]]]; cbn [lookup list_lookup] in Hcol;
      [..|discriminate Hcol];
      injection Hcol as <-; eexists; (split; [eassumption | reflexivity]).
  - intros j col Hcol. unfold percentage_columns in Hcol.
    destruct j as [|[|[|j]]]; cbn [lookup list_lookup] in Hcol;
      [..|discriminate Hcol];
      injection Hcol as <-; eexists; (split; [eassumption | reflexivity]).
Qed.

End Summary.

(** ** Bounds on the statistics *)

Section Bounds.
Context `{StatsClient}.

(** Rows passing one of two exclusive tests also pass any test both
    imply. *)
Lemma filter_exclusive_le {A} (a b c : A -> bool) (l : list A) :
  (forall x, a x = true -> b x = false) ->
  (forall x, a x = true -> c x = true) ->
  (forall x, b x = true -> c x = true) ->
  (length (List.filter a l) + length (List.filter b l)
   <= length (List.filter c l))%nat.
Proof.
  intros Hex Hac Hbc. induction l as [|x l IH]; simpl; [lia|].
  destruct (a x) eqn:Ea.
  - rewrite (Hex x Ea), (Hac x Ea). simpl. lia.
  - destruct (b x) eqn:Eb; [rewrite (Hbc x Eb); simpl; lia|].
    destruct (c x); simpl; lia.
Qed.

Lemma count_rows_exclusive_le (df : DataFrame) (a b c : nat -> bool) :
  (forall i, a i = true -> b i = false) ->
  (forall i, a i = true -> c i = true) ->
  (forall i, b i = true -> c i = true) ->
  count_rows df a + count_rows df b <= count_rows df c.
Proof.
  intros Hex Hac Hbc. unfold count_rows.
  pose proof (filter_exclusive_le a b c (seq 0 (nrows df)) Hex Hac Hbc). lia.
Qed.

Lemma count_rows_le (df : DataFrame) (a c : nat -> bool) :
  (forall i, a i = true -> c i = true) ->
  0 <= count_rows df a <= count_rows df c.
Proof.
  intros Hac.
  pose proof (count_rows_exclusive_le df a (fun _ => false) c
                (fun _ _ => eq_refl) Hac (fun i Hf => ltac:(discriminate))) as Hle.
  pose proof (count_rows_bounds df a). pose proof (count_rows_bounds df (fun _ => false)).
  lia.
Qed.

Lemma count_rows_all (df : DataFrame) : count_rows df (fun _ => true) = len df.
Proof.
  unfold count_rows, len. f_equal.
  assert (E : forall l : list nat, List.filter (fun _ => true) l = l)
    by (intros l; induction l; simpl; congruence).
  rewrite E. apply length_seq.
Qed.

Lemma cell_is_exclusive (df : DataFrame) (col a b : str) (i : nat) :
  a <> b -> cell_is df col (CStr a) i = true -> cell_is df col (CStr b) i = false.
Proof.
  intros Hab. unfold cell_is. destruct (cell_at df col i) as [c|]; [|discriminate].
  intros Ha. apply py_eqb_str in Ha. subst c. simpl.
  unfold str_eqb. apply bool_decide_eq_false. exact Hab.
Qed.

Ltac lookup_in Hx :=
  repeat (rewrite lookup_insert_ne in Hx by key_ne);
  first [rewrite lookup_insert_eq in Hx | rewrite lookup_empty in Hx];
  first [discriminate Hx | injection Hx as Hx].

(** X7.  The numbers [get_shot_statistics] reports are consistent with
    each other: made shots are between 0 and the positive total, made
    three-pointers (two-pointers) are at most the attempts of that type,
    attempts of a type that is reported are positive, and the two types
    together never exceed the total, in attempts or in makes. *)
Theorem shot_statistics_bounds (df : DataFrame) :
  well_formed df = true -> (0 < nrows df)%nat ->
  str_in (lit "SHOT_MADE_FLAG") (columns df) = true ->
  str_in (lit "SHOT_TYPE") (columns df) = true ->
  exists stats total made,
    ShotChart.get_shot_statistics (ShotChart.mkShotChartAnalyzer (Some df))
    = Return stats
    /\ stats !! lit "total_shots" = Some (VInt total)
    /\ stats !! lit "made_shots" = Some (VInt made)
    /\ 0 <= made <= total /\ 0 < total
    /\ (forall a m, stats !! lit "three_pt_attempts" = Some (VInt a) ->
                    stats !! lit "three_pt_made" = Some (VInt m) ->
                    0 <= m <= a /\ 0 < a <= total /\ m <= made)
    /\ (forall a m, stats !! lit "two_pt_attempts" = Some (VInt a) ->
                    stats !! lit "two_pt_made" = Some (VInt m) ->
                    0 <= m <= a /\ 0 < a <= total /\ m <= made)
    /\ (forall a3 a2 m3 m2,
           stats !! lit "three_pt_attempts" = Some (VInt a3) ->
           stats !! lit "two_pt_attempts" = Some (VInt a2) ->
           stats !! lit "three_pt_made" = Some (VInt m3) ->
           stats !! lit "two_pt_made" = Some (VInt m2) ->
           a3 + a2 <= total /\ m3 + m2 <= made).
Proof.
  intros Hwf Hpos Hflag Hty.
  apply str_in_columns in Hflag as [flag Hflag].
  apply str_in_columns in Hty as [ty Hty].
  destruct (get_shot_statistics_eq df flag ty Hwf Hpos Hflag Hty) as (with3 & E3 & E).
  cbv zeta in E3, E.
  rewrite (three_point_statistics_eq df _ flag ty Hwf Hflag Hty) in E3.
  rewrite (two_point_statistics_eq df _ flag ty Hwf Hflag Hty) in E.
  cbv zeta in E3, E. injection E3 as E3.
  set (t3 := ShotChart.type_row df "3PT Field Goal") in *.
  set (t2 := ShotChart.type_row df "2PT Field Goal") in *.
  set (mr := ShotChart.made_row df) in *.
  assert (Hex : forall i, t3 i = true -> t2 i = false).
  { intros i. apply cell_is_exclusive. intros Hc. vm_compute in Hc. discriminate Hc. }
  pose proof (count_rows_le df mr (fun _ => true) (fun _ _ => eq_refl)) as Bm.
  pose proof (count_rows_le df t3 (fun _ => true) (fun _ _ => eq_refl)) as B3.
  pose proof (count_rows_le df t2 (fun _ => true) (fun _ _ => eq_refl)) as B2.
  pose proof (count_rows_le df (fun i => t3 i && mr i) t3
                (fun i Hi => proj1 (andb_prop _ _ Hi))) as B3m.
  pose proof (count_rows_le df (fun i => t2 i && mr i) t2
                (fun i Hi => proj1 (andb_prop _ _ Hi))) as B2m.
  pose proof (count_rows_le df (fun i => t3 i && mr i) mr
                (fun i Hi => proj2 (andb_prop _ _ Hi))) as B3r.
  pose proof (count_rows_le df (fun i => t2 i && mr i) mr
                (fun i Hi => proj2 (andb_prop _ _ Hi))) as B2r.
  pose proof (count_rows_exclusive_le df t3 t2 (fun _ => true) Hex
                (fun _ _ => eq_refl) (fun _ _ => eq_refl)) as B32.
  assert (B32m : count_rows df (fun i => t3 i && mr i)
                 + count_rows df (fun i => t2 i && mr i) <= count_rows df mr).
  { apply count_rows_exclusive_le.
    - intros i Hi. apply andb_prop in Hi as [Hi _]. rewrite (Hex i Hi). reflexivity.
    - intros i Hi. apply (proj2 (andb_prop _ _ Hi)).
    - intros i Hi. apply (proj2 (andb_prop _ _ Hi)). }
  rewrite (count_rows_all df) in *.
  assert (Hlen : 0 < len df) by (unfold len; lia).
  subst with3.
  destruct (count_rows df t3 >? 0) eqn:H3; destruct (count_rows df t2 >? 0) eqn:H2;
    (eexists _, (len df), (count_rows df mr);
     split; [exact E|]; split; [lookup_key|]; split; [lookup_key|];
     split; [lia|]; split; [lia|];
     repeat split; intros;
     repeat match goal with
            | Hx : _ !! _ = Some _ |- _ => lookup_in Hx; subst
            end; lia).
Qed.

Lemma count_rows_cells (df : DataFrame) (col : str) (s : Series) (v : cell) :
  getitem df col = Return s -> series_len s = nrows df ->
  count_rows df (cell_is df col v)
  = Z.of_nat (length (List.filter (fun c => py_eqb c v) (series_cells s))).
Proof.
  intros Hs Hlen. rewrite <- (len_eq_mask df col s v Hs).
  unfold len, eq_scalar. cbn [df_mask nrows]. f_equal.
  rewrite <- Hlen, <- series_cells_length.
  rewrite <- (length_map (fun c => py_eqb c v) (series_cells s)).
  rewrite select_true_length. apply filter_map_length.
Qed.

(** The counting part of the dictionary [get_team_summary] returns. *)
Lemma get_team_summary_counts (team : TeamStats.TeamStatsAnalyzer) (gl : DataFrame)
    (wl : Series) :
  TeamStats.game_log team = Some gl ->
  (0 < nrows gl)%nat -> TeamStats.summary_columns gl = true ->
  getitem gl (lit "WL") = Return wl ->
  let wins := count_rows gl (cell_is gl (lit "WL") (CStr (lit "W"))) in
  let losses := count_rows gl (cell_is gl (lit "WL") (CStr (lit "L"))) in
  exists summary,
    TeamStats.get_team_summary team = Return summary
    /\ summary !! lit "games_played" = Some (VInt (len gl))
    /\ summary !! lit "wins" = Some (VInt wins)
    /\ summary !! lit "losses" = Some (VInt losses)
    /\ summary !! lit "win_percentage"
       = Some (VFloat (fmul (truediv wins (len gl)) (float_of_int 100)))
    /\ is_Some (summary !! lit "ppg").
Proof.
  intros Hgl Hpos Hcols Hwl. cbv zeta.
  unfold TeamStats.summary_columns in Hcols. apply andb_true_iff in Hcols as [Hnum Hopp].
  cbn [forallb] in Hnum. repeat (apply andb_true_iff in Hnum as [? Hnum]).
  destruct (column_mean_numeric gl (lit "PTS")) as [ppg Eppg]; [assumption|].
  destruct (mean_pct_numeric gl (lit "FG_PCT")) as [fg Efg]; [assumption|].
  destruct (mean_pct_numeric gl (lit "FG3_PCT")) as [fg3 Efg3]; [assumption|].
  destruct (mean_pct_numeric gl (lit "FT_PCT")) as [ft Eft]; [assumption|].
  destruct (column_mean_numeric gl (lit "REB")) as [reb Ereb]; [assumption|].
  destruct (column_mean_numeric gl (lit "AST")) as [ast East]; [assumption|].
  assert (Eopp : exists m, mean (get_or gl (lit "OPP_PTS") (SInt [0])) = Return m).
  { unfold get_or. destruct (assoc (lit "OPP_PTS") (cols gl)) as [s|].
    - apply mean_numeric, Hopp.
    - eexists. reflexivity. }
  destruct Eopp as [opp Eopp].
  unfold TeamStats.get_team_summary. rewrite Hgl.
  replace (len gl =? 0) with false by (unfold len; lia).
  rewrite Hwl. cbn [mbind result_bind]. rewrite !(len_eq_mask _ _ _ _ Hwl).
  unfold TeamStats.percentage. replace (len gl >? 0) with true by (unfold len; lia).
  unfold py_truediv. replace (len gl =? 0) with false by (unfold len; lia).
  cbn [mbind result_bind].
  rewrite Eppg. cbn [mbind result_bind]. rewrite Eopp. cbn [mbind result_bind].
  rewrite Efg. cbn [mbind result_bind]. rewrite Efg3. cbn [mbind result_bind].
  rewrite Eft. cbn [mbind result_bind]. rewrite Ereb. cbn [mbind result_bind].
  rewrite East. cbn [mbind result_bind].
  eexists. split; [reflexivity|].
  repeat split; try lookup_key. eexists. lookup_key.
Qed.

Lemma filter_exclusive_total {A} (a b : A -> bool) (l : list A) :
  (forall x, a x = true -> b x = false) ->
  (length (List.filter a l) + length (List.filter b l) = length l)%nat
  <-> Forall (fun x => a x = true \/ b x = true) l.
Proof.
  intros Hex.
  pose proof (fun l' => filter_exclusive_le a b (fun _ => true) l' Hex
                          (fun _ _ => eq_refl) (fun _ _ => eq_refl)) as Hle.
  assert (Hall : forall l' : list A, List.filter (fun _ => true) l' = l')
    by (intros l'; induction l'; simpl; congruence).
  induction l as [|x l IH]; simpl; [split; [constructor | reflexivity]|].
  specialize (Hle l). rewrite Hall in Hle.
  rewrite Forall_cons. destruct (a x) eqn:Ea.
  - rewrite (Hex x Ea). simpl. rewrite <- IH. split; [intros; split; [tauto | lia] | lia].
  - destruct (b x) eqn:Eb; simpl.
    + rewrite <- IH. split; [intros; split; [tauto | lia] | lia].
    + split; [lia | intros [[?|?] _]; discriminate].
Qed.

(** X8.  The totals of [get_team_summary] never exceed the games played:
    [wins + losses <= games_played], with equality exactly when every
    [WL] value of the log is ['W'] or ['L']. *)
Theorem team_summary_totals (team : TeamStats.TeamStatsAnalyzer) (gl : DataFrame)
    (wl : Series) :
  TeamStats.game_log team = Some gl ->
  well_formed gl = true -> (0 < nrows gl)%nat ->
  TeamStats.summary_columns gl = true ->
  getitem gl (lit "WL") = Return wl ->
  exists summary wins losses,
    TeamStats.get_team_summary team = Return summary
    /\ summary !! lit "games_played" = Some (VInt (len gl))
    /\ summary !! lit "wins" = Some (VInt wins)
    /\ summary !! lit "losses" = Some (VInt losses)
    /\ 0 <= wins /\ 0 <= losses /\ wins + losses <= len gl
    /\ (wins + losses = len gl
        <-> Forall (fun c => c = CStr (lit "W") \/ c = CStr (lit "L"))
              (series_cells wl)).
Proof.
  intros Hgl Hwf Hpos Hcols Hwl.
  destruct (get_team_summary_counts team gl wl Hgl Hpos Hcols Hwl)
    as (summary & E & Hg & Hw & Hl & _).
  exists summary. eexists _, _. split; [exact E|]. split; [exact Hg|].
  split; [exact Hw|]. split; [exact Hl|].
  assert (Hlen : series_len wl = nrows gl)
    by (apply (well_formed_len gl (lit "WL")); [exact Hwf | apply getitem_Return, Hwl]).
  rewrite !(count_rows_cells gl _ wl _ Hwl Hlen).
  set (cells := series_cells wl).
  assert (Hex : forall c, py_eqb c (CStr (lit "W")) = true ->
                          py_eqb c (CStr (lit "L")) = false).
  { intros c Hc. apply py_eqb_str in Hc. subst c. reflexivity. }
  pose proof (filter_exclusive_le _ _ (fun _ => true) cells Hex
                (fun _ _ => eq_refl) (fun _ _ => eq_refl)) as Hle.
  pose proof (filter_exclusive_total _ _ cells Hex) as Htot.
  assert (Hall : List.filter (fun _ : cell => true) cells = cells)
    by (clear; induction cells; simpl; congruence).
  rewrite Hall in Hle.
  assert (Hn : length cells = nrows gl)
    by (unfold cells; rewrite series_cells_length; exact Hlen).
  unfold len. rewrite <- Hn.
  split; [lia|]. split; [lia|]. split; [lia|].
  rewrite <- Nat2Z.inj_add, Nat2Z.inj_iff, Htot.
  apply Forall_iff. intros c. rewrite !py_eqb_str. reflexivity.
Qed.

End Bounds.

(** ** The win/loss curves against the summary *)

Section Curves.
Context `{StatsClient}.

Lemma plot_win_loss_record_eq (team : TeamStats.TeamStatsAnalyzer) (gl : DataFrame)
    (wl : Series) :
  TeamStats.game_log team = Some gl ->
  well_formed gl = true -> (0 < nrows gl)%nat ->
  getitem gl (lit "WL") = Return wl ->
  let won := map TeamStats.is_win (rev (series_cells wl)) in
  exists fig,
    TeamStats.plot_win_loss_record team = Return fig
    /\ map plot_y (fig_plots fig)
       = [SInt (cumsum_from 0 won);
          SInt (cumsum_from 0 (map (fun x => wrap64 (1 - x)) won))]
    /\ map plot_label (fig_plots fig) = [lit "Wins"; lit "Losses"].
Proof.
  intros Hgl Hwf Hpos Hwl. cbv zeta. unfold TeamStats.plot_win_loss_record. rewrite Hgl.
  replace (len gl =? 0) with false by (unfold len; lia).
  rewrite (win_loss_columns_eq gl wl Hwf Hwl). cbv zeta. cbn [mbind result_bind].
  rewrite (getitem_replaced_ne _ (lit "CUMULATIVE_LOSSES") (lit "CUMULATIVE_WINS"))
    by (intros E; vm_compute in E; discriminate E).
  rewrite getitem_replaced. cbn [mbind result_bind].
  rewrite getitem_replaced. cbn [mbind result_bind].
  eexists. repeat split.
Qed.

Lemma total_app (l1 l2 : list Z) : total (l1 ++ l2) = total l1 + total l2.
Proof. unfold total. induction l1 as [|x l1 IH]; simpl; lia. Qed.

Lemma total_rev (l : list Z) : total (rev l) = total l.
Proof.
  induction l as [|x l IH]; [reflexivity|]. simpl rev. rewrite total_app, IH.
  unfold total. simpl. lia.
Qed.

Lemma total_bits (l : list Z) :
  Forall (fun x => x = 1 \/ x = 0) l -> 0 <= total l <= Z.of_nat (length l).
Proof.
  induction 1 as [|x l Hx _ IH]; unfold total in *; simpl; lia.
Qed.

(** The last running total of a 0/1 column is the number of ones. *)
Lemma cumsum_last (l : list Z) (a : Z) :
  Forall (fun x => x = 1 \/ x = 0) l ->
  0 <= a -> a + Z.of_nat (length l) < 2 ^ 63 -> l <> [] ->
  last (cumsum_from a l) = Some (a + total l).
Proof.
  intros Hl. revert a. induction Hl as [|x l Hx Hl IH]; intros a Ha Hfit Hne;
    [congruence|].
  cbn [length] in Hfit. cbn [cumsum_from]. cbv zeta.
  rewrite (wrap64_small (a + x)) by lia.
  destruct l as [|y l].
  - unfold total. simpl. f_equal. lia.
  - change (last (a + x :: cumsum_from (a + x) (y :: l)))
      with (last (wrap64 (a + x + y) :: cumsum_from (wrap64 (a + x + y)) l)).
    change (last (cumsum_from (a + x) (y :: l)) = Some (a + total (x :: y :: l))).
    rewrite IH by (try lia; try discriminate; cbn [length] in *; lia).
    unfold total. simpl. f_equal. lia.
Qed.

Lemma total_is_win (cells : list cell) :
  total (map TeamStats.is_win cells)
  = Z.of_nat (length (List.filter (fun c => py_eqb c (CStr (lit "W"))) cells)).
Proof.
  induction cells as [|c cells IH]; [reflexivity|].
  unfold total in *. cbn [map foldr List.filter]. rewrite IH.
  unfold TeamStats.is_win. destruct (py_eqb c (CStr (lit "W"))); cbn [length]; lia.
Qed.

(** X9.  The two views of a season agree on the wins and differ on the
    losses: the last point of the cumulative-wins curve of
    [plot_win_loss_record] is the [wins] entry of [get_team_summary], while
    the last point of the cumulative-losses curve is
    [games_played - wins], which counts every game that is not a win and
    is therefore at least the [losses] entry. *)
Theorem win_loss_curves_end_at_summary (team : TeamStats.TeamStatsAnalyzer)
    (gl : DataFrame) (wl : Series) :
  TeamStats.game_log team = Some gl ->
  well_formed gl = true -> (0 < nrows gl)%nat ->
  TeamStats.summary_columns gl = true ->
  getitem gl (lit "WL") = Return wl ->
  exists fig wins_curve losses_curve summary wins losses,
    TeamStats.plot_win_loss_record team = Return fig
    /\ map plot_y (fig_plots fig) = [SInt wins_curve; SInt losses_curve]
    /\ TeamStats.get_team_summary team = Return summary
    /\ summary !! lit "wins" = Some (VInt wins)
    /\ summary !! lit "losses" = Some (VInt losses)
    /\ last wins_curve = Some wins
    /\ last losses_curve = Some (len gl - wins)
    /\ losses <= len gl - wins.
Proof.
  intros Hgl Hwf Hpos Hcols Hwl.
  destruct (plot_win_loss_record_eq team gl wl Hgl Hwf Hpos Hwl) as (fig & Ef & Hy & _).
  destruct (get_team_summary_counts team gl wl Hgl Hpos Hcols Hwl)
    as (summary & Es & _ & Hw & Hl & _).
  cbv zeta in Hy.
  assert (Hlen : series_len wl = nrows gl)
    by (apply (well_formed_len gl (lit "WL")); [exact Hwf | apply getitem_Return, Hwl]).
  set (won := map TeamStats.is_win (rev (series_cells wl))) in *.
  assert (Hn : length won = nrows gl)
    by (unfold won; rewrite length_map, length_rev, series_cells_length; exact Hlen).
  assert (Hbits : Forall (fun x => x = 1 \/ x = 0) won).
  { apply Forall_forall. intros x Hx.
    apply list_elem_of_In, in_map_iff in Hx as (c & <- & _). apply is_win_spec. }
  pose proof (well_formed_int64 gl Hwf) as H64.
  assert (Hwins : total won = count_rows gl (cell_is gl (lit "WL") (CStr (lit "W")))).
  { rewrite (count_rows_cells gl _ wl _ Hwl Hlen). unfold won.
    rewrite map_rev, total_rev. apply total_is_win. }
  assert (Hlast : last (cumsum_from 0 won) = Some (total won)).
  { rewrite cumsum_last; try lia; [f_equal; lia | exact Hbits |].
    intros E. rewrite E in Hn. simpl in Hn. lia. }
  destruct (cumsum_complement won 0 0 (pred (nrows gl))) as (w & k & Ew & Ek & Ewk);
    try lia; [exact Hbits|].
  pose proof (count_rows_exclusive_le gl (cell_is gl (lit "WL") (CStr (lit "W")))
                (cell_is gl (lit "WL") (CStr (lit "L"))) (fun _ => true)) as Hle.
  rewrite count_rows_all in Hle.
  exists fig. eexists _, _, summary, _, _.
  split; [exact Ef|]. split; [exact Hy|]. split; [exact Es|].
  split; [exact Hw|]. split; [exact Hl|].
  rewrite <- Hwins. split; [exact Hlast|].
  rewrite last_lookup, cumsum_from_length, length_map, Hn in *.
  rewrite Ew in Hlast. injection Hlast as Ewt.
  split.
  - rewrite Ek. f_equal. unfold len. lia.
  - rewrite Hwins. apply Z.le_add_le_sub_l. apply Hle; try reflexivity.
    intros i. apply cell_is_exclusive. intros E. vm_compute in E. discriminate E.
Qed.

End Curves.

(** ** League leaders *)

Section Leaders.
Context `{StatsClient}.

Lemma getitem_mapped (df : DataFrame) (n : nat) (f : Series -> Series)
    (col : str) (s : Series) :
  getitem df col = Return s ->
  getitem (mkDF n (map (fun cs => (fst cs, f (snd cs))) (cols df))) col
  = Return (f s).
Proof.
  rewrite getitem_Return. intros E. unfold getitem. cbn [cols].
  rewrite assoc_map, E. reflexivity.
Qed.

Lemma insert_desc_perm (x : nat * Z) (l : list (nat * Z)) :
  TeamStats.insert_desc Z.ltb x l ≡ₚ x :: l.
Proof.
  induction l as [|y l IH]; [reflexivity|]. cbn [TeamStats.insert_desc].
  destruct (snd x <? snd y); [|reflexivity].
  rewrite IH. apply Permutation_swap.
Qed.

Lemma insert_desc_sorted (x : nat * Z) (l : list (nat * Z)) :
  StronglySorted ranks_above l ->
  StronglySorted ranks_above (TeamStats.insert_desc Z.ltb x l).
Proof.
  induction 1 as [|y l Hl IH Hy]; cbn [TeamStats.insert_desc].
  - repeat constructor.
  - destruct (snd x <? snd y) eqn:E.
    + constructor; [exact IH|]. rewrite insert_desc_perm.
      constructor; [unfold ranks_above; lia | exact Hy].
    + constructor; [constructor; assumption|].
      constructor; [unfold ranks_above; lia|].
      eapply Forall_impl; [exact Hy|]. unfold ranks_above. intros z Hz. lia.
Qed.

Lemma sorted_rows (rows : list (nat * Z)) :
  let sorted := foldr (TeamStats.insert_desc Z.ltb) [] rows in
  sorted ≡ₚ rows /\ StronglySorted ranks_above sorted.
Proof.
  induction rows as [|x rows [Hp Hs]]; cbn [foldr]; [split; [reflexivity | constructor]|].
  split; [rewrite insert_desc_perm, Hp; reflexivity | apply insert_desc_sorted, Hs].
Qed.

Lemma zip_seq_lookup (l : list Z) (k : nat) :
  Forall (fun p : nat * Z => (k <= p.1)%nat /\ l !! (p.1 - k)%nat = Some p.2)
    (zip (seq k (length l)) l).
Proof.
  revert k. induction l as [|x l IH]; intros k; cbn; constructor.
  - cbn. rewrite Nat.sub_diag. split; [lia | reflexivity].
  - eapply Forall_impl; [apply (IH (S k))|]. cbn beta. intros [i v] [Hi Hv]. cbn in *.
    split; [lia|]. replace (i - k)%nat with (S (i - S k)) by lia. exact Hv.
Qed.

Lemma omap_lookup_rows (l : list Z) (rows : list (nat * Z)) :
  Forall (fun p : nat * Z => l !! p.1 = Some p.2) rows ->
  omap (fun i => l !! i) (map fst rows) = map snd rows.
Proof.
  induction 1 as [|[i v] rows Hp _ IH]; [reflexivity|].
  cbn [map fst snd].
  change (omap (fun i => l !! i) (i :: map fst rows))
    with (from_option (fun y => y :: omap (fun i => l !! i) (map fst rows))
            (omap (fun i => l !! i) (map fst rows)) (l !! i)).
  cbn in Hp. rewrite Hp. cbn. rewrite IH. reflexivity.
Qed.

Lemma series_take_len (rows : list nat) (s : Series) :
  Forall (fun i => (i < series_len s)%nat) rows ->
  series_len (TeamStats.series_take rows s) = length rows.
Proof.
  assert (G : forall A (l : list A),
             Forall (fun i => (i < length l)%nat) rows ->
             length (omap (fun i => l !! i) rows) = length rows).
  { intros A l. induction 1 as [|i rows Hi _ IH]; [reflexivity|].
    change (omap (fun i => l !! i) (i :: rows))
      with (from_option (fun y => y :: omap (fun i => l !! i) rows)
              (omap (fun i => l !! i) rows) (l !! i)).
    destruct (lookup_lt_is_Some_2 l i Hi) as [y ->]. cbn. rewrite IH. reflexivity. }
  destruct s; cbn; apply G.
Qed.

(** X10.  On loaded standings with an [int64] statistic,
    [plot_league_leaders] draws [min(top_n, teams)] bars.  Each bar's label
    and value come from the same row of the standings, no row is drawn
    twice, the values are in non-increasing order, and no team left out
    has a larger value than a team drawn. *)
Theorem league_leaders_ranked (team : TeamStats.TeamStatsAnalyzer)
    (standings : DataFrame) (stat : str) (top_n : Z) (values : list Z)
    (names : Series) :
  TeamStats.team_stats team = Some standings ->
  well_formed standings = true -> (0 < nrows standings)%nat ->
  getitem standings stat = Return (SInt values) ->
  getitem standings (lit "TEAM_NAME") = Return names ->
  0 <= top_n ->
  exists fig rows drawn,
    TeamStats.plot_league_leaders stat top_n team = Return fig
    /\ map plot_x (fig_plots fig) = [TeamStats.series_take rows names]
    /\ map plot_y (fig_plots fig) = [SInt drawn]
    /\ length rows = Nat.min (Z.to_nat top_n) (nrows standings)
    /\ length drawn = length rows
    /\ NoDup rows
    /\ (forall k i, rows !! k = Some i ->
                    (i < nrows standings)%nat /\ drawn !! k = values !! i)
    /\ StronglySorted Z.ge drawn
    /\ (forall i v d, values !! i = Some v -> i ∉ rows -> d ∈ drawn -> v <= d).
Proof.
  intros Hts Hwf Hpos Hstat Hnames Htop.
  assert (Hlen : length values = nrows standings).
  { apply (well_formed_len standings stat (SInt values) Hwf), getitem_Return, Hstat. }
  set (all := foldr (TeamStats.insert_desc Z.ltb) [] (zip (seq 0 (length values)) values)).
  destruct (sorted_rows (zip (seq 0 (length values)) values)) as [Hperm Hsorted].
  fold all in Hperm, Hsorted.
  assert (Hrows : Forall (fun p : nat * Z => values !! p.1 = Some p.2) all).
  { rewrite Hperm. eapply Forall_impl; [apply (zip_seq_lookup values 0)|].
    cbn beta. intros p [_ Hp]. rewrite Nat.sub_0_r in Hp. exact Hp. }
  assert (Hfst : map fst all ≡ₚ seq 0 (length values)).
  { rewrite Hperm. rewrite fst_zip; [reflexivity | rewrite length_seq; lia]. }
  set (n := Z.to_nat top_n).
  assert (Hkept : Forall (fun p : nat * Z => values !! p.1 = Some p.2) (take n all))
    by (apply Forall_take, Hrows).
  unfold TeamStats.plot_league_leaders. rewrite Hts.
  replace (len standings =? 0) with false by (unfold len; lia).
  unfold TeamStats.nlargest. rewrite Hstat. cbn [mbind result_bind TeamStats.ranking].
  unfold TeamStats.order_desc. fold all. fold n.
  rewrite (getitem_mapped standings _ _ stat _ Hstat). cbn [mbind result_bind].
  rewrite (getitem_mapped standings _ _ _ _ Hnames). cbn [mbind result_bind].
  cbn [TeamStats.series_take].
  rewrite firstn_map, (omap_lookup_rows values (take n all) Hkept).
  assert (Hall : length all = nrows standings).
  { rewrite <- (length_map fst all), (Permutation_length Hfst), length_seq.
    exact Hlen. }
  assert (Hnd : NoDup (map fst all)) by (rewrite Hfst; apply NoDup_seq).
  eexists _, (map fst (take n all)), (map snd (take n all)).
  split; [reflexivity|]. split; [reflexivity|]. split; [reflexivity|].
  split; [rewrite length_map, length_take, Hall; reflexivity|].
  split; [rewrite !length_map; reflexivity|].
  split; [rewrite <- firstn_map; apply (sublist_NoDup _ _ Hnd (sublist_take _ _))|].
  split; [|split].
  - intros k i Hk.
    apply (list_lookup_fmap_Some fst) in Hk as ([i' v] & -> & Ep). cbn [fst].
    pose proof (proj1 (Forall_lookup _ _) Hkept k (i', v) Ep) as Hv. cbn in Hv.
    split; [rewrite <- Hlen; apply (lookup_lt_Some values i' v Hv)|].
    rewrite Hv. apply (list_lookup_fmap_Some_2 snd _ _ _ Ep).
  - assert (Hs : StronglySorted ranks_above (take n all)).
    { rewrite <- (take_drop n all) in Hsorted.
      apply StronglySorted_app_1_l in Hsorted. exact Hsorted. }
    clear -Hs. induction Hs as [|p l _ IH Hp]; cbn [map]; constructor; [exact IH|].
    apply Forall_fmap. eapply Forall_impl; [exact Hp|].
    unfold ranks_above. cbn. intros q Hq. lia.
  - intros i v d Hv Hi Hd.
    apply list_elem_of_fmap in Hd as ([j d'] & -> & Hd). cbn.
    assert (Hin : (i, v) ∈ all).
    { rewrite Hperm. apply list_elem_of_lookup. exists i.
      apply lookup_zip_with_Some. exists i, v. split; [reflexivity|].
      split; [|exact Hv]. apply lookup_seq. split; [reflexivity|].
      apply (lookup_lt_Some values i v Hv). }
    rewrite <- (take_drop n all) in Hin, Hsorted.
    apply elem_of_app in Hin as [Hin|Hin].
    + exfalso. apply Hi. apply list_elem_of_fmap. exists (i, v). split; [reflexivity | exact Hin].
    + apply (StronglySorted_app_1_elem_of _ _ _ (j, d') (i, v) Hsorted Hd Hin).
Qed.

End Leaders.

(** ** The game-identifier scripts *)

Section GameIds.
Context `{StatsClient}.
Import Scripts.

Lemma get_yesterdays_games_eq (env : Env) :
  let day := strftime_mdY (today env - 1) in
  let rq := LeagueGameFinder (lit "00") day day (lit "Regular Season") in
  let resp := first_data_frame rq (svc env) in
  get_yesterdays_games () env
  = (match resp.1 with
     | inr games_df =>
         ids ← getitem games_df (lit "GAME_ID"); Return (today env - 1, unique ids)
     | inl what => Raise (UpstreamError what)
     end, (),
     mkEnv resp.2 (calls env ++ [(rq, resp.1)]) (today env) (platform env) (files env)).
Proof.
  cbv zeta. unfold get_yesterdays_games.
  rewrite bind_eq. unfold now at 1. cbn beta iota.
  rewrite bind_eq, request_eq. cbn [today].
  destruct (first_data_frame _ _).1 as [what|games_df]; [reflexivity|].
  rewrite bind_eq. unfold lift at 1.
  destruct (getitem games_df (lit "GAME_ID")) as [ids|e]; reflexivity.
Qed.

Lemma seen_string (c : str) (seen : list str) :
  existsb (same_value (CStr c)) (map CStr seen) = bool_decide (c ∈ seen).
Proof.
  induction seen as [|s seen IH]; [reflexivity|].
  cbn [map existsb]. rewrite IH. cbn [same_value py_eqb]. unfold str_eqb.
  destruct (bool_decide_reflect (c = s)) as [E|E],
           (bool_decide_reflect (c ∈ seen)) as [Hs|Hs];
    cbn; symmetry;
    first [apply bool_decide_eq_true | apply bool_decide_eq_false];
    rewrite elem_of_cons; tauto.
Qed.

Lemma unique_from_strings (names seen : list str) :
  exists ids,
    unique_from (map CStr seen) (map CStr names) = map CStr ids
    /\ NoDup ids
    /\ (forall n, n ∈ ids <-> n ∈ names /\ n ∉ seen)
    /\ sublist ids names.
Proof.
  revert seen. induction names as [|c names IH]; intros seen.
  - exists []. split; [reflexivity|]. split; [constructor|].
    split; [|constructor]. intros n. rewrite elem_of_nil. tauto.
  - cbn [map unique_from]. rewrite seen_string.
    destruct (bool_decide_reflect (c ∈ seen)) as [Hc|Hc].
    + destruct (IH seen) as (ids & E & Hnd & Hmem & Hsub).
      exists ids. split; [exact E|]. split; [exact Hnd|].
      split; [|apply sublist_cons, Hsub].
      intros n. rewrite Hmem, elem_of_cons. split; [tauto|].
      intros [[->|Hn] Hs]; tauto.
    + destruct (IH (c :: seen)) as (ids & E & Hnd & Hmem & Hsub).
      exists (c :: ids). cbn [map] in E |- *. rewrite E.
      split; [reflexivity|]. split.
      { constructor; [|exact Hnd]. rewrite Hmem, elem_of_cons. tauto. }
      split; [|apply sublist_skip, Hsub].
      intros n. rewrite !elem_of_cons, Hmem, elem_of_cons.
      destruct (decide (n = c)) as [->|Hn]; tauto.
Qed.

(** X11.  When the game finder answers with a frame whose [GAME_ID] column
    holds strings, [get_yesterdays_games] returns yesterday's date and the
    identifiers of the column without repetition: every identifier of the
    column once, in the order of the column.  One request is issued, for
    that one day, and no file is touched. *)
Theorem yesterdays_game_ids_distinct (env : Env) (games_df : DataFrame)
    (column : list str) :
  let day := strftime_mdY (today env - 1) in
  let rq := LeagueGameFinder (lit "00") day day (lit "Regular Season") in
  (first_data_frame rq (svc env)).1 = inr games_df ->
  getitem games_df (lit "GAME_ID") = Return (SObj (map CStr column)) ->
  exists ids env',
    get_yesterdays_games () env = (Return (today env - 1, map CStr ids), (), env')
    /\ calls env' = calls env ++ [(rq, inr games_df)]
    /\ files env' = files env
    /\ NoDup ids
    /\ (forall gid, gid ∈ ids <-> gid ∈ column)
    /\ sublist ids column.
Proof.
  intros day rq Hresp Hcol.
  pose proof (get_yesterdays_games_eq env) as E. cbv zeta in E.
  fold day in E. fold rq in E. rewrite Hresp, Hcol in E.
  cbn [mbind result_bind] in E. unfold unique in E. cbn [series_cells] in E.
  destruct (unique_from_strings column []) as (ids & Eu & Hnd & Hmem & Hsub).
  cbn [map] in Eu. rewrite Eu in E.
  eexists ids, _. split; [exact E|]. cbn [calls files].
  split; [reflexivity|]. split; [reflexivity|]. split; [exact Hnd|].
  split; [|exact Hsub].
  intros gid. rewrite Hmem, elem_of_nil. tauto.
Qed.


Lemma lstrip_app (a b : str) :
  lstrip (a ++ b) = if forallb isspace a then lstrip b else lstrip a ++ b.
Proof.
  induction a as [|c a IH]; [reflexivity|].
  cbn [app lstrip forallb]. destruct (isspace c); [exact IH | reflexivity].
Qed.

Lemma lstrip_all_space (a : str) : forallb isspace a = true -> lstrip a = [].
Proof.
  induction a as [|c a IH]; [reflexivity|].
  cbn [forallb lstrip]. destruct (isspace c); [exact IH | discriminate].
Qed.

Lemma lstrip_head (s : str) :
  lstrip s = [] \/ exists c t, lstrip s = c :: t /\ isspace c = false.
Proof.
  induction s as [|c s IH]; [left; reflexivity|].
  cbn [lstrip]. destruct (isspace c) eqn:Hc; [exact IH|].
  right. exists c, s. split; [reflexivity | exact Hc].
Qed.

Lemma lstrip_lstrip (s : str) : lstrip (lstrip s) = lstrip s.
Proof.
  destruct (lstrip_head s) as [->|(c & t & -> & Hc)]; [reflexivity|].
  cbn [lstrip]. rewrite Hc. reflexivity.
Qed.

Lemma rstrip_head (c : N) (t : list N) :
  isspace c = false -> exists t', rstrip (c :: t) = c :: t'.
Proof.
  intros Hc. unfold rstrip. cbn [rev]. rewrite lstrip_app.
  destruct (forallb isspace (rev t)).
  - exists []. cbn [lstrip]. rewrite Hc. reflexivity.
  - exists (rev (lstrip (rev t))). rewrite rev_app_distr. reflexivity.
Qed.

(** What [strip] returns has nothing left to strip. *)
Lemma strip_stripped (s : str) : stripped (strip s).
Proof.
  unfold stripped, strip. split.
  - destruct (lstrip_head s) as [->|(c & t & -> & Hc)]; [reflexivity|].
    destruct (rstrip_head c t Hc) as [t' ->]. cbn [lstrip]. rewrite Hc. reflexivity.
  - unfold rstrip. rewrite rev_involutive, lstrip_lstrip. reflexivity.
Qed.

(** The newline that ends a line does not change what [strip] gives. *)
Lemma strip_newline (body : str) : strip (body ++ [LF]) = strip body.
Proof.
  unfold strip. rewrite lstrip_app.
  destruct (forallb isspace body) eqn:Hb.
  - rewrite (lstrip_all_space body Hb). reflexivity.
  - unfold rstrip. rewrite rev_app_distr. reflexivity.
Qed.

Lemma lstrip_Forall (P : char -> Prop) (s : str) : Forall P s -> Forall P (lstrip s).
Proof.
  induction 1 as [|c s Hc Hs IH]; [constructor|].
  cbn [lstrip]. destruct (isspace c); [exact IH | constructor; assumption].
Qed.

Lemma strip_Forall (P : char -> Prop) (s : str) : Forall P s -> Forall P (strip s).
Proof.
  intros Hs. unfold strip, rstrip.
  apply Forall_rev, lstrip_Forall, Forall_rev, lstrip_Forall, Hs.
Qed.

Lemma universal_newlines_no_CR (s : str) :
  Forall (fun c => c <> CR) (universal_newlines s).
Proof.
  remember (length s) as n eqn:Hn. revert s Hn.
  induction n as [n IH] using lt_wf_ind. intros s Hn.
  destruct s as [|c s]; [constructor|]. cbn [universal_newlines].
  destruct (c =? CR)%N eqn:Hc.
  - destruct s as [|c' s].
    + repeat constructor. discriminate.
    + destruct (c' =? LF)%N; (constructor; [discriminate|]).
      * apply (IH (length s)); [cbn [length] in Hn; lia | reflexivity].
      * apply (IH (length (c' :: s))); [cbn [length] in Hn |- *; lia | reflexivity].
  - constructor; [apply N.eqb_neq, Hc|].
    apply (IH (length s)); [cbn [length] in Hn; lia | reflexivity].
Qed.

(** Every line the file object yields is a body without newline, followed
    or not by one. *)
Lemma lines_from_bodies (P : char -> Prop) (s current : str) :
  Forall (fun c => c <> LF /\ P c) current ->
  Forall P s ->
  Forall (fun line =>
            exists body, Forall (fun c => c <> LF /\ P c) body
                         /\ (line = body ++ [LF] \/ line = body))
         (lines_from current s).
Proof.
  revert current. induction s as [|c s IH]; intros current Hcur Hs.
  - cbn [lines_from]. destruct current as [|c0 current]; [constructor|].
    constructor; [|constructor]. exists (c0 :: current). split; [exact Hcur | right; reflexivity].
  - cbn [lines_from]. apply Forall_cons in Hs as [Hc Hs].
    destruct (c =? LF)%N eqn:Hlf.
    + constructor; [|apply IH; [constructor | exact Hs]].
      exists current. split; [exact Hcur | left; reflexivity].
    + apply IH; [|exact Hs]. apply Forall_app. split; [exact Hcur|].
      constructor; [|constructor]. split; [apply N.eqb_neq, Hlf | exact Hc].
Qed.

(** X13.  [NBA_API.py] starts from an empty list whatever [games] held.
    Without the file it stops with [FileNotFoundError] and [games] stays
    empty.  With the file, whatever its content, [games] gets one entry
    per line, and no entry begins or ends with whitespace or contains a
    newline or carriage return. *)
Theorem games_list_stripped (before : Globals) (env : Env) :
  match files env !! lit "yesterdays_games.txt" with
  | None =>
      NBA_API before env
      = (Raise (FileNotFoundError (lit "yesterdays_games.txt")), mkGlobals [], env)
  | Some content =>
      exists entries,
        NBA_API before env = (Return (), mkGlobals entries, env)
        /\ length entries = length (lines_from [] (universal_newlines content))
        /\ Forall (fun entry => stripped entry /\ (LF ∉ entry) /\ (CR ∉ entry)) entries
  end.
Proof.
  assert (E : NBA_API before env
              = match files env !! lit "yesterdays_games.txt" with
                | Some content =>
                    append_stripped (lines_from [] (universal_newlines content))
                      (mkGlobals []) env
                | None =>
                    (Raise (FileNotFoundError (lit "yesterdays_games.txt")),
                     mkGlobals [], env)
                end).
  { unfold NBA_API. rewrite bind_eq. unfold put_self at 1. cbn beta iota.
    rewrite bind_eq. unfold read_lines at 1.
    destruct (files env !! lit "yesterdays_games.txt"); reflexivity. }
  rewrite E. clear E.
  destruct (files env !! lit "yesterdays_games.txt") as [content|]; [|reflexivity].
  rewrite append_stripped_eq. cbn [games app].
  eexists. split; [reflexivity|]. split; [apply length_map|].
  pose proof (lines_from_bodies (fun c => c <> CR) (universal_newlines content) []
                (Forall_nil_2 _) (universal_newlines_no_CR content)) as Hlines.
  apply Forall_fmap. eapply Forall_impl; [exact Hlines|].
  intros line (body & Hbody & Hline). cbn.
  split; [apply strip_stripped|].
  assert (Hstrip : strip line = strip body).
  { destruct Hline as [->| ->]; [apply strip_newline | reflexivity]. }
  rewrite Hstrip.
  pose proof (strip_Forall _ body Hbody) as Hs.
  rewrite Forall_forall in Hs.
  split; intros Hin; apply Hs in Hin; tauto.
Qed.

End GameIds.

(** ** Comparing teams *)

Section Comparison.
Context `{StatsClient}.

Lemma select_same {A} (f : A -> bool) (l : list A) :
  select (map f l) l = List.filter f l.
Proof.
  induction l as [|x l IH]; [reflexivity|].
  cbn [map select List.filter]. rewrite IH. reflexivity.
Qed.

Lemma select_select {A B} (g p : A -> bool) (ns : list A) (l : list B) :
  length l = length ns ->
  select (map p (select (map g ns) ns)) (select (map g ns) l)
  = select (map (fun c => g c && p c) ns) l.
Proof.
  revert l. induction ns as [|c ns IH]; intros [|x l] Hlen; try discriminate Hlen;
    [reflexivity|].
  injection Hlen as Hlen. cbn [map select].
  destruct (g c); cbn [andb map select]; [destruct (p c)|]; rewrite (IH l Hlen);
    reflexivity.
Qed.

Lemma select_head {A B} (q : A -> bool) (ns : list A) (l : list B) :
  length l = length ns ->
  head (select (map q ns) l) = first_index q ns ≫= fun i => l !! i.
Proof.
  revert l. induction ns as [|c ns IH]; intros [|x l] Hlen; try discriminate Hlen;
    [reflexivity|].
  injection Hlen as Hlen. cbn [map select first_index].
  destruct (q c); [reflexivity|]. rewrite (IH l Hlen).
  destruct (first_index q ns); reflexivity.
Qed.

Lemma first_index_existsb {A} (q : A -> bool) (l : list A) :
  is_Some (first_index q l) <-> existsb q l = true.
Proof.
  induction l as [|x l IH]; cbn [first_index existsb].
  - split; [intros [i Hi]; discriminate Hi | discriminate].
  - destruct (q x); cbn [orb]; [split; eauto|].
    rewrite <- IH. rewrite fmap_is_Some. reflexivity.
Qed.

Lemma first_index_lt {A} (q : A -> bool) (l : list A) (i : nat) :
  first_index q l = Some i -> (i < length l)%nat.
Proof.
  revert i. induction l as [|x l IH]; intros i; cbn [first_index length];
    [discriminate|].
  destruct (q x).
  - intros [= <-]. lia.
  - destruct (first_index q l) as [j|]; [|discriminate].
    intros [= <-]. specialize (IH j eq_refl). lia.
Qed.

Lemma nrows_df_mask {B} (df : DataFrame) (mask : list bool) (l : list B) :
  length l = nrows df -> nrows (df_mask df mask) = length (select mask l).
Proof.
  intros Hlen. cbn [df_mask nrows]. apply select_length_eq.
  rewrite length_seq. symmetry. exact Hlen.
Qed.

Lemma filter_length_pos {A} (q : A -> bool) (l : list A) :
  (0 <? Z.of_nat (length (List.filter q l))) = existsb q l.
Proof.
  induction l as [|x l IH]; [reflexivity|].
  cbn [List.filter existsb]. destruct (q x); [|exact IH].
  cbn [length orb]. apply Z.ltb_lt. lia.
Qed.

Section Teams.
Variables (standings : DataFrame) (names : Series) (team_names : list str).
Hypothesis Hwf : well_formed standings = true.
Hypothesis Hnames : getitem standings (lit "TEAM_NAME") = Return names.

Let chosen (c : cell) : bool := existsb (fun n => py_eqb c (CStr n)) team_names.
Let teams_data := df_mask standings (TeamStats.isin names team_names).

Lemma names_length : length (series_cells names) = nrows standings.
Proof.
  rewrite series_cells_length.
  apply (well_formed_len standings (lit "TEAM_NAME") names Hwf), getitem_Return, Hnames.
Qed.

Lemma chosen_named (team : str) (c : cell) :
  team ∈ team_names ->
  chosen c && py_eqb c (CStr team) = py_eqb c (CStr team).
Proof.
  intros Hteam. destruct (py_eqb c (CStr team)) eqn:Hc; [|apply andb_false_r].
  rewrite andb_true_r. unfold chosen. apply existsb_exists.
  exists team. split; [apply list_elem_of_In, Hteam | exact Hc].
Qed.

(** The rows of one team, taken from the rows of the teams asked for, are
    the rows of the standings that carry its name. *)
Lemma team_rows {B} (team : str) (l : list B) :
  team ∈ team_names -> length l = nrows standings ->
  select (eq_scalar (series_select (TeamStats.isin names team_names) names) (CStr team))
    (select (TeamStats.isin names team_names) l)
  = select (map (fun c => py_eqb c (CStr team)) (series_cells names)) l.
Proof.
  intros Hteam Hlen. unfold eq_scalar, TeamStats.isin.
  rewrite series_cells_select. fold chosen.
  rewrite (select_select chosen _ (series_cells names) l)
    by (rewrite names_length; exact Hlen).
  f_equal. apply map_ext. intros c. apply chosen_named, Hteam.
Qed.

Lemma team_data_len (team : str) :
  team ∈ team_names ->
  (len (df_mask teams_data
          (eq_scalar (series_select (TeamStats.isin names team_names) names)
             (CStr team))) >? 0)
  = listed names team.
Proof.
  intros Hteam. unfold len.
  rewrite (nrows_df_mask teams_data _
             (select (TeamStats.isin names team_names) (series_cells names))).
  - rewrite (team_rows team _ Hteam names_length), select_same.
    rewrite Z.gtb_ltb, filter_length_pos. unfold listed, first_row.
    destruct (first_index _ (series_cells names)) as [i|] eqn:Ei.
    + apply first_index_existsb. eauto.
    + destruct (existsb _ _) eqn:Ex; [|reflexivity].
      apply first_index_existsb in Ex as [i Hi]. congruence.
  - symmetry. apply nrows_df_mask, names_length.
Qed.

Lemma first_values_eq (team : str) (i : nat) (stat_columns : list str) :
  team ∈ team_names -> first_row names team = Some i ->
  TeamStats.first_values
    (df_mask teams_data
       (eq_scalar (series_select (TeamStats.isin names team_names) names) (CStr team)))
    stat_columns
  = Return (omap (fun stat => cell_at standings stat i) stat_columns).
Proof.
  intros Hteam Hi. unfold teams_data.
  induction stat_columns as [|stat rest IH]; [reflexivity|].
  cbn [TeamStats.first_values].
  change (omap ?f (stat :: rest))
    with (from_option (fun c => c :: omap f rest) (omap f rest) (f stat)).
  assert (Hcols : forall df m, columns (df_mask df m) = columns df).
  { intros df m. unfold columns, df_mask. cbn [cols]. rewrite map_map.
    apply map_ext. intros [k s]. reflexivity. }
  rewrite !Hcols.
  destruct (str_in stat (columns standings)) eqn:Hin.
  - apply str_in_columns in Hin as [s Hs].
    rewrite (getitem_df_mask _ _ _ _ (getitem_df_mask _ _ _ _ Hs)).
    cbn [mbind result_bind]. rewrite !series_cells_select.
    pose proof Hs as Ha. apply getitem_Return in Ha.
    assert (Hcell : cell_at standings stat i = series_cells s !! i)
      by (unfold cell_at; rewrite Ha; reflexivity).
    rewrite Hcell.
    assert (Hlen : length (series_cells s) = nrows standings).
    { rewrite series_cells_length. apply (well_formed_len standings _ _ Hwf Ha). }
    rewrite (team_rows team _ Hteam Hlen).
    pose proof (select_head (fun c => py_eqb c (CStr team)) (series_cells names)
                  (series_cells s)) as Hhead.
    rewrite names_length in Hhead. specialize (Hhead Hlen).
    unfold first_row in Hi. rewrite Hi in Hhead. cbn [mbind option_bind] in Hhead.
    destruct (series_cells s !! i) as [c|] eqn:Hc.
    + destruct (select _ (series_cells s)) as [|c' l]; [discriminate Hhead|].
      injection Hhead as ->. cbn [mbind result_bind]. rewrite IH. reflexivity.
    + apply lookup_ge_None in Hc. apply first_index_lt in Hi.
      rewrite names_length in Hi. lia.
  - rewrite IH.
    assert (Ha : assoc stat (cols standings) = None).
    { destruct (assoc stat (cols standings)) as [s|] eqn:Ha; [|reflexivity].
      assert (Hex : exists s, getitem standings stat = Return s)
        by (exists s; apply getitem_Return, Ha).
      apply str_in_columns in Hex. congruence. }
    assert (Hcell : cell_at standings stat i = None)
      by (unfold cell_at; rewrite Ha; reflexivity).
    rewrite Hcell. reflexivity.
Qed.

Lemma team_bars_eq (stat_columns : list str) (width : float) (teams : list str) (i : Z) :
  Forall (fun team => team ∈ team_names) teams ->
  exists plots,
    TeamStats.team_bars teams_data stat_columns width i teams = Return plots
    /\ map plot_label plots = List.filter (listed names) teams
    /\ Forall (fun p =>
                 exists row, first_row names (plot_label p) = Some row
                   /\ plot_y p
                      = SObj (omap (fun stat => cell_at standings stat row) stat_columns)
                   /\ series_len (plot_x p) = length stat_columns) plots.
Proof.
  intros Hteams. revert i. induction Hteams as [|team teams Hteam _ IH]; intros i.
  - exists []. split; [reflexivity|]. split; [reflexivity | constructor].
  - cbn [TeamStats.team_bars].
    assert (Hg : getitem teams_data (lit "TEAM_NAME")
                 = Return (series_select (TeamStats.isin names team_names) names))
      by apply (getitem_df_mask _ _ _ _ Hnames).
    rewrite Hg. cbn [mbind result_bind].
    rewrite (team_data_len team Hteam).
    cbn [List.filter]. destruct (IH (i + 1)) as (plots & E & Hlabels & Hplots).
    destruct (listed names team) eqn:Hl.
    + unfold listed in Hl. destruct (first_row names team) as [row|] eqn:Hrow;
        [|discriminate Hl].
      rewrite (first_values_eq team row stat_columns Hteam Hrow).
      cbn [mbind result_bind]. rewrite E. cbn [mbind result_bind].
      eexists. split; [reflexivity|]. cbn [map plot_label].
      split; [rewrite Hlabels; reflexivity|].
      constructor; [|exact Hplots]. cbn [plot_label plot_y plot_x].
      exists row. split; [exact Hrow|]. split; [reflexivity|].
      cbn [series_len]. rewrite length_map, length_seq. reflexivity.
    + exists plots. split; [exact E|]. split; [exact Hlabels | exact Hplots].
Qed.

End Teams.

(** X14.  On loaded standings, [compare_teams] raises the "No teams found"
    [ValueError] exactly when none of the names asked for occurs in
    [TEAM_NAME]; an empty list of names ends there too, before the division
    by its length.  Otherwise it returns a figure with one group of bars
    for each name that occurs, in the order asked for, and the heights of a
    group are the cells of the first row that carries the name, one for
    each statistic. *)
Theorem compare_teams_bars (team : TeamStats.TeamStatsAnalyzer) (standings : DataFrame)
    (names : Series) (team_names stat_columns : list str) :
  TeamStats.team_stats team = Some standings ->
  well_formed standings = true -> (0 < nrows standings)%nat ->
  getitem standings (lit "TEAM_NAME") = Return names ->
  Forall (fun stat => TeamStats.numeric_column standings stat = true) stat_columns ->
  match List.filter (listed names) team_names with
  | [] =>
      TeamStats.compare_teams team_names stat_columns team
      = Raise (ValueError (lit "No teams found with the given names"))
  | found =>
      exists fig,
        TeamStats.compare_teams team_names stat_columns team = Return fig
        /\ map plot_label (fig_plots fig) = found
        /\ Forall (fun p =>
                     exists row, first_row names (plot_label p) = Some row
                       /\ plot_y p
                          = SObj (omap (fun stat => cell_at standings stat row)
                                    stat_columns)
                       /\ series_len (plot_x p) = length stat_columns
                       /\ series_len (plot_y p) = length stat_columns)
                  (fig_plots fig)
  end.
Proof.
  intros Hstats Hwf Hpos Hnames Hnum.
  unfold TeamStats.compare_teams. rewrite Hstats.
  replace (len standings =? 0) with false by (unfold len; lia).
  rewrite Hnames. cbn [mbind result_bind].
  pose proof (names_length standings names Hwf Hnames) as Hlen.
  assert (Hrows : len (df_mask standings (TeamStats.isin names team_names))
                  = Z.of_nat (length (List.filter
                       (fun c => existsb (fun n => py_eqb c (CStr n)) team_names)
                       (series_cells names)))).
  { unfold len. rewrite (nrows_df_mask standings _ (series_cells names) Hlen).
    unfold TeamStats.isin. rewrite select_same. reflexivity. }
  assert (Hnone : (len (df_mask standings (TeamStats.isin names team_names)) =? 0)
                  = match List.filter (listed names) team_names with
                    | [] => true
                    | _ => false
                    end).
  { rewrite Hrows.
    pose proof (filter_length_pos
                  (fun c => existsb (fun n => py_eqb c (CStr n)) team_names)
                  (series_cells names)) as Hp.
    assert (Hex : existsb (fun c => existsb (fun n => py_eqb c (CStr n)) team_names)
                    (series_cells names)
                  = existsb (listed names) team_names).
    { apply eq_true_iff_eq. rewrite !existsb_exists. split.
      - intros (c & Hc & Hn). apply existsb_exists in Hn as (n & Hn & Hcn).
        exists n. split; [exact Hn|]. unfold listed, first_row.
        destruct (first_index _ (series_cells names)) eqn:Ei; [reflexivity|].
        assert (Hs : is_Some (first_index (fun c => py_eqb c (CStr n))
                                (series_cells names))).
        { apply first_index_existsb, existsb_exists. exists c. split; assumption. }
        rewrite Ei in Hs. destruct Hs as [? Hs]. discriminate Hs.
      - intros (n & Hn & Hl). unfold listed, first_row in Hl.
        destruct (first_index _ (series_cells names)) as [i|] eqn:Ei; [|discriminate Hl].
        assert (Hs : existsb (fun c => py_eqb c (CStr n)) (series_cells names) = true)
          by (apply first_index_existsb; eauto).
        apply existsb_exists in Hs as (c & Hc & Hcn).
        exists c. split; [exact Hc|]. apply existsb_exists. exists n. split; assumption. }
    rewrite Hex in Hp.
    destruct (List.filter (listed names) team_names) as [|t found] eqn:Ef.
    - assert (Hf : existsb (listed names) team_names = false).
      { destruct (existsb (listed names) team_names) eqn:Ee; [|reflexivity].
        apply existsb_exists in Ee as (n & Hn & Hl).
        assert (Hin : In n (List.filter (listed names) team_names))
          by (apply List.filter_In; split; assumption).
        rewrite Ef in Hin. destruct Hin. }
      rewrite Hf in Hp. apply Z.ltb_ge in Hp. apply Z.eqb_eq. lia.
    - assert (Hf : existsb (listed names) team_names = true).
      { apply existsb_exists. exists t.
        assert (Hin : In t (List.filter (listed names) team_names))
          by (rewrite Ef; left; reflexivity).
        apply List.filter_In in Hin. exact Hin. }
      rewrite Hf in Hp. apply Z.ltb_lt in Hp. apply Z.eqb_neq. lia. }
  rewrite Hnone.
  destruct (List.filter (listed names) team_names) as [|t found] eqn:Ef; [reflexivity|].
  assert (Hne : (Z.of_nat (length team_names) =? 0) = false).
  { destruct team_names; [discriminate Ef|]. cbn [length]. apply Z.eqb_neq. lia. }
  rewrite Hne. cbn [mbind result_bind].
  destruct (team_bars_eq standings names team_names Hwf Hnames stat_columns
              (fdiv (float_lit 0.8) (float_of_int (Z.of_nat (length team_names))))
              team_names 0) as (plots & E & Hlabels & Hplots).
  { apply Forall_forall. intros n Hn. exact Hn. }
  rewrite E. cbn [mbind result_bind].
  eexists. split; [reflexivity|]. cbn [fig_plots].
  split; [rewrite Hlabels; exact Ef|].
  eapply Forall_impl; [exact Hplots|].
  intros p (row & Hrow & Hy & Hx). exists row.
  split; [exact Hrow|]. split; [exact Hy|]. split; [exact Hx|].
  rewrite Hy. cbn [series_len].
  assert (Hrow' : (row < nrows standings)%nat).
  { unfold first_row in Hrow. apply first_index_lt in Hrow. lia. }
  clear -Hnum Hwf Hrow'. induction Hnum as [|stat rest Hstat _ IH]; [reflexivity|].
  change (omap ?f (stat :: rest))
    with (from_option (fun c => c :: omap f rest) (omap f rest) (f stat)).
  unfold TeamStats.numeric_column in Hstat.
  destruct (assoc stat (cols standings)) as [s|] eqn:Ha; [|discriminate Hstat].
  assert (Hcell : cell_at standings stat row = series_cells s !! row)
    by (unfold cell_at; rewrite Ha; reflexivity).
  rewrite Hcell.
  destruct (series_cells s !! row) as [c|] eqn:Hc.
  - cbn [from_option length]. rewrite IH. reflexivity.
  - apply lookup_ge_None in Hc. rewrite series_cells_length in Hc.
    rewrite (well_formed_len standings _ _ Hwf Ha) in Hc. lia.
Qed.

End Comparison.

(** ** The usage examples *)

Section Examples.
Context `{StatsClient}.
Import UsageExamples.

(** The statistics of a loaded, non-empty frame hold the two entries the
    example prints. *)
Lemma printed_statistics (df : DataFrame) :
  well_formed df = true -> (0 < nrows df)%nat ->
  str_in (lit "SHOT_MADE_FLAG") (columns df) = true ->
  str_in (lit "SHOT_TYPE") (columns df) = true ->
  exists stats,
    ShotChart.get_shot_statistics (ShotChart.mkShotChartAnalyzer (Some df))
    = Return stats
    /\ stats !! lit "total_shots" = Some (VInt (len df))
    /\ stats !! lit "fg_percentage" = Some (ShotChart.cached_fg_pct df).
Proof.
  intros Hwf Hpos Hflag Hty.
  apply str_in_columns in Hflag as [flag Hflag].
  apply str_in_columns in Hty as [ty Hty].
  destruct (get_shot_statistics_eq df flag ty Hwf Hpos Hflag Hty) as (with3 & E3 & E).
  cbv zeta in E3, E.
  rewrite (three_point_statistics_eq df _ flag ty Hwf Hflag Hty) in E3.
  rewrite (two_point_statistics_eq df _ flag ty Hwf Hflag Hty) in E.
  cbv zeta in E3, E. injection E3 as E3.
  eexists. split; [exact E|].
  unfold ShotChart.cached_fg_pct.
  replace (len df >? 0) with true by (unfold len; lia).
  subst with3.
  destruct (count_rows df (ShotChart.type_row df "3PT Field Goal") >? 0);
    destruct (count_rows df (ShotChart.type_row df "2PT Field Goal") >? 0);
    split; lookup_key.
Qed.

(** X15.  [example_shot_chart] works on an analyzer of its own, so what
    the caller's analyzer held plays no part.  When the service answers with
    a frame that has the columns read, the frame is cached; on a frame
    without rows the chart is drawn and the example then stops with
    [KeyError('total_shots')], nothing printed; on a frame with rows it
    prints the number of rows and the field-goal percentage that the title
    of the chart shows. *)
Theorem example_shot_chart_prints (st : ShotChart.ShotChartAnalyzer * list str)
    (env : Env) (pid : Z) (df : DataFrame) :
  let rq := ShotChartDetail 0 pid (lit "2023-24") (lit "Regular Season") (lit "FGA") in
  ShotChart.get_player_id (lit "LeBron James") = Some pid ->
  (first_data_frame rq (svc env)).1 = inr df ->
  well_formed df = true ->
  Forall (fun col => str_in (lit col) (columns df) = true)
    ["SHOT_MADE_FLAG"; "LOC_X"; "LOC_Y"; "SHOT_TYPE"]%string ->
  let run := example_shot_chart st env in
  let printed := run.1.2.2 in
  run.1.2.1 = ShotChart.mkShotChartAnalyzer (Some df)
  /\ calls run.2 = calls env ++ [(rq, inr df)]
  /\ (nrows df = 0%nat ->
      outcome run = Raise (KeyError (lit "total_shots")) /\ printed = st.2)
  /\ ((0 < nrows df)%nat ->
      outcome run = Return ()
      /\ printed
         = st.2 ++ [lit "Total Shots: " ++ str_of_int (len df);
                    lit "FG%: " ++ format_value_1f (ShotChart.cached_fg_pct df)
                    ++ lit "%"]
      /\ exists fig,
           ShotChart.draw_shot_chart df (lit "LeBron James") (lit "2023-24")
             (lit "Regular Season") None = Return fig
           /\ fig_title fig
              = ShotChart.default_title (lit "LeBron James") (lit "2023-24")
                  (lit "Regular Season") (ShotChart.cached_fg_pct df)).
Proof.
  intros rq Hpid Hresp Hwf Hcols.
  apply Forall_cons in Hcols as [Hflag Hcols].
  apply Forall_cons in Hcols as [Hx Hcols].
  apply Forall_cons in Hcols as [Hy Hcols].
  apply Forall_cons in Hcols as [Hty _].
  pose proof Hflag as Hflag'. apply str_in_columns in Hflag' as [flag Eflag].
  apply str_in_columns in Hx as [xs Ex].
  apply str_in_columns in Hy as [ys Ey].
  pose proof (draw_shot_chart_eq df flag xs ys (lit "LeBron James") (lit "2023-24")
                (lit "Regular Season") None Eflag Ex Ey) as Edraw.
  assert (Eplot : ShotChart.plot_shot_chart (lit "LeBron James") (lit "2023-24")
                    (lit "Regular Season") None ShotChart.init env
                  = (ShotChart.draw_shot_chart df (lit "LeBron James") (lit "2023-24")
                       (lit "Regular Season") None,
                     ShotChart.mkShotChartAnalyzer (Some df),
                     mkEnv (first_data_frame rq (svc env)).2
                       (calls env ++ [(rq, inr df)]) (today env) (platform env)
                       (files env))).
  { rewrite plot_shot_chart_eq. cbn [ShotChart.shot_data ShotChart.init].
    rewrite fetch_shot_data_eq, Hpid. cbv zeta. fold rq. rewrite Hresp. reflexivity. }
  assert (Erun : example_shot_chart st env
                 = ((stats ← on_analyzer (read_only ShotChart.get_shot_statistics);
                     total ← lift (dict_getitem stats (lit "total_shots"));
                     print (lit "Total Shots: " ++ format_value total);;
                     fg ← lift (dict_getitem stats (lit "fg_percentage"));
                     print (lit "FG%: " ++ format_value_1f fg ++ lit "%"))
                      (ShotChart.mkShotChartAnalyzer (Some df), st.2)
                      (mkEnv (first_data_frame rq (svc env)).2
                         (calls env ++ [(rq, inr df)]) (today env) (platform env)
                         (files env)))).
  { unfold example_shot_chart. rewrite bind_eq. unfold construct at 1. cbn beta iota.
    rewrite bind_eq. unfold on_analyzer at 1. cbn [fst snd].
    rewrite Eplot, Edraw. reflexivity. }
  clear Eplot. cbv zeta.
  destruct (nrows df) as [|n] eqn:Hn.
  - assert (Es : ShotChart.get_shot_statistics (ShotChart.mkShotChartAnalyzer (Some df))
                 = Return ∅).
    { unfold ShotChart.get_shot_statistics. cbn [ShotChart.shot_data].
      unfold len. rewrite Hn. reflexivity. }
    assert (E0 : example_shot_chart st env
                 = (Raise (KeyError (lit "total_shots")),
                    (ShotChart.mkShotChartAnalyzer (Some df), st.2),
                    mkEnv (first_data_frame rq (svc env)).2
                      (calls env ++ [(rq, inr df)]) (today env) (platform env)
                      (files env))).
    { rewrite Erun, bind_eq. unfold on_analyzer at 1, read_only at 1. cbn [fst snd].
      rewrite Es. rewrite bind_eq. unfold lift at 1, dict_getitem at 1.
      rewrite lookup_empty. reflexivity. }
    rewrite E0. cbn [fst snd outcome calls].
    split; [reflexivity|]. split; [reflexivity|].
    split; [intros _; split; reflexivity | intros Habs; lia].
  - destruct (printed_statistics df Hwf) as (stats & Es & Htotal & Hfg);
      [lia | exact Hflag | exact Hty |].
    assert (E1 : example_shot_chart st env
                 = (Return (),
                    (ShotChart.mkShotChartAnalyzer (Some df),
                     st.2 ++ [lit "Total Shots: " ++ str_of_int (len df);
                              lit "FG%: "
                              ++ format_value_1f (ShotChart.cached_fg_pct df)
                              ++ lit "%"]),
                    mkEnv (first_data_frame rq (svc env)).2
                      (calls env ++ [(rq, inr df)]) (today env) (platform env)
                      (files env))).
    { rewrite Erun, bind_eq. unfold on_analyzer at 1, read_only at 1. cbn [fst snd].
      rewrite Es. rewrite bind_eq. unfold lift at 1, dict_getitem at 1. rewrite Htotal.
      rewrite bind_eq. unfold print at 1. cbn [fst snd].
      rewrite bind_eq. unfold lift at 1, dict_getitem at 1. rewrite Hfg.
      unfold print. cbn [fst snd format_value]. rewrite <- app_assoc. reflexivity. }
    rewrite E1. cbn [fst snd outcome calls].
    split; [reflexivity|]. split; [reflexivity|].
    split; [intros Habs; discriminate Habs|]. intros _.
    split; [reflexivity|]. split; [reflexivity|].
    eexists. split; [exact Edraw | reflexivity].
Qed.

End Examples.

(** ** Further concrete runs *)

Section FurtherRuns.
#[local] Existing Instance Qfloat.
#[local] Existing Instance Demo.client.
Import Demo Sample.

Lemma get_season_averages_entries_witness :
  exists averages,
    PlayerStats.get_season_averages player_log_loaded = Return averages
    /\ is_Some (averages !! lit "PTS")
    /\ averages !! lit "WL" = None.
Proof.
  destruct (get_season_averages_entries player_log_loaded player_log)
    as (averages & E & Hentry & Hsome); [reflexivity | reflexivity | simpl; lia |].
  exists averages. split; [exact E|]. split.
  - apply Hsome. split; [|reflexivity].
    apply (bool_decide_unpack _). vm_compute. exact I.
  - rewrite Hentry. reflexivity.
Defined.



Lemma shot_statistics_bounds_witness :
  exists stats total made,
    ShotChart.get_shot_statistics (ShotChart.mkShotChartAnalyzer (Some shots))
    = Return stats
    /\ stats !! lit "total_shots" = Some (VInt total)
    /\ stats !! lit "made_shots" = Some (VInt made)
    /\ 0 <= made <= total.
Proof.
  destruct (shot_statistics_bounds shots)
    as (stats & total & made & E & Htotal & Hmade & Hle & _);
    [reflexivity | simpl; lia | reflexivity | reflexivity |].
  exists stats, total, made. repeat split; try assumption; lia.
Defined.

Lemma team_summary_totals_witness :
  exists summary wins losses,
    TeamStats.get_team_summary team_log_loaded = Return summary
    /\ summary !! lit "wins" = Some (VInt wins)
    /\ summary !! lit "losses" = Some (VInt losses)
    /\ wins + losses <= 4.
Proof.
  destruct (team_summary_totals team_log_loaded team_log
              (SObj [CStr (lit "W"); CStr (lit "L"); CNone; CStr (lit "W")]))
    as (summary & wins & losses & E & _ & Hwins & Hlosses & _ & _ & Hle & _);
    [reflexivity | reflexivity | simpl; lia | reflexivity | reflexivity |].
  exists summary, wins, losses.
  split; [exact E|]. split; [exact Hwins|]. split; [exact Hlosses | exact Hle].
Defined.

Lemma win_loss_curves_end_at_summary_witness :
  exists fig wins_curve losses_curve,
    TeamStats.plot_win_loss_record team_log_loaded = Return fig
    /\ map plot_y (fig_plots fig) = [SInt wins_curve; SInt losses_curve]
    /\ exists wins, last wins_curve = Some wins
                    /\ last losses_curve = Some (4 - wins).
Proof.
  destruct (win_loss_curves_end_at_summary team_log_loaded team_log
              (SObj [CStr (lit "W"); CStr (lit "L"); CNone; CStr (lit "W")]))
    as (fig & wins_curve & losses_curve & summary & wins & losses
        & E & Hy & _ & _ & _ & Hlast & Hlast' & _);
    [reflexivity | reflexivity | simpl; lia | reflexivity | reflexivity |].
  exists fig, wins_curve, losses_curve.
  split; [exact E|]. split; [exact Hy|].
  exists wins. split; [exact Hlast | exact Hlast'].
Defined.

Lemma league_leaders_ranked_witness :
  exists (fig : Figure) (rows : list nat) (drawn : list Z),
    TeamStats.plot_league_leaders (lit "W") 3 league_loaded = Return fig
    /\ map plot_y (fig_plots fig) = [SInt drawn]
    /\ length rows = 3%nat
    /\ length drawn = length rows
    /\ StronglySorted Z.ge drawn.
Proof.
  destruct (league_leaders_ranked league_loaded league (lit "W") 3 [47; 64; 46; 57]
              (text ["Los Angeles Lakers"; "Boston Celtics"; "Golden State Warriors";
                     "Denver Nuggets"]%string))
    as (fig & rows & drawn & E & _ & Hy & Hrows & Hdrawn & _ & _ & Hsorted & _);
    [reflexivity | reflexivity | simpl; lia | reflexivity | reflexivity | lia |].
  exists fig, rows, drawn.
  split; [exact E|]. split; [exact Hy|]. split; [exact Hrows|].
  split; [exact Hdrawn | exact Hsorted].
Defined.

Lemma yesterdays_game_ids_distinct_witness :
  exists ids env',
    Scripts.get_yesterdays_games () env0 = (Return (739191, map CStr ids), (), env')
    /\ files env' = ∅
    /\ NoDup ids
    /\ (lit "0022300062" ∈ ids).
Proof.
  destruct (yesterdays_game_ids_distinct env0 finder
              [lit "0022300061"; lit "0022300061"; lit "0022300062"; lit "0022300062"])
    as (ids & env' & E & _ & Hfiles & Hnd & Hmem & _); [reflexivity | reflexivity |].
  exists ids, env'. split; [exact E|]. split; [exact Hfiles|]. split; [exact Hnd|].
  apply Hmem. apply (bool_decide_unpack _). vm_compute. exact I.
Defined.

Lemma compare_teams_bars_witness :
  exists fig,
    TeamStats.compare_teams [lit "Boston Celtics"; lit "Seattle"; lit "Los Angeles Lakers"]
      [lit "W"; lit "PTS"] league_loaded = Return fig
    /\ map plot_label (fig_plots fig) = [lit "Boston Celtics"; lit "Los Angeles Lakers"].
Proof.
  pose proof (compare_teams_bars league_loaded league
                (text ["Los Angeles Lakers"; "Boston Celtics"; "Golden State Warriors";
                       "Denver Nuggets"]%string)
                [lit "Boston Celtics"; lit "Seattle"; lit "Los Angeles Lakers"]
                [lit "W"; lit "PTS"] eq_refl eq_refl) as Hbars.
  change (List.filter _ _)
    with [lit "Boston Celtics"; lit "Los Angeles Lakers"] in Hbars.
  destruct Hbars as (fig & E & Hlabels & _);
    [simpl; lia | reflexivity | repeat constructor |].
  exists fig. split; [exact E | exact Hlabels].
Defined.

Lemma example_shot_chart_prints_witness :
  let run := UsageExamples.example_shot_chart (ShotChart.init, []) env0 in
  outcome run = Return ()
  /\ run.1.2.1 = ShotChart.mkShotChartAnalyzer (Some shots)
  /\ length run.1.2.2 = 2%nat.
Proof.
  cbv zeta.
  destruct (example_shot_chart_prints (ShotChart.init, []) env0 2544 shots)
    as (Hanalyzer & _ & _ & Hprinted);
    [reflexivity | reflexivity | reflexivity | repeat constructor |].
  destruct Hprinted as (Hout & Hlines & _); [simpl; lia|].
  split; [exact Hout|]. split; [exact Hanalyzer|].
  rewrite Hlines. reflexivity.
Defined.

Lemma reports_agree_witness :
  exists averages summary values,
    PlayerStats.get_season_averages player_log_loaded = Return averages
    /\ PlayerStats.create_stats_summary player_log_loaded = Return summary
    /\ getitem summary (lit "Value") = Return (SFloat values)
    /\ (exists m, averages !! lit "PTS" = Some (VFloat m)
                  /\ values !! 1%nat = Some (fround 2 m))
    /\ (exists m, averages !! lit "FG_PCT" = Some (VFloat m)
                  /\ values !! 6%nat = Some (fround 2 (fmul m (float_of_int 100)))).
Proof.
  destruct (reports_agree player_log_loaded player_log)
    as (averages & fig & heights & summary & values
        & Eav & _ & _ & Esum & Evalue & Hsummary & _);
    [reflexivity | reflexivity | simpl; lia | reflexivity |].
  exists averages, summary, values.
  split; [exact Eav|]. split; [exact Esum|]. split; [exact Evalue|].
  split.
  - destruct (Hsummary 0%nat (lit "PTS") eq_refl) as (m & Hm & Hv).
    exists m. split; [exact Hm | exact Hv].
  - destruct (Hsummary 5%nat (lit "FG_PCT") eq_refl) as (m & Hm & Hv).
    exists m. split; [exact Hm | exact Hv].
Defined.

End FurtherRuns.
